(** * dashboard-analytics: the period-aggregation engine

    A shallow embedding of [dashboard_charts/analytics.py] (class
    [AdAnalytics]), of [dashboard_charts/services.py] (the win-rate metric
    of both services and the reading of the Notion pages) and of the parts
    of [dashboard_charts/views.py] that compute: the filter options of the
    dashboard and the colours of the product win-rate chart.

    Python values are embedded as follows.
    - [str] is [string]; the labels and cell values of the dashboard are
      taken to be ASCII.
    - [int] is [Z]; [float] is the rational it denotes, every arithmetic
      operation being followed by rounding to the nearest binary64 number
      (module [Float64]).
    - An exception is an explicit outcome: [option] inside a [try] whose
      handler catches [Exception], [Result] for what reaches the caller.
    - pandas is a library the repository calls but does not contain: its
      parsers and period arithmetic are the fields of the record [pd.API]. *)

From Stdlib Require Import String Ascii List Bool ZArith QArith Qround Qabs Qpower.
From Stdlib Require Import Lia Lqa.
From Stdlib Require Import Permutation Sorted.
Import ListNotations.

Local Open Scope string_scope.
Local Open Scope Z_scope.

(** ** Python builtins on strings *)

Module Py.

(** [c.isspace()] for an ASCII character: TAB, LF, VT, FF, CR, the four
    separators 0x1c-0x1f and the space. *)
Definition isspace (c : ascii) : bool :=
  let n := nat_of_ascii c in
  ((9 <=? n) && (n <=? 13))%nat || ((28 <=? n) && (n <=? 32))%nat.

Definition isdigit (c : ascii) : bool :=
  let n := nat_of_ascii c in ((48 <=? n) && (n <=? 57))%nat.

Definition digit_value (c : ascii) : Z := Z.of_nat (nat_of_ascii c) - 48.

Fixpoint lstrip (s : string) : string :=
  match s with
  | String c r => if isspace c then lstrip r else s
  | EmptyString => EmptyString
  end.

Fixpoint rstrip (s : string) : string :=
  match s with
  | String c r =>
      match rstrip r with
      | EmptyString => if isspace c then EmptyString else String c EmptyString
      | r' => String c r'
      end
  | EmptyString => EmptyString
  end.

(** [s.strip()] *)
Definition strip (s : string) : string := rstrip (lstrip s).

(** [c in s] for a one-character [c] *)
Fixpoint contains (c : ascii) (s : string) : bool :=
  match s with
  | String d r => Ascii.eqb c d || contains c r
  | EmptyString => false
  end.

Definition lower_char (c : ascii) : ascii :=
  let n := nat_of_ascii c in
  if ((65 <=? n) && (n <=? 90))%nat then ascii_of_nat (n + 32) else c.

Definition upper_char (c : ascii) : ascii :=
  let n := nat_of_ascii c in
  if ((97 <=? n) && (n <=? 122))%nat then ascii_of_nat (n - 32) else c.

Fixpoint map_string (f : ascii -> ascii) (s : string) : string :=
  match s with
  | String c r => String (f c) (map_string f r)
  | EmptyString => EmptyString
  end.

(** [s.lower()] and [s.upper()] *)
Definition lower : string -> string := map_string lower_char.
Definition upper : string -> string := map_string upper_char.

(** [s.replace('Q', '-Q')] *)
Fixpoint replace_Q (s : string) : string :=
  match s with
  | String c r =>
      if Ascii.eqb c "Q" then String "-" (String "Q" (replace_Q r))
      else String c (replace_Q r)
  | EmptyString => EmptyString
  end.

(** [s.split('-Q')]: the pieces between the occurrences of the separator,
    scanned from the left. *)
Fixpoint split_dashQ (s : string) : list string :=
  match s with
  | EmptyString => [EmptyString]
  | String c r =>
      match r with
      | String d r' =>
          if Ascii.eqb c "-" && Ascii.eqb d "Q"
          then EmptyString :: split_dashQ r'
          else match split_dashQ r with
               | h :: t => String c h :: t
               | [] => [String c EmptyString]
               end
      | EmptyString => [String c EmptyString]
      end
  end.

(** The digits of an [int] literal after the first one: a single underscore
    may separate two digits. *)
Fixpoint int_digits (acc : Z) (s : string) : option Z :=
  match s with
  | EmptyString => Some acc
  | String c r =>
      if isdigit c then int_digits (10 * acc + digit_value c) r
      else if Ascii.eqb c "_" then
        match r with
        | String d r' =>
            if isdigit d then int_digits (10 * acc + digit_value d) r' else None
        | EmptyString => None
        end
      else None
  end.

Definition int_unsigned (s : string) : option Z :=
  match s with
  | String c r => if isdigit c then int_digits (digit_value c) r else None
  | EmptyString => None
  end.

(** [int(s)]: surrounding whitespace is dropped, one sign is allowed;
    [None] stands for [ValueError]. *)
Definition int (s : string) : option Z :=
  match strip s with
  | String c r =>
      if Ascii.eqb c "-" then option_map Z.opp (int_unsigned r)
      else if Ascii.eqb c "+" then int_unsigned r
      else int_unsigned (String c r)
  | EmptyString => None
  end.

(** [s[n:]] *)
Fixpoint skip (n : nat) (s : string) : string :=
  match n, s with
  | O, _ => s
  | S n', String _ r => skip n' r
  | S _, EmptyString => EmptyString
  end.

(** [''.join(filter(str.isdigit, s))] *)
Fixpoint filter_digits (s : string) : string :=
  match s with
  | String c r => if isdigit c then String c (filter_digits r) else filter_digits r
  | EmptyString => EmptyString
  end.

(** [s.zfill(2)] for a string of digits *)
Definition zfill2 (s : string) : string :=
  match String.length s with
  | O => "00"
  | S O => String "0" s
  | _ => s
  end.

(** What a call leaves to its caller: a value or a raised exception. *)
Inductive Exn : Type :=
| KeyError (key : string).

Inductive Result (A : Type) : Type :=
| Ok (a : A)
| Raise (e : Exn).
Arguments Ok {A} a.
Arguments Raise {A} e.

Definition bind {A B} (r : Result A) (k : A -> Result B) : Result B :=
  match r with
  | Ok a => k a
  | Raise e => Raise e
  end.

(** A list built by a loop that calls [f] once per element, in order; the
    first exception ends the loop. *)
Fixpoint for_each {A B} (f : A -> Result B) (l : list A) : Result (list B) :=
  match l with
  | [] => Ok []
  | x :: t =>
      bind (f x) (fun y => bind (for_each f t) (fun ys => Ok (y :: ys)))
  end.

(** [str(s)] on a string *)
Definition str (s : string) : string := s.

(** A number handed to the chart: an [int] or a [float]. *)
Inductive Number : Type :=
| Int (n : Z)
| Float (x : Q).

Definition value (n : Number) : Q :=
  match n with
  | Int z => inject_Z z
  | Float x => x
  end.

(** [len(l)] *)
Definition len {A} (l : list A) : Z := Z.of_nat (length l).

(** The truth value of an optional string argument: [None] and the empty
    string are false. *)
Definition truthy (a : option string) : bool :=
  match a with
  | Some (String _ _) => true
  | _ => false
  end.

End Py.

Notation "x <- r ;; k" := (Py.bind r (fun x => k))
  (at level 61, r at next level, right associativity).

(** ** Python floats

    A finite [float] is the rational it denotes.  [round] is the rounding
    of IEEE 754 binary64 (53 significant bits, least exponent -1074, ties
    to the even significand); the numbers of this development stay far
    below the overflow threshold. *)

Module Float64.

Local Open Scope Q_scope.

(** The integer nearest to [x], ties to the even one. *)
Definition rne (x : Q) : Z :=
  let f := Qfloor x in
  match Qcompare (x - inject_Z f) (1 # 2) with
  | Lt => f
  | Gt => (f + 1)%Z
  | Eq => if Z.even f then f else (f + 1)%Z
  end.

(** The integer [k] with [2^k <= x < 2^(k+1)], for a positive [x]. *)
Definition log2_floor (x : Q) : Z :=
  let k := (Z.log2 (Qnum x) - Z.log2 (Zpos (Qden x)))%Z in
  if Qle_bool (2 ^ k) x then k else (k - 1)%Z.

(** The exponent of the unit in the last place of the binade of [x]. *)
Definition ulp_exponent (x : Q) : Z := Z.max (-1074) (log2_floor x - 52).

(** Rounding of a positive rational, then of any rational. *)
Definition round_pos (x : Q) : Q :=
  let u := 2 ^ ulp_exponent x in inject_Z (rne (x / u)) * u.

Definition round (x : Q) : Q :=
  match Qcompare x 0 with
  | Eq => 0
  | Gt => Qred (round_pos x)
  | Lt => Qred (- round_pos (- x))
  end.

(** [a / b] on two [int], [x * y] on two [float], and [round(x, 2)]:
    CPython rounds the exact quotient and the exact product to the nearest
    binary64 number, and [round] takes the decimal with two places that is
    nearest to the exact value of [x] (ties to the even last digit) and
    returns the binary64 number nearest to that decimal. *)
Definition truediv (a b : Z) : Q := round (inject_Z a / inject_Z b).
Definition mul (x y : Q) : Q := round (x * y).
Definition round_ndigits2 (x : Q) : Q := round (inject_Z (rne (x * 100)) / 100).

Lemma rne_bounds (x : Q) : (Qfloor x <= rne x <= Qfloor x + 1)%Z.
Proof.
  unfold rne. destruct (Qcompare _ _); try destruct (Z.even _); lia.
Qed.

Lemma rne_le (x y : Q) : x <= y -> (rne x <= rne y)%Z.
Proof.
  intros Hxy.
  pose proof (Qfloor_resp_le _ _ Hxy) as Hf.
  destruct (Z.eq_dec (Qfloor x) (Qfloor y)) as [E | N].
  - unfold rne. rewrite <- E.
    destruct (Qcompare (x - inject_Z (Qfloor x)) (1 # 2)) eqn:Cx;
      destruct (Qcompare (y - inject_Z (Qfloor x)) (1 # 2)) eqn:Cy;
      try destruct (Z.even (Qfloor x)); try lia; exfalso;
      repeat match goal with
        | H : Qcompare _ _ = Eq |- _ => apply Qeq_alt in H
        | H : Qcompare _ _ = Lt |- _ => apply Qlt_alt in H
        | H : Qcompare _ _ = Gt |- _ => apply Qgt_alt in H
        end; lra.
  - pose proof (rne_bounds x). pose proof (rne_bounds y). lia.
Qed.

Lemma rne_inject_Z (z : Z) : rne (inject_Z z) = z.
Proof.
  unfold rne. rewrite Qfloor_Z.
  replace (Qcompare (inject_Z z - inject_Z z) (1 # 2)) with Lt; [reflexivity|].
  symmetry. rewrite <- Qlt_alt. lra.
Qed.

Lemma two_pow_pos (k : Z) : 0 < 2 ^ k.
Proof. apply Qpower_0_lt. reflexivity. Qed.

Lemma Zlog2_Qpower (n : Z) :
  (0 < n)%Z -> 2 ^ Z.log2 n <= inject_Z n /\ inject_Z n < 2 ^ (Z.log2 n + 1).
Proof.
  intros Hn. destruct (Z.log2_spec n Hn) as [Hlo Hhi].
  pose proof (Z.log2_nonneg n) as H0.
  split.
  - change 2 with (inject_Z 2). rewrite <- Zpower_Qpower by lia.
    rewrite <- Zle_Qle. exact Hlo.
  - change 2 with (inject_Z 2). rewrite <- Zpower_Qpower by lia.
    rewrite <- Zlt_Qlt. replace (Z.log2 n + 1)%Z with (Z.succ (Z.log2 n)) by lia. exact Hhi.
Qed.

Lemma frac_lt (n d A B : Q) :
  0 < n -> 0 < B -> n < A -> B <= d -> n / d < A / B.
Proof.
  intros Hn HB HnA HBd.
  assert (Hd : 0 < d) by lra.
  apply Qlt_shift_div_l; [exact HB|].
  setoid_replace (n / d * B) with (n * B / d) by (field; lra).
  apply Qlt_shift_div_r; [exact Hd|]. nra.
Qed.

Lemma frac_le (n d A B : Q) :
  0 < A -> 0 < d -> A <= n -> d <= B -> A / B <= n / d.
Proof.
  intros HA Hd HAn HdB.
  assert (HB : 0 < B) by lra.
  apply Qle_shift_div_l; [exact Hd|].
  setoid_replace (A / B * d) with (A * d / B) by (field; lra).
  apply Qle_shift_div_r; [exact HB|]. nra.
Qed.

Lemma log2_floor_spec (x : Q) :
  0 < x -> 2 ^ log2_floor x <= x /\ x < 2 ^ (log2_floor x + 1).
Proof.
  intros Hx. unfold log2_floor.
  set (n := Qnum x). set (d := Zpos (Qden x)).
  assert (Hn : (0 < n)%Z).
  { unfold Qlt in Hx. simpl in Hx. subst n. lia. }
  assert (Hd : (0 < d)%Z) by (subst d; lia).
  destruct (Zlog2_Qpower n Hn) as [Hn1 Hn2].
  destruct (Zlog2_Qpower d Hd) as [Hd1 Hd2].
  set (a := Z.log2 n) in *. set (b := Z.log2 d) in *.
  assert (Ex : x == inject_Z n / inject_Z d).
  { subst n d. rewrite <- (Qmake_Qdiv (Qnum x) (Qden x)). destruct x; reflexivity. }
  assert (Hnq : 0 < inject_Z n) by (rewrite <- (Zlt_Qlt 0); exact Hn).
  assert (Hdq : 0 < inject_Z d) by (rewrite <- (Zlt_Qlt 0); exact Hd).
  assert (N2 : ~ 2 == 0) by discriminate.
  destruct (Qle_bool (2 ^ (a - b)) x) eqn:T.
  - apply Qle_bool_iff in T. split; [exact T|].
    replace (a - b + 1)%Z with ((a + 1) - b)%Z by lia.
    rewrite Qpower_minus by exact N2. rewrite Ex.
    apply frac_lt; auto using two_pow_pos.
  - assert (T' : x < 2 ^ (a - b)).
    { apply Qnot_le_lt. intro H. apply Qle_bool_iff in H. congruence. }
    split.
    + replace (a - b - 1)%Z with (a - (b + 1))%Z by lia.
      rewrite Qpower_minus by exact N2. rewrite Ex.
      apply frac_le; auto using two_pow_pos, Qlt_le_weak.
    + replace (a - b - 1 + 1)%Z with (a - b)%Z by lia. exact T'.
Qed.

Lemma log2_floor_le (x y : Q) : 0 < x -> x <= y -> (log2_floor x <= log2_floor y)%Z.
Proof.
  intros Hx Hxy.
  destruct (log2_floor_spec x Hx) as [Lx _].
  destruct (log2_floor_spec y) as [_ Uy]; [lra|].
  assert (H : 2 ^ log2_floor x < 2 ^ (log2_floor y + 1)) by lra.
  apply Qpower_lt_compat_l_inv in H; [lia | reflexivity].
Qed.

Lemma ulp_exponent_le (x y : Q) : 0 < x -> x <= y -> (ulp_exponent x <= ulp_exponent y)%Z.
Proof.
  intros Hx Hxy. unfold ulp_exponent.
  pose proof (log2_floor_le x y Hx Hxy). lia.
Qed.

Lemma round_pos_upper (x : Q) :
  0 < x -> round_pos x <= 2 ^ (ulp_exponent x + 53).
Proof.
  intros Hx. unfold round_pos.
  set (e := ulp_exponent x).
  assert (He : (log2_floor x + 1 <= e + 53)%Z) by (subst e; unfold ulp_exponent; lia).
  destruct (log2_floor_spec x Hx) as [_ U].
  assert (Hu : 0 < 2 ^ e) by apply two_pow_pos.
  assert (Hx' : x / 2 ^ e <= inject_Z (2 ^ 53)).
  { apply Qle_shift_div_r; [exact Hu|].
    change 2%Z with (Qnum 2) at 1.
    rewrite Zpower_Qpower by lia. change (inject_Z (Qnum 2)) with 2.
    rewrite <- Qpower_plus by discriminate.
    apply Qle_trans with (2 ^ (log2_floor x + 1)); [lra|].
    apply Qpower_le_compat_l; [lia | discriminate]. }
  apply rne_le in Hx'. rewrite rne_inject_Z in Hx'.
  rewrite Zle_Qle in Hx'.
  rewrite Qpower_plus by discriminate.
  rewrite (Qmult_comm (2 ^ e)).
  apply Qmult_le_compat_r; [|lra].
  eapply Qle_trans; [exact Hx'|].
  rewrite Zpower_Qpower by lia. apply Qle_refl.
Qed.

Lemma round_pos_lower (x : Q) :
  0 < x -> (-1074 < ulp_exponent x)%Z -> 2 ^ (ulp_exponent x + 52) <= round_pos x.
Proof.
  intros Hx Hsub. unfold round_pos.
  set (e := ulp_exponent x) in *.
  assert (He : (e + 52 = log2_floor x)%Z) by (subst e; unfold ulp_exponent in *; lia).
  destruct (log2_floor_spec x Hx) as [L _].
  assert (Hu : 0 < 2 ^ e) by apply two_pow_pos.
  assert (Hx' : inject_Z (2 ^ 52) <= x / 2 ^ e).
  { apply Qle_shift_div_l; [exact Hu|].
    rewrite Zpower_Qpower by lia. change (inject_Z 2) with 2.
    rewrite <- Qpower_plus by discriminate.
    rewrite Z.add_comm, He. exact L. }
  apply rne_le in Hx'. rewrite rne_inject_Z in Hx'.
  rewrite Zle_Qle in Hx'.
  rewrite Qpower_plus by discriminate.
  rewrite (Qmult_comm (2 ^ e)).
  apply Qmult_le_compat_r; [|lra].
  eapply Qle_trans; [|exact Hx'].
  rewrite Zpower_Qpower by lia. apply Qle_refl.
Qed.

Lemma round_pos_le (x y : Q) : 0 < x -> x <= y -> round_pos x <= round_pos y.
Proof.
  intros Hx Hxy.
  assert (Hy : 0 < y) by lra.
  pose proof (ulp_exponent_le x y Hx Hxy) as He.
  destruct (Z.eq_dec (ulp_exponent x) (ulp_exponent y)) as [E | N].
  - unfold round_pos. rewrite E.
    assert (Hu : 0 < 2 ^ ulp_exponent y) by apply two_pow_pos.
    apply Qmult_le_compat_r; [|lra].
    rewrite <- Zle_Qle. apply rne_le.
    apply Qmult_le_compat_r; [exact Hxy|].
    apply Qlt_le_weak, Qinv_lt_0_compat, Hu.
  - apply Qle_trans with (2 ^ (ulp_exponent x + 53)); [apply round_pos_upper, Hx|].
    apply Qle_trans with (2 ^ (ulp_exponent y + 52)).
    + apply Qpower_le_compat_l; [lia | discriminate].
    + apply round_pos_lower; [exact Hy|].
      unfold ulp_exponent in *. lia.
Qed.

Lemma round_pos_nonneg (x : Q) : 0 < x -> 0 <= round_pos x.
Proof.
  intros Hx. unfold round_pos.
  assert (Hu : 0 < 2 ^ ulp_exponent x) by apply two_pow_pos.
  apply Qmult_le_0_compat; [|lra].
  change 0 with (inject_Z 0). rewrite <- Zle_Qle.
  rewrite <- (rne_inject_Z 0). apply rne_le.
  apply Qlt_le_weak. apply Qlt_shift_div_l; [exact Hu|].
  change (inject_Z 0) with 0. rewrite Qmult_0_l. exact Hx.
Qed.

Lemma round_nonneg (x : Q) : 0 <= x -> 0 <= round x.
Proof.
  intros Hx. unfold round.
  destruct (Qcompare x 0) eqn:C.
  - apply Qle_refl.
  - apply Qlt_alt in C. lra.
  - apply Qgt_alt in C. rewrite Qred_correct. apply round_pos_nonneg, C.
Qed.

Lemma round_le (x y : Q) : 0 <= x -> x <= y -> round x <= round y.
Proof.
  intros Hx Hxy. unfold round at 1.
  destruct (Qcompare x 0) eqn:C.
  - apply round_nonneg. lra.
  - apply Qlt_alt in C. lra.
  - apply Qgt_alt in C. unfold round.
    destruct (Qcompare y 0) eqn:D.
    + apply Qeq_alt in D. lra.
    + apply Qlt_alt in D. lra.
    + rewrite !Qred_correct. apply round_pos_le; assumption.
Qed.

Lemma round_1 : round 1 = 1.
Proof. vm_compute. reflexivity. Qed.

Lemma round_100 : round 100 = 100.
Proof. vm_compute. reflexivity. Qed.

Lemma truediv_unit (a b : Z) :
  (0 <= a <= b)%Z -> (0 < b)%Z -> 0 <= truediv a b <= 1.
Proof.
  intros Hab Hb. unfold truediv.
  assert (Hbq : 0 < inject_Z b) by (rewrite <- (Zlt_Qlt 0); exact Hb).
  assert (Haq : 0 <= inject_Z a) by (rewrite <- (Zle_Qle 0); lia).
  assert (Habq : inject_Z a <= inject_Z b) by (rewrite <- Zle_Qle; lia).
  assert (H0 : 0 <= inject_Z a / inject_Z b).
  { apply Qle_shift_div_l; [exact Hbq|]. lra. }
  assert (H1 : inject_Z a / inject_Z b <= 1).
  { apply Qle_shift_div_r; [exact Hbq|]. lra. }
  split; [apply round_nonneg, H0|].
  rewrite <- round_1. apply round_le; assumption.
Qed.

Lemma percentage_bounds (x : Q) :
  0 <= x <= 1 -> 0 <= round_ndigits2 (mul x 100) <= 100.
Proof.
  intros [H0 H1].
  assert (Hm : 0 <= mul x 100 <= 100).
  { unfold mul. split; [apply round_nonneg; lra|].
    rewrite <- round_100 at 2. apply round_le; lra. }
  destruct Hm as [M0 M1].
  assert (Hr : (0 <= rne (mul x 100 * 100) <= 10000)%Z).
  { split.
    - rewrite <- (rne_inject_Z 0). apply rne_le. change (inject_Z 0) with 0. lra.
    - rewrite <- (rne_inject_Z 10000). apply rne_le.
      change (inject_Z 10000) with 10000. lra. }
  destruct Hr as [R0 R1].
  rewrite Zle_Qle in R0, R1.
  change (inject_Z 0) with 0 in R0. change (inject_Z 10000) with 10000 in R1.
  set (r := inject_Z (rne (mul x 100 * 100))) in *.
  assert (D0 : 0 <= r / 100) by (apply Qle_shift_div_l; [reflexivity | lra]).
  assert (D1 : r / 100 <= 100) by (apply Qle_shift_div_r; [reflexivity | lra]).
  unfold round_ndigits2. fold r.
  split; [apply round_nonneg, D0|].
  rewrite <- round_100 at 2. apply round_le; assumption.
Qed.

Lemma rne_nearest (x : Q) : Qabs (inject_Z (rne x) - x) <= 1 # 2.
Proof.
  apply Qabs_Qle_condition.
  pose proof (Qfloor_le x) as Hlo. pose proof (Qlt_floor x) as Hhi.
  rewrite inject_Z_plus in Hhi. change (inject_Z 1) with 1 in Hhi.
  unfold rne.
  destruct (Qcompare (x - inject_Z (Qfloor x)) (1 # 2)) eqn:C;
    [apply Qeq_alt in C | apply Qlt_alt in C | apply Qgt_alt in C];
    try destruct (Z.even (Qfloor x));
    rewrite ?inject_Z_plus; change (inject_Z 1) with 1; split; lra.
Qed.

Lemma round_ndigits2_decimal (x : Q) :
  exists n : Z,
    round_ndigits2 x = round (inject_Z n / 100) /\ Qabs (inject_Z n / 100 - x) <= 1 # 200.
Proof.
  exists (rne (x * 100)). split; [reflexivity|].
  pose proof (rne_nearest (x * 100)) as H.
  apply Qabs_Qle_condition in H. apply Qabs_Qle_condition.
  set (n := inject_Z (rne (x * 100))) in *.
  setoid_replace (n / 100 - x) with ((n - x * 100) / 100) by field.
  split.
  - apply Qle_shift_div_l; [reflexivity|]. lra.
  - apply Qle_shift_div_r; [reflexivity|]. lra.
Qed.

End Float64.

(** ** pandas: timestamps, the parsers the engine calls, and data frames *)

Module pd.

(** A [pd.Timestamp] as the normalizer observes it: an instant without a
    time zone, an instant with one, or the missing value [NaT].  Instants
    are counted in nanoseconds since 1970-01-01. *)
Inductive Timestamp : Type :=
| Naive (ns : Z)
| Aware (ns : Z)
| NaT.

(** [pd.Timestamp.min], 1677-09-21 00:12:43.145224193 *)
Definition Timestamp_min : Timestamp := Naive (-9223372036854775807).

(** [a < b].  Two instants of the same kind compare by their count; [NaT]
    is below nothing and nothing is below it; an instant with a time zone
    against one without raises [TypeError], here [None]. *)
Definition lt (a b : Timestamp) : option bool :=
  match a, b with
  | Naive x, Naive y => Some (x <? y)
  | Aware x, Aware y => Some (x <? y)
  | NaT, _ => Some false
  | _, NaT => Some false
  | Naive _, Aware _ => None
  | Aware _, Naive _ => None
  end.

(** [list.sort(key=...)] on pairs (item, key): a stable sort that only
    asks [<] of two keys and lets the first exception through.  It is
    written as an insertion sort.  CPython's merge sort returns the same
    list whenever [<] orders the keys consistently, that is on every list
    without [NaT]; on such a list both raise exactly when the list holds an
    instant with a time zone and one without. *)
Fixpoint insert {A} (x : A * Timestamp) (l : list (A * Timestamp))
  : option (list (A * Timestamp)) :=
  match l with
  | [] => Some [x]
  | y :: t =>
      match lt (snd y) (snd x) with
      | None => None
      | Some true => option_map (cons y) (insert x t)
      | Some false => Some (x :: l)
      end
  end.

Fixpoint sort_by_key {A} (l : list (A * Timestamp)) : option (list (A * Timestamp)) :=
  match l with
  | [] => Some []
  | x :: t =>
      match sort_by_key t with
      | Some s => insert x s
      | None => None
      end
  end.

(** Period frequencies: [freq='W'], ['M'] and ['Q']. *)
Inductive Freq : Type := freq_W | freq_M | freq_Q.

(** The pandas calls of [analytics.py].  A parser returns [None] where
    pandas raises. *)
Record API : Type := {
  (** [pd.Timestamp(year=y, month=m, day=d)] *)
  Timestamp_ymd : Z -> Z -> Z -> option Timestamp;
  (** [pd.Period(s, freq=f).start_time] *)
  Period_start_time : Freq -> string -> option Timestamp;
  (** [pd.to_datetime(s, format=fmt)] *)
  to_datetime_format : string -> string -> option Timestamp;
  (** [pd.to_datetime(s)] *)
  to_datetime : string -> option Timestamp;
  (** [.dt.to_period(f).astype(str)] at one date of a datetime column *)
  to_period_str : Freq -> Z -> string;
  (** [.mean().round(2)] of the values of one group *)
  mean_round2 : list Q -> Q
}.

(** *** Data frames

    The table the engine receives: the columns it has, and its rows.  A
    cell is [None] where pandas holds a missing value ([NaN], [None],
    [NaT]).  Dates have been parsed and numbers coerced by the data source
    ([NotionService.fetch_data]). *)

Inductive Column : Type :=
| Launch_Date | Status | Strategist | Editor_Designer | Product | Type_ | Format
| Ad_time_to_ready | Editing_Duration_minutes | Launch_Month | Launch_YY_WW
| Period.

Scheme Equality for Column.

(** The column's name in the source. *)
Definition header (c : Column) : string :=
  match c with
  | Launch_Date => "Launch Date"
  | Status => "Status"
  | Strategist => "Strategist"
  | Editor_Designer => "Editor/Designer"
  | Product => "Product"
  | Type_ => "Type"
  | Format => "Format"
  | Ad_time_to_ready => "Ad time to ready (days)"
  | Editing_Duration_minutes => "Editing Duration (minutes)"
  | Launch_Month => "Launch Month"
  | Launch_YY_WW => "Launch YY-WW"
  | Period => "Period"
  end.

Record Row : Type := mkRow {
  launch_date : option Z;
  status : option string;
  strategist : option string;
  editor_designer : option string;
  product : option string;
  type_ : option string;
  format : option string;
  ad_time_to_ready : option Q;
  editing_duration_minutes : option Q;
  launch_month : option string;
  launch_yy_ww : option string;
  period : option string
}.

Record DataFrame : Type := mkDataFrame {
  columns : list Column;
  rows : list Row
}.

(** [c in df.columns] *)
Definition has (c : Column) (df : DataFrame) : bool :=
  existsb (Column_beq c) (columns df).

(** [df.empty]: no column or no row *)
Definition empty (df : DataFrame) : bool :=
  match columns df, rows df with
  | [], _ => true
  | _, [] => true
  | _, _ => false
  end.

(** [df[mask]] *)
Definition where_ (mask : Row -> bool) (df : DataFrame) : DataFrame :=
  {| columns := columns df; rows := filter mask (rows df) |}.

(** [.notna()] at one cell *)
Definition notna {A} (c : option A) : bool :=
  match c with Some _ => true | None => false end.

(** [a == b] at one cell of a column of strings: a missing value equals
    nothing. *)
Definition eq_cell (a b : option string) : bool :=
  match a, b with
  | Some x, Some y => String.eqb x y
  | _, _ => false
  end.

(** [.str.lower() == s] at one cell *)
Definition lower_is (s : string) (c : option string) : bool :=
  match c with
  | Some x => String.eqb (Py.lower x) s
  | None => false
  end.

Definition set_period (v : option string) (r : Row) : Row :=
  mkRow (launch_date r) (status r) (strategist r) (editor_designer r) (product r)
        (type_ r) (format r) (ad_time_to_ready r) (editing_duration_minutes r)
        (launch_month r) (launch_yy_ww r) v.

Definition set_product (v : option string) (r : Row) : Row :=
  mkRow (launch_date r) (status r) (strategist r) (editor_designer r) v
        (type_ r) (format r) (ad_time_to_ready r) (editing_duration_minutes r)
        (launch_month r) (launch_yy_ww r) (period r).

(** [df[c] = ...], the new cell of each row computed from the row *)
Definition assign (c : Column) (f : Row -> Row) (df : DataFrame) : DataFrame :=
  {| columns := if has c df then columns df else columns df ++ [c];
     rows := map f (rows df) |}.

(** [.dropna()] of a column *)
Fixpoint dropna {A} (l : list (option A)) : list A :=
  match l with
  | [] => []
  | Some x :: t => x :: dropna t
  | None :: t => dropna t
  end.

Definition eq_value (a b : option string) : bool :=
  match a, b with
  | Some x, Some y => String.eqb x y
  | None, None => true
  | _, _ => false
  end.

(** [.unique()]: the distinct values in the order they are first seen.  On
    a column with missing values the missing value counts as one value
    ([eq_value]). *)
Fixpoint unique_from {A} (eqb : A -> A -> bool) (seen l : list A) : list A :=
  match l with
  | [] => []
  | x :: t =>
      if existsb (eqb x) seen then unique_from eqb seen t
      else x :: unique_from eqb (x :: seen) t
  end.

Definition unique {A} (eqb : A -> A -> bool) (l : list A) : list A :=
  unique_from eqb [] l.

(** The keys of [groupby]: the distinct values that are not missing, in
    ascending order of the strings. *)
Fixpoint insert_key (k : string) (l : list string) : list string :=
  match l with
  | [] => [k]
  | h :: t =>
      if String.eqb k h then l
      else if String.ltb k h then k :: l
      else h :: insert_key k t
  end.

Definition group_keys (l : list (option string)) : list string :=
  fold_left (fun acc k => insert_key k acc) (dropna l) [].

(** [df.groupby('Period')]: each key with the rows that carry it *)
Definition groupby_Period (df : DataFrame) : list (string * DataFrame) :=
  map (fun k => (k, where_ (fun r => eq_cell (period r) (Some k)) df))
      (group_keys (map period (rows df))).

(** [d[k]] on a dict or on a Series indexed by strings *)
Fixpoint getitem {V} (d : list (string * V)) (k : string) : Py.Result V :=
  match d with
  | [] => Py.Raise (Py.KeyError k)
  | (k', v) :: t => if String.eqb k k' then Py.Ok v else getitem t k
  end.

End pd.

(** ** [services.py]: the win-rate metric *)

Module NotionService.

Import pd.

(** [NotionService.calculate_win_rate], lines 233-251 *)
Definition calculate_win_rate (df : DataFrame) : Py.Result Py.Number :=
  if empty df then Py.Ok (Py.Int 0)
  else if negb (has Status df) then Py.Raise (Py.KeyError (header Status))
  else
    let winners := Py.len (rows (where_ (fun r => lower_is "winner" (status r)) df)) in
    let losers := Py.len (rows (where_ (fun r => lower_is "loser" (status r)) df)) in
    let launched := Py.len (rows (where_ (fun r => lower_is "launched" (status r)) df)) in
    let total := winners + losers + launched in
    if total =? 0 then Py.Ok (Py.Int 0)
    else Py.Ok (Py.Float
           (Float64.round_ndigits2 (Float64.mul (Float64.truediv winners total) 100))).

End NotionService.

(** ** [analytics.py]: class [AdAnalytics] *)

(** The dicts the entry points return. *)
Module Series.
Record t : Type := mk { labels : list string; data : list Py.Number }.
Definition empty : t := mk [] [].
End Series.

Module Dataset.
Record t : Type := mk {
  label : string;
  data : list Py.Number;
  borderWidth : option Z;
  fill : option bool;
  backgroundColor : option string
}.
End Dataset.

Module Datasets.
Record t : Type := mk { labels : list (option string); datasets : list Dataset.t }.
Definition empty : t := mk [] [].
End Datasets.

Module AdAnalytics.

Import pd.

Section Engine.

Variable P : API.

(** *** The period normalizer *)

(** The body of the inner [try] of [_sort_periods_chronologically], lines
    33-64, on [period_str]; [None] where it raises, whatever the exception,
    since the handler of line 67 catches them all. *)
Definition parse_period (period_str : string) : option Timestamp :=
  if Py.contains "Q" period_str then
    let parts := Py.split_dashQ (Py.replace_Q period_str) in
    match nth_error parts 0 with
    | None => None
    | Some part0 =>
        match Py.int part0 with
        | None => None
        | Some year =>
            match nth_error parts 1 with
            | None => None
            | Some part1 =>
                match Py.int part1 with
                | None => None
                | Some quarter =>
                    let month := (quarter - 1) * 3 + 1 in
                    Timestamp_ymd P year month 1
                end
            end
        end
    end
  else if Py.contains "W" (Py.upper period_str) then
    match Period_start_time P freq_W period_str with
    | Some dt => Some dt
    | None =>
        let year_part := String.substring 0 4 period_str in
        let week_part := Py.filter_digits (Py.skip 4 period_str) in
        to_datetime_format P "%Y-W%W-%w"
          (year_part ++ "-W" ++ Py.zfill2 week_part ++ "-1")
    end
  else if Py.contains "-" period_str && (String.length period_str <=? 7)%nat then
    match Period_start_time P freq_M period_str with
    | Some dt => Some dt
    | None => to_datetime_format P "%Y-%m" period_str
    end
  else
    match to_datetime_format P "%b %Y" period_str with
    | Some dt => Some dt
    | None =>
        match to_datetime_format P "%B %Y" period_str with
        | Some dt => Some dt
        | None => to_datetime P period_str
        end
    end.

(** The key paired with one label by the loop of lines 30-69: the parsed
    timestamp, or [pd.Timestamp.min] when parsing raised.  [str] is
    Python's [str] on the labels. *)
Definition sort_key {A} (str : A -> string) (period : A) : Timestamp :=
  match parse_period (Py.strip (str period)) with
  | Some dt => dt
  | None => Timestamp_min
  end.

(** [AdAnalytics._sort_periods_chronologically], lines 12-78 *)
Definition _sort_periods_chronologically {A} (str : A -> string) (periods : list A)
  : list A :=
  match periods with
  | [] => []
  | _ =>
      let parsed_periods := map (fun period => (period, sort_key str period)) periods in
      match sort_by_key parsed_periods with
      | Some sorted => map fst sorted
      | None => periods
      end
  end.

(** [str] on a period label read from a column: a missing value prints as
    [nan]. *)
Definition str_cell (c : option string) : string :=
  match c with
  | Some s => s
  | None => "nan"
  end.

(** *** Period keys *)

(** [df['Launch Date'].dt.to_period(f).astype(str)] at one row *)
Definition dt_to_period (f : Freq) (r : Row) : option string :=
  match launch_date r with
  | Some d => Some (to_period_str P f d)
  | None => Some "NaT"
  end.

Definition Period_from (cell : Row -> option string) (df : DataFrame) : DataFrame :=
  assign Period (fun r => set_period (cell r) r) df.

(** The block that sets [df['Period']] in the rate, mean and volume
    charts: lines 94-105, and again 132-143, 178-189, 224-235, 455-466,
    495-506 and 534-545. *)
Definition assign_period (period : string) (df : DataFrame) : DataFrame :=
  if String.eqb period "week" then
    if has Launch_YY_WW df then Period_from launch_yy_ww df
    else Period_from (dt_to_period freq_W) df
  else if String.eqb period "quarter" then Period_from (dt_to_period freq_Q) df
  else
    if has Launch_Month df then Period_from launch_month df
    else Period_from (dt_to_period freq_M) df.

(** The block that sets [df['Period']] in the ratio charts: lines 274-286,
    and again 329-340 and 393-404. *)
Definition assign_period_ratio (period : string) (df : DataFrame) : DataFrame :=
  if String.eqb period "quarter" then Period_from (dt_to_period freq_Q) df
  else if String.eqb period "week" then
    (* Convert week to month for ratio charts *)
    if has Launch_Month df then Period_from launch_month df
    else Period_from (dt_to_period freq_M) df
  else
    if has Launch_Month df then Period_from launch_month df
    else Period_from (dt_to_period freq_M) df.

(** [df[(df['Period'] == period_val) & (df[dim] == v)]] *)
Definition cell_of (cell : Row -> option string) (period_val : option string) (v : string)
  (df : DataFrame) : DataFrame :=
  where_ (fun r => eq_cell (period r) period_val && eq_cell (cell r) (Some v)) df.

(** The filter on [status], lines 271-272, 323-324, 390-391 and 528-529 *)
Definition filter_status (status_arg : option string) (df : DataFrame) : DataFrame :=
  match status_arg with
  | Some s =>
      if Py.truthy status_arg && has Status df
      then where_ (fun r => lower_is (Py.lower s) (status r)) df
      else df
  | None => df
  end.

(** The filter [df[df[c] == v]] asked for by a [strategist] or [editor]
    argument, lines 449-450, 492-493 and 531-532; the column is read
    without a check. *)
Definition filter_by (c : Column) (cell : Row -> option string) (arg : option string)
  (df : DataFrame) : Py.Result DataFrame :=
  match arg with
  | Some v =>
      if Py.truthy arg then
        if has c df then Py.Ok (where_ (fun r => eq_cell (cell r) (Some v)) df)
        else Py.Raise (Py.KeyError (header c))
      else Py.Ok df
  | None => Py.Ok df
  end.

(** *** Win rate *)

(** [AdAnalytics.get_win_rate_by_period], lines 80-117 *)
Definition get_win_rate_by_period (df : DataFrame) (period : string)
  : Py.Result Series.t :=
  if negb (has Launch_Date df) || empty df then Py.Ok Series.empty
  else
    let df := where_ (fun r => notna (launch_date r)) df in
    let df := assign_period period df in
    result <- Py.for_each
                (fun '(period_val, group) =>
                   rate <- NotionService.calculate_win_rate group ;;
                   Py.Ok (period_val, rate))
                (groupby_Period df) ;;
    let sorted_periods := _sort_periods_chronologically Py.str (map fst result) in
    data <- Py.for_each (getitem result) sorted_periods ;;
    Py.Ok (Series.mk sorted_periods data).

(** The three win-rate charts split by a dimension differ in the column
    only: lines 119-167 ([Strategist]), 169-213 ([Product]) and 215-259
    ([Type]). *)
Definition win_rate_by (dim : Column) (cell : Row -> option string)
  (df : DataFrame) (period : string) : Py.Result Datasets.t :=
  if negb (has Launch_Date df) || negb (has dim df) || empty df
  then Py.Ok Datasets.empty
  else
    let df := where_ (fun r => notna (launch_date r)) df in
    let df := assign_period period df in
    let periods :=
      _sort_periods_chronologically str_cell (unique eq_value (map pd.period (rows df))) in
    let values := unique String.eqb (dropna (map cell (rows df))) in
    datasets <- Py.for_each
                  (fun v =>
                     data <- Py.for_each
                               (fun period_val =>
                                  NotionService.calculate_win_rate
                                    (cell_of cell period_val v df))
                               periods ;;
                     Py.Ok (Dataset.mk v data (Some 2) (Some false) None))
                  values ;;
    Py.Ok (Datasets.mk periods datasets).

Definition get_win_rate_by_strategist := win_rate_by Strategist strategist.
Definition get_win_rate_by_product := win_rate_by Product product.
Definition get_win_rate_by_ad_type := win_rate_by Type_ type_.

(** *** Ratio charts *)

Definition colors : list string :=
  ["#FF6384"; "#36A2EB"; "#FFCE56"; "#4BC0C0"; "#9966FF"; "#FF9F40"; "#FF6B6B";
   "#4ECDC4"].

(** [enumerate(l)] *)
Fixpoint enumerate_from {A} (idx : nat) (l : list A) : list (nat * A) :=
  match l with
  | [] => []
  | x :: t => (idx, x) :: enumerate_from (S idx) t
  end.

(** [colors[idx % len(colors)]] *)
Definition color_at (palette : list string) (idx : nat) : string :=
  nth (idx mod length palette) palette "".

(** [get_ad_type_ratio] and [get_format_ratio] differ in the column only:
    lines 261-310 ([Type]) and 380-428 ([Format]). *)
Definition ratio_by (dim : Column) (cell : Row -> option string)
  (df : DataFrame) (period : string) (status_arg : option string)
  : Py.Result Datasets.t :=
  if negb (has Launch_Date df) || negb (has dim df) || empty df
  then Py.Ok Datasets.empty
  else
    let df := where_ (fun r => notna (launch_date r)) df in
    let df := filter_status status_arg df in
    let df := assign_period_ratio period df in
    let periods :=
      _sort_periods_chronologically str_cell (unique eq_value (map pd.period (rows df))) in
    let values := unique String.eqb (dropna (map cell (rows df))) in
    let datasets :=
      map (fun '(idx, v) =>
             let data :=
               map (fun period_val =>
                      Py.Int (Py.len (rows (cell_of cell period_val v df))))
                   periods in
             Dataset.mk v data None None (Some (color_at colors idx)))
          (enumerate_from 0 values) in
    Py.Ok (Datasets.mk periods datasets).

Definition get_ad_type_ratio := ratio_by Type_ type_.
Definition get_format_ratio := ratio_by Format format.

Definition product_colors : list (string * string) :=
  [("V34", "#9966FF"); ("Whitening Kit", "#36A2EB"); ("Plaque Remover", "#FFCE56")].

Definition default_colors : list string :=
  ["#FF6384"; "#4BC0C0"; "#FF9F40"; "#FF6B6B"; "#4ECDC4"].

Fixpoint lookup_color (d : list (string * string)) (k : string) : option string :=
  match d with
  | [] => None
  | (k', v) :: t => if String.eqb k k' then Some v else lookup_color t k
  end.

(** [df['Product'].fillna('Unknown').replace('', 'Unknown')] at one cell,
    line 327 *)
Definition recode_product (c : option string) : option string :=
  match c with
  | None => Some "Unknown"
  | Some EmptyString => Some "Unknown"
  | Some s => Some s
  end.

(** The loop of lines 356-373; [default_color_idx] counts the products
    that took a default colour so far. *)
Fixpoint product_datasets (df : DataFrame) (periods : list (option string))
  (products : list string) (default_color_idx : nat) : list Dataset.t :=
  match products with
  | [] => []
  | product :: rest =>
      let data :=
        map (fun period_val =>
               Py.Int (Py.len (rows (cell_of pd.product period_val product df))))
            periods in
      let label := if String.eqb product "" then "Unknown" else product in
      match lookup_color product_colors product with
      | Some color =>
          Dataset.mk label data None None (Some color)
          :: product_datasets df periods rest default_color_idx
      | None =>
          Dataset.mk label data None None
                     (Some (color_at default_colors default_color_idx))
          :: product_datasets df periods rest (S default_color_idx)
      end
  end.

(** [AdAnalytics.get_product_ratio], lines 312-378 *)
Definition get_product_ratio (df : DataFrame) (period : string)
  (status_arg : option string) : Py.Result Datasets.t :=
  if negb (has Launch_Date df) || negb (has Product df) || empty df
  then Py.Ok Datasets.empty
  else
    let df := where_ (fun r => notna (launch_date r)) df in
    let df := filter_status status_arg df in
    let df := assign Product (fun r => set_product (recode_product (product r)) r) df in
    let df := assign_period_ratio period df in
    let periods :=
      _sort_periods_chronologically str_cell
        (unique eq_value (map Some (dropna (map pd.period (rows df))))) in
    let products := unique String.eqb (dropna (map product (rows df))) in
    Py.Ok (Datasets.mk periods (product_datasets df periods products 0)).

(** *** Means and volume *)

(** A [Series] indexed by period: [df.groupby('Period')...] with one
    number per group. *)
Definition by_period (metric : DataFrame -> Py.Number) (df : DataFrame)
  : list (string * Py.Number) :=
  map (fun '(period_val, group) => (period_val, metric group)) (groupby_Period df).

(** The end of the three functions: the index sorted by the normalizer and
    the values read back in that order. *)
Definition sorted_series (result : list (string * Py.Number)) : Py.Result Series.t :=
  let sorted_periods := _sort_periods_chronologically Py.str (map fst result) in
  data <- Py.for_each (getitem result) sorted_periods ;;
  Py.Ok (Series.mk sorted_periods data).

(** [x > 0] on a float *)
Definition positive (x : Q) : bool := negb (Qle_bool x 0).

(** [AdAnalytics.get_avg_production_time], lines 430-477 *)
Definition get_avg_production_time (df : DataFrame) (strategist_arg : option string)
  (period : string) : Py.Result Series.t :=
  if negb (has Ad_time_to_ready df) || negb (has Launch_Date df)
  then Py.Ok Series.empty
  else
    let df := where_ (fun r => notna (launch_date r)) df in
    let df := where_ (fun r => notna (ad_time_to_ready r)) df in
    let df :=
      where_ (fun r => match ad_time_to_ready r with
                       | Some x => positive x
                       | None => false
                       end) df in
    if empty df then Py.Ok Series.empty
    else
      df <- filter_by Strategist strategist strategist_arg df ;;
      if Py.truthy strategist_arg && empty df then Py.Ok Series.empty
      else
        let df := assign_period period df in
        sorted_series
          (by_period
             (fun group =>
                Py.Float (mean_round2 P (dropna (map ad_time_to_ready (rows group)))))
             df).

(** [df['Editing Duration (minutes)'] / 60] at one cell, line 490 *)
Definition editing_duration_hours (r : Row) : option Q :=
  option_map (fun minutes => Float64.round (minutes / 60)) (editing_duration_minutes r).

(** [AdAnalytics.get_avg_editing_time], lines 479-516 *)
Definition get_avg_editing_time (df : DataFrame) (editor_arg : option string)
  (period : string) : Py.Result Series.t :=
  if negb (has Editing_Duration_minutes df) || negb (has Launch_Date df)
  then Py.Ok Series.empty
  else
    let df := where_ (fun r => notna (launch_date r)) df in
    let df := where_ (fun r => notna (editing_duration_minutes r)) df in
    df <- filter_by Editor_Designer editor_designer editor_arg df ;;
    let df := assign_period period df in
    sorted_series
      (by_period
         (fun group =>
            Py.Float (mean_round2 P (dropna (map editing_duration_hours (rows group)))))
         df).

(** [AdAnalytics.get_creatives_volume], lines 518-555 *)
Definition get_creatives_volume (df : DataFrame) (period : string)
  (strategist_arg status_arg : option string) : Py.Result Series.t :=
  if negb (has Launch_Date df) || empty df then Py.Ok Series.empty
  else
    let df := where_ (fun r => notna (launch_date r)) df in
    let df := filter_status status_arg df in
    df <- filter_by Strategist strategist strategist_arg df ;;
    let df := assign_period period df in
    sorted_series (by_period (fun group => Py.Int (Py.len (rows group))) df).

End Engine.

End AdAnalytics.

(** ** Values decoded from JSON

    What [response.json()] returns and the getters of [NotionService]
    take apart: [None], a [bool], an [int], a [float], a [str], a [list]
    or a [dict] whose keys are strings.  A [dict] is the list of its
    items; its keys are distinct.  A [float] is a finite number. *)

Module Json.

#[warnings="-register-all"] Inductive value : Type :=
| Null
| Bool (b : bool)
| Int (n : Z)
| Float (x : Q)
| Str (s : string)
| List (items : list value)
| Dict (items : list (string * value)).

(** The exceptions the operations below raise. *)
Inductive Exn : Type :=
| AttributeError
| TypeError
| KeyError
| IndexError.

Inductive Outcome (A : Type) : Type :=
| Return (a : A)
| Throw (e : Exn).
Arguments Return {A} a.
Arguments Throw {A} e.

Definition bind {A B} (r : Outcome A) (k : A -> Outcome B) : Outcome B :=
  match r with
  | Return a => k a
  | Throw e => Throw e
  end.

Fixpoint for_each {A B} (f : A -> Outcome B) (l : list A) : Outcome (list B) :=
  match l with
  | [] => Return []
  | x :: t => bind (f x) (fun y => bind (for_each f t) (fun ys => Return (y :: ys)))
  end.

Fixpoint lookup (d : list (string * value)) (k : string) : option value :=
  match d with
  | [] => None
  | (k', v) :: t => if String.eqb k k' then Some v else lookup t k
  end.

(** [v.get(k, default)]: only a [dict] has the method. *)
Definition get (v : value) (k : string) (default : value) : Outcome value :=
  match v with
  | Dict d => Return (match lookup d k with Some x => x | None => default end)
  | _ => Throw AttributeError
  end.

(** The truth value of [v]. *)
Definition truthy (v : value) : bool :=
  match v with
  | Null => false
  | Bool b => b
  | Int n => negb (n =? 0)
  | Float x => negb (Qeq_bool x 0)
  | Str s => negb (String.eqb s "")
  | List l => match l with [] => false | _ :: _ => true end
  | Dict d => match d with [] => false | _ :: _ => true end
  end.

(** [v == s] for a string [s] *)
Definition eq_str (v : value) (s : string) : bool :=
  match v with
  | Str x => String.eqb x s
  | _ => false
  end.

(** [v[0]].  A [dict] decoded from JSON has no key [0]. *)
Definition first (v : value) : Outcome value :=
  match v with
  | List (x :: _) => Return x
  | List [] => Throw IndexError
  | Str (String c _) => Return (Str (String c EmptyString))
  | Str EmptyString => Throw IndexError
  | Dict _ => Throw KeyError
  | Null | Bool _ | Int _ | Float _ => Throw TypeError
  end.

(** The items of [for item in v]: the elements of a list, the characters
    of a string, the keys of a dict. *)
Definition iter (v : value) : Outcome (list value) :=
  match v with
  | List l => Return l
  | Str s => Return (map (fun c => Str (String c EmptyString)) (list_ascii_of_string s))
  | Dict d => Return (map (fun kv => Str (fst kv)) d)
  | Null | Bool _ | Int _ | Float _ => Throw TypeError
  end.

(** [sep.join(vs)]: every item has to be a string. *)
Definition join (sep : string) (vs : list value) : Outcome string :=
  bind (for_each (fun v => match v with
                           | Str s => Return s
                           | _ => Throw TypeError
                           end) vs)
       (fun strs => Return (String.concat sep strs)).

End Json.

Notation "x <~ r ;; k" := (Json.bind r (fun x => k))
  (at level 61, r at next level, right associativity).

(** ** [services.py]: reading the pages of the Notion database *)

Module NotionProperties.
Import Json.

Section Getters.

(** Python's [str] on a number of a formula. *)
Variable str : value -> string.

(** The test every getter starts with:
    [prop.get("type") == t and prop.get(t)].  It yields the payload when
    the test holds. *)
Definition typed_payload (prop : value) (t : string) : Outcome (option value) :=
  type_ <~ get prop "type" Null ;;
  if eq_str type_ t then
    payload <~ get prop t Null ;;
    if truthy payload then Return (Some payload) else Return None
  else Return None.

(** [NotionService.get_title], lines 184-188 *)
Definition get_title (prop : value) : Outcome value :=
  payload <~ typed_payload prop "title" ;;
  match payload with
  | Some title => item <~ first title ;; get item "plain_text" (Str "")
  | None => Return (Str "")
  end.

(** [NotionService.get_date], lines 190-194 *)
Definition get_date (prop : value) : Outcome value :=
  payload <~ typed_payload prop "date" ;;
  match payload with
  | Some date => get date "start" (Str "")
  | None => Return (Str "")
  end.

(** [NotionService.get_multi_select], lines 196-200 *)
Definition get_multi_select (prop : value) : Outcome value :=
  payload <~ typed_payload prop "multi_select" ;;
  match payload with
  | Some multi_select =>
      items <~ iter multi_select ;;
      names <~ for_each (fun item => get item "name" (Str "")) items ;;
      joined <~ join "," names ;;
      Return (Str joined)
  | None => Return (Str "")
  end.

(** [NotionService.get_select], lines 202-206 *)
Definition get_select (prop : value) : Outcome value :=
  payload <~ typed_payload prop "select" ;;
  match payload with
  | Some select => get select "name" (Str "")
  | None => Return (Str "")
  end.

(** [NotionService.get_people], lines 208-214 *)
Definition get_people (prop : value) : Outcome value :=
  payload <~ typed_payload prop "people" ;;
  match payload with
  | Some people => person <~ first people ;; get person "name" (Str "")
  | None => Return (Str "")
  end.

(** [NotionService.get_status], lines 216-220 *)
Definition get_status (prop : value) : Outcome value :=
  payload <~ typed_payload prop "status" ;;
  match payload with
  | Some status => get status "name" (Str "")
  | None => Return (Str "")
  end.

(** [NotionService.get_formula_string], lines 222-231 *)
Definition get_formula_string (prop : value) : Outcome value :=
  payload <~ typed_payload prop "formula" ;;
  match payload with
  | Some formula =>
      type_ <~ get formula "type" Null ;;
      if eq_str type_ "string" then
        s <~ get formula "string" (Str "") ;;
        Return (if truthy s then s else Str "")
      else if eq_str type_ "number" then
        num <~ get formula "number" Null ;;
        Return (match num with
                | Null => Str ""
                | _ => Str (str num)
                end)
      else Return (Str "")
  | None => Return (Str "")
  end.

(** One entry of [formatted_data]: the property [name] of the page, read
    by [getter]. *)
Definition entry (getter : value -> Outcome value) (props : value) (name : string)
  : Outcome value :=
  prop <~ get props name (Dict []) ;;
  getter prop.

(** The body of the loop of [NotionService.process_results], lines
    153-177: the row of one page, as the list of its columns. *)
Definition formatted_data (page : value) : Outcome (list (string * value)) :=
  props <~ get page "properties" (Dict []) ;;
  creative_name <~ entry get_title props "Creative name" ;;
  deadline <~ entry get_date props "Deadline" ;;
  winner_markets <~ entry get_multi_select props "Winner Market(s)" ;;
  strategist <~ entry get_people props "Strategist" ;;
  format <~ entry get_select props "Format" ;;
  winner <~ entry get_formula_string props "Winner" ;;
  editing_end_time <~ entry get_date props "Editing End Time" ;;
  launch_date <~ entry get_date props "Launch Date" ;;
  editing_start_time <~ entry get_date props "Editing Start Time" ;;
  type_ <~ entry get_select props "Type" ;;
  product <~ entry get_multi_select props "Product" ;;
  status <~ entry get_status props "Status" ;;
  editor_designer <~ entry get_people props "Editor/Designer" ;;
  editing_duration <~ entry get_formula_string props "Editing Duration (minutes)" ;;
  launch_month <~ entry get_formula_string props "Launch Month" ;;
  ad_time_to_ready <~ entry get_formula_string props "Ad time to ready (days) " ;;
  launch_yy_ww <~ entry get_formula_string props "Launch YY-WW" ;;
  Return
    [("Creative name", creative_name);
     ("Deadline", deadline);
     ("Winner Market(s)", winner_markets);
     ("Strategist", strategist);
     ("Format", format);
     ("Winner", winner);
     ("Editing End Time", editing_end_time);
     ("Launch Date", launch_date);
     ("Editing Start Time", editing_start_time);
     ("Type", type_);
     ("Product", product);
     ("Status", status);
     ("Editor/Designer", editor_designer);
     ("Editing Duration (minutes)", editing_duration);
     ("Launch Month", launch_month);
     ("Ad time to ready (days)", ad_time_to_ready);
     ("Launch YY-WW", launch_yy_ww)].

(** [NotionService.process_results], lines 150-182: the rows handed to
    [pd.DataFrame], one per page. *)
Definition process_results (results : list value) : Outcome (list (list (string * value))) :=
  for_each formatted_data results.

End Getters.

End NotionProperties.

(** ** [services.py]: the win rate of the Google Sheet service *)

Module GoogleSheetService.
Import pd.

(** [GoogleSheetService.calculate_win_rate], lines 53-71 *)
Definition calculate_win_rate (df : DataFrame) : Py.Result Py.Number :=
  if empty df then Py.Ok (Py.Int 0)
  else if negb (has Status df) then Py.Raise (Py.KeyError (header Status))
  else
    let winners := Py.len (rows (where_ (fun r => lower_is "winner" (status r)) df)) in
    let losers := Py.len (rows (where_ (fun r => lower_is "loser" (status r)) df)) in
    let launched := Py.len (rows (where_ (fun r => lower_is "launched" (status r)) df)) in
    let total := winners + losers + launched in
    if total =? 0 then Py.Ok (Py.Int 0)
    else Py.Ok (Py.Float
           (Float64.round_ndigits2 (Float64.mul (Float64.truediv winners total) 100))).

End GoogleSheetService.

(** ** [views.py]: the filter options of the dashboard and the colours
    of the product win-rate chart *)

Module Views.
Import pd AdAnalytics.

(** [sorted(l)] on strings, written as an insertion sort: Python orders
    strings by their characters' codes, a prefix before what extends
    it. *)
Fixpoint insort (s : string) (l : list string) : list string :=
  match l with
  | [] => [s]
  | h :: t => if String.ltb s h then s :: l else h :: insort s t
  end.

Definition sorted (l : list string) : list string :=
  fold_left (fun acc s => insort s acc) l [].

(** [.fillna('Unknown').replace('', 'Unknown')] at one cell, lines 21 and
    25 *)
Definition filled (c : option string) : string :=
  match c with
  | None => "Unknown"
  | Some EmptyString => "Unknown"
  | Some s => s
  end.

(** The options of one filter of [DashboardView.get], lines 20-26: the
    values of the column [c] of the whole table. *)
Definition filter_options (c : Column) (cell : Row -> option string) (df : DataFrame)
  : list string :=
  if has c df
  then sorted (unique String.eqb (map (fun r => filled (cell r)) (rows df)))
  else [].

Definition strategists := filter_options Strategist strategist.
Definition editors := filter_options Editor_Designer editor_designer.

(** A dataset as a view sends it: the dataset of the engine with its
    background replaced, a border colour and the tension 0.4. *)
Record Line : Type := mkLine {
  dataset : Dataset.t;
  borderColor : string;
  tension : Q
}.

Definition PRODUCT_COLORS : list (string * string) :=
  [("V34", "#9966FF"); ("Whitening Kit", "#36A2EB"); ("Plaque Remover", "#FFCE56")].

Definition DEFAULT_COLORS : list string :=
  ["#FF6384"; "#4BC0C0"; "#FF9F40"; "#FF6B6B"; "#4ECDC4"].

Definition transparent (ds : Dataset.t) : Dataset.t :=
  Dataset.mk (Dataset.label ds) (Dataset.data ds) (Dataset.borderWidth ds)
             (Dataset.fill ds) (Some "rgba(0, 0, 0, 0)").

(** The loop of [WinRateByProductAPI.get], lines 154-164;
    [default_color_idx] counts the datasets that took a default colour so
    far. *)
Fixpoint style_products (datasets : list Dataset.t) (default_color_idx : nat)
  : list Line :=
  match datasets with
  | [] => []
  | ds :: rest =>
      let product_label := Dataset.label ds in
      match lookup_color PRODUCT_COLORS product_label with
      | Some color =>
          mkLine (transparent ds) color (Float64.round (4 # 10))
          :: style_products rest default_color_idx
      | None =>
          mkLine (transparent ds) (color_at DEFAULT_COLORS default_color_idx)
                 (Float64.round (4 # 10))
          :: style_products rest (S default_color_idx)
      end
  end.

(** What a chart view answers: the chart, or the text of the exception
    with the status 500. *)
Inductive Response : Type :=
| Chart (labels : list (option string)) (datasets : list Line)
| Error500 (error : string).

(** [str(e)] for a [KeyError] on a column name: the name in quotes. *)
Definition str_exn (e : Py.Exn) : string :=
  match e with Py.KeyError key => "'" ++ key ++ "'" end.

(** [WinRateByProductAPI.get], lines 149-172, after the request is
    parsed. *)
Definition WinRateByProductAPI_get (P : API) (df : DataFrame) (period : string)
  : Response :=
  match get_win_rate_by_product P df period with
  | Py.Ok data =>
      Chart (Datasets.labels data) (style_products (Datasets.datasets data) 0)
  | Py.Raise e => Error500 (str_exn e)
  end.

End Views.

(** ** A pandas to evaluate the engine with

    [Sample.pandas] implements part of the interface: the keyword
    constructor of [pd.Timestamp] on the proleptic Gregorian calendar,
    within the range of nanosecond timestamps; the formats [%b %Y] and
    [%B %Y] of [pd.to_datetime]; and the period strings of a date.  Its
    other parsers raise on every input, and its mean is the exact one. *)

Module Sample.

Import pd.

(** Days from 1970-01-01 to the civil date, and back. *)
Definition days_from_civil (y m d : Z) : Z :=
  let y' := if m <=? 2 then y - 1 else y in
  let era := y' / 400 in
  let yoe := y' - era * 400 in
  let mp := (m + 9) mod 12 in
  let doy := (153 * mp + 2) / 5 + d - 1 in
  let doe := yoe * 365 + yoe / 4 - yoe / 100 + doy in
  era * 146097 + doe - 719468.

Definition civil_from_days (z : Z) : Z * Z * Z :=
  let z := z + 719468 in
  let era := z / 146097 in
  let doe := z - era * 146097 in
  let yoe := (doe - doe / 1460 + doe / 36524 - doe / 146096) / 365 in
  let doy := doe - (365 * yoe + yoe / 4 - yoe / 100) in
  let mp := (5 * doy + 2) / 153 in
  let d := doy - (153 * mp + 2) / 5 + 1 in
  let m := if mp <? 10 then mp + 3 else mp - 9 in
  let y := yoe + era * 400 in
  (if m <=? 2 then y + 1 else y, m, d).

Definition ns_per_day : Z := 86400 * 1000000000.

Definition Timestamp_ymd (y m d : Z) : option Timestamp :=
  let days := days_from_civil y m d in
  let ns := days * ns_per_day in
  if (1 <=? m) && (m <=? 12) && (1 <=? d)
     && (let '(y', m', d') := civil_from_days days in
         (y' =? y) && (m' =? m) && (d' =? d))
     && (-9223372036854775807 <=? ns) && (ns <=? 9223372036854775807)
  then Some (Naive ns)
  else None.

Definition digit (n : Z) : ascii := ascii_of_nat (48 + Z.to_nat (n mod 10)).

Definition pad2 (n : Z) : string :=
  String (digit (n / 10)) (String (digit n) EmptyString).

Definition pad4 (n : Z) : string :=
  String (digit (n / 1000)) (String (digit (n / 100)) (pad2 n)).

Definition isoformat (days : Z) : string :=
  let '(y, m, d) := civil_from_days days in
  pad4 y ++ "-" ++ pad2 m ++ "-" ++ pad2 d.

(** The period strings of pandas: [2024-01], [2024Q1], and for a week,
    which runs from Monday to Sunday, [2024-01-01/2024-01-07]. *)
Definition to_period_str (f : Freq) (ns : Z) : string :=
  let days := ns / ns_per_day in
  let '(y, m, _) := civil_from_days days in
  match f with
  | freq_M => pad4 y ++ "-" ++ pad2 m
  | freq_Q => pad4 y ++ "Q" ++ String (digit ((m - 1) / 3 + 1)) EmptyString
  | freq_W =>
      let monday := days - (days + 3) mod 7 in
      isoformat monday ++ "/" ++ isoformat (monday + 6)
  end.

(** [pd.to_datetime(s, format='%b %Y')] and [format='%B %Y']: a month
    name, in any case, then white space, then four digits. *)
Definition month_names : list string :=
  ["january"; "february"; "march"; "april"; "may"; "june"; "july"; "august";
   "september"; "october"; "november"; "december"].

Definition isalpha (c : ascii) : bool :=
  let n := nat_of_ascii (Py.lower_char c) in ((97 <=? n) && (n <=? 122))%nat.

Fixpoint letters (s : string) : string * string :=
  match s with
  | String c r =>
      if isalpha c then let '(w, rest) := letters r in (String c w, rest)
      else (EmptyString, s)
  | EmptyString => (EmptyString, EmptyString)
  end.

Fixpoint index_of (w : string) (names : list string) (i : Z) : option Z :=
  match names with
  | [] => None
  | n :: t => if String.eqb w n then Some i else index_of w t (i + 1)
  end.

Definition four_digits (s : string) : option Z :=
  if (String.length s =? 4)%nat && (String.length (Py.filter_digits s) =? 4)%nat
  then Py.int_unsigned s
  else None.

Definition month_year (abbreviated : bool) (s : string) : option Timestamp :=
  let '(w, rest) := letters s in
  let names :=
    if abbreviated then map (String.substring 0 3) month_names else month_names in
  match index_of (Py.lower w) names 1, rest with
  | Some m, String c r =>
      if Py.isspace c then
        match four_digits (Py.lstrip r) with
        | Some y => Timestamp_ymd y m 1
        | None => None
        end
      else None
  | _, _ => None
  end.

Definition to_datetime_format (fmt s : string) : option Timestamp :=
  if String.eqb fmt "%b %Y" then month_year true s
  else if String.eqb fmt "%B %Y" then month_year false s
  else None.

Definition sum (l : list Q) : Q := fold_right Qplus 0%Q l.

Definition mean_round2 (l : list Q) : Q :=
  Float64.round_ndigits2 (sum l / inject_Z (Py.len l))%Q.

Definition pandas : API :=
  {| pd.Timestamp_ymd := Timestamp_ymd;
     pd.Period_start_time := fun _ _ => None;
     pd.to_datetime_format := to_datetime_format;
     pd.to_datetime := fun _ => None;
     pd.to_period_str := to_period_str;
     pd.mean_round2 := mean_round2 |}.

(** [pandas] with one more call answered: [pd.to_datetime] on an ISO 8601
    string that carries a UTC offset returns a timestamp with a time zone,
    here 2024-06-01 00:00 UTC. *)
Definition utc_label : string := "2024-06-01T00:00:00+00:00".

Definition pandas_utc : API :=
  {| pd.Timestamp_ymd := Timestamp_ymd;
     pd.Period_start_time := fun _ _ => None;
     pd.to_datetime_format := to_datetime_format;
     pd.to_datetime :=
       fun s => if String.eqb s utc_label then Some (Aware 1717200000000000000) else None;
     pd.to_period_str := to_period_str;
     pd.mean_round2 := mean_round2 |}.

(** A small table: five creatives, one of them without a Launch Date and
    one with an empty Product. *)
Definition date (y m d : Z) : option Z := Some (days_from_civil y m d * ns_per_day).

Definition creative (launch : option Z)
  (status_ strategist_ product_ type__ format_ month_ week_ : string) : Row :=
  mkRow launch (Some status_) (Some strategist_) None (Some product_) (Some type__)
        (Some format_) None None (Some month_) (Some week_) None.

Definition all_columns : list Column :=
  [Launch_Date; Status; Strategist; Editor_Designer; Product; Type_; Format;
   Ad_time_to_ready; Editing_Duration_minutes; Launch_Month; Launch_YY_WW].

Definition table : DataFrame :=
  mkDataFrame all_columns
    [creative (date 2024 1 15) "Winner" "Ana" "V34" "Video" "9:16" "Jan 2024" "24-03";
     creative (date 2024 1 20) "Loser" "Ben" "" "Static" "1:1" "Jan 2024" "24-03";
     creative (date 2024 2 10) "Launched" "Ana" "V34" "Video" "9:16" "Feb 2024" "24-06";
     creative None "Winner" "Ben" "Whitening Kit" "Static" "1:1" "" "";
     creative (date 2024 4 2) "Pending" "Ben" "Whitening Kit" "Video" "1:1" "Apr 2024"
              "24-14"].

(** One creative with an empty Product. *)
Definition one_creative : DataFrame :=
  mkDataFrame all_columns
    [creative (date 2024 1 20) "Winner" "Ben" "" "Static" "1:1" "Jan 2024" "24-03"].

(** [table] without its Status column. *)
Definition table_without_status : DataFrame :=
  mkDataFrame
    [Launch_Date; Strategist; Editor_Designer; Product; Type_; Format;
     Ad_time_to_ready; Editing_Duration_minutes; Launch_Month; Launch_YY_WW]
    (rows table).

End Sample.

(** ** A table with production and editing times *)

Module Timesheet.
Import pd.

Definition creative (launch : option Z) (strategist_ editor_ month_ : string)
  (days minutes : option Q) : Row :=
  mkRow launch (Some "Launched") (Some strategist_) (Some editor_) None None None
        days minutes (Some month_) None None.

(** Four creatives: the second has a production time of zero days, the
    fourth none and an editing time below zero. *)
Definition table : DataFrame :=
  mkDataFrame
    [Launch_Date; Status; Strategist; Editor_Designer; Ad_time_to_ready;
     Editing_Duration_minutes; Launch_Month]
    [creative (Sample.date 2024 1 15) "Ana" "Eve" "Jan 2024" (Some 3%Q) (Some 90%Q);
     creative (Sample.date 2024 1 20) "Ben" "Eve" "Jan 2024" (Some 0%Q) (Some 45%Q);
     creative (Sample.date 2024 2 10) "Ana" "Dan" "Feb 2024" (Some 4%Q) (Some 120%Q);
     creative (Sample.date 2024 2 12) "Ben" "Dan" "Feb 2024" None (Some (-30)%Q)].

End Timesheet.

(** ** The sort of the normalizer *)

Module SortFacts.
Import pd.

(** A timestamp without a time zone. *)
Definition naive (t : Timestamp) : bool :=
  match t with Naive _ => true | _ => false end.

(** The chronological order of two instants without a time zone. *)
Definition le (a b : Timestamp) : Prop :=
  match a, b with
  | Naive x, Naive y => x <= y
  | _, _ => False
  end.

(** [t] is the key [k]. *)
Definition same (k : Timestamp) (t : Timestamp) : bool :=
  match k, t with
  | Naive x, Naive y => x =? y
  | Aware x, Aware y => x =? y
  | NaT, NaT => true
  | _, _ => false
  end.

Section Pairs.
Context {A : Type}.
Implicit Types (x y : A * Timestamp) (l : list (A * Timestamp)).

Lemma insert_perm x l l' : insert x l = Some l' -> Permutation (x :: l) l'.
Proof.
  revert l'. induction l as [|y t IH]; simpl; intros l' H.
  - inversion H. apply Permutation_refl.
  - destruct (lt (snd y) (snd x)) as [[|]|]; try discriminate.
    + destruct (insert x t) as [s|]; simpl in H; inversion H; subst.
      eapply perm_trans; [apply perm_swap|]. apply perm_skip. apply IH. reflexivity.
    + inversion H. apply Permutation_refl.
Qed.

Lemma sort_by_key_perm l l' : sort_by_key l = Some l' -> Permutation l l'.
Proof.
  revert l'. induction l as [|x t IH]; simpl; intros l' H.
  - inversion H. constructor.
  - destruct (sort_by_key t) as [s|]; try discriminate.
    eapply perm_trans; [apply perm_skip, IH; reflexivity|].
    apply insert_perm, H.
Qed.

Definition keys_naive l : Prop := Forall (fun p => naive (snd p) = true) l.

Lemma insert_naive x l :
  naive (snd x) = true -> keys_naive l -> exists l', insert x l = Some l'.
Proof.
  intros Hx. induction 1 as [|y t Hy Ht IH]; simpl.
  - eauto.
  - destruct (snd y) eqn:Ey; try discriminate. destruct (snd x) eqn:Ex; try discriminate.
    simpl. destruct (ns <? ns0); [|eauto].
    destruct IH as [s Hs]. rewrite Hs. simpl. eauto.
Qed.

Lemma keys_naive_perm l l' : Permutation l l' -> keys_naive l -> keys_naive l'.
Proof. intros Hp H. unfold keys_naive in *. rewrite <- Hp. exact H. Qed.

Lemma sort_by_key_naive l : keys_naive l -> exists l', sort_by_key l = Some l'.
Proof.
  induction 1 as [|x t Hx Ht IH]; simpl; [eauto|].
  destruct IH as [s Hs]. rewrite Hs.
  apply insert_naive; [exact Hx|].
  eapply keys_naive_perm; [apply sort_by_key_perm, Hs | exact Ht].
Qed.

Definition le_key x y : Prop := le (snd x) (snd y).

Lemma insert_sorted x l l' :
  naive (snd x) = true -> keys_naive l ->
  StronglySorted le_key l -> insert x l = Some l' -> StronglySorted le_key l'.
Proof.
  intros Hx Hn Hs. revert l'.
  induction Hs as [|y t Hst IH Hy]; simpl; intros l' H.
  - inversion H. repeat constructor.
  - inversion Hn as [|? ? Hyn Htn]; subst.
    destruct (snd y) eqn:Ey; try discriminate. destruct (snd x) eqn:Ex; try discriminate.
    simpl in H. destruct (ns <? ns0) eqn:C.
    + destruct (insert x t) as [s|] eqn:Es; simpl in H; inversion H; subst.
      constructor; [apply IH; auto|].
      apply (Permutation_Forall (insert_perm _ _ _ Es)).
      constructor; [|exact Hy].
      unfold le_key, le. rewrite Ey, Ex. apply Z.ltb_lt in C. lia.
    + inversion H; subst. apply Z.ltb_ge in C.
      constructor; [constructor; assumption|].
      constructor.
      * unfold le_key, le. rewrite Ey, Ex. exact C.
      * eapply Forall_impl; [|exact Hy]. intros z Hz.
        unfold le_key, le in *. rewrite Ex. rewrite Ey in Hz.
        destruct (snd z); try contradiction. lia.
Qed.

Lemma sort_by_key_sorted l l' :
  keys_naive l -> sort_by_key l = Some l' -> StronglySorted le_key l'.
Proof.
  intros Hn. revert l'. induction Hn as [|x t Hx Ht IH]; simpl; intros l' H.
  - inversion H. constructor.
  - destruct (sort_by_key t) as [s|] eqn:Es; try discriminate.
    eapply insert_sorted; [exact Hx | | apply IH; reflexivity | exact H].
    eapply keys_naive_perm; [apply sort_by_key_perm, Es | exact Ht].
Qed.

Lemma lt_true_differ (a b : Timestamp) k :
  lt a b = Some true -> same k a = true -> same k b = false.
Proof.
  destruct a, b, k; simpl; try discriminate; try reflexivity; intros H1 H2;
    inversion H1; apply Z.ltb_lt in H0; apply Z.eqb_eq in H2; apply Z.eqb_neq; lia.
Qed.

Lemma insert_stable k x l l' :
  insert x l = Some l' ->
  filter (fun p => same k (snd p)) l' = filter (fun p => same k (snd p)) (x :: l).
Proof.
  revert l'. induction l as [|y t IH]; simpl; intros l' H.
  - inversion H. reflexivity.
  - destruct (lt (snd y) (snd x)) as [[|]|] eqn:C; try discriminate.
    + destruct (insert x t) as [s|] eqn:Es; simpl in H; inversion H; subst.
      simpl. rewrite (IH s eq_refl). simpl.
      destruct (same k (snd y)) eqn:Ky.
      * rewrite (lt_true_differ _ _ _ C Ky). reflexivity.
      * reflexivity.
    + inversion H. reflexivity.
Qed.

Lemma sort_by_key_stable k l l' :
  sort_by_key l = Some l' ->
  filter (fun p => same k (snd p)) l' = filter (fun p => same k (snd p)) l.
Proof.
  revert l'. induction l as [|x t IH]; simpl; intros l' H.
  - inversion H. reflexivity.
  - destruct (sort_by_key t) as [s|] eqn:Es; try discriminate.
    rewrite (insert_stable k x s l' H). simpl. rewrite (IH s eq_refl). reflexivity.
Qed.

End Pairs.
End SortFacts.

(** ** The normalizer *)

Module NormalizerFacts.
Import pd AdAnalytics SortFacts.

Section Normalizer.
Variable P : API.
Context {A : Type} (str : A -> string).

Local Abbreviation nsort := (_sort_periods_chronologically P str).
Local Abbreviation key := (sort_key P str).
Local Abbreviation pair_of := (fun period : A => (period, sort_key P str period)).

Lemma fst_pair_of (l : list A) : map fst (map pair_of l) = l.
Proof. rewrite map_map. simpl. apply map_id. Qed.

Lemma nsort_perm (l : list A) : Permutation l (nsort l).
Proof.
  unfold _sort_periods_chronologically. destruct l as [|a l]; [constructor|].
  destruct (sort_by_key _) as [s|] eqn:E; [|apply Permutation_refl].
  rewrite <- (fst_pair_of (a :: l)) at 1.
  apply Permutation_map, sort_by_key_perm, E.
Qed.

Lemma nsort_In (l : list A) (x : A) : In x (nsort l) <-> In x l.
Proof.
  split; apply Permutation_in; [symmetry|]; apply nsort_perm.
Qed.

Lemma nsort_length (l : list A) : length (nsort l) = length l.
Proof. symmetry. apply Permutation_length, nsort_perm. Qed.

(** Each pair holds a label and the key of that label. *)
Definition well_keyed (s : list (A * Timestamp)) : Prop :=
  Forall (fun p => snd p = key (fst p)) s.

Lemma well_keyed_pairs (l : list A) : well_keyed (map pair_of l).
Proof. unfold well_keyed. induction l; simpl; constructor; auto. Qed.

Lemma well_keyed_filter (f : Timestamp -> bool) (s : list (A * Timestamp)) :
  well_keyed s ->
  map fst (filter (fun p => f (snd p)) s) = filter (fun x => f (key x)) (map fst s).
Proof.
  induction 1 as [|p s Hp Hs IH]; simpl; [reflexivity|].
  rewrite Hp. destruct (f (key (fst p))); simpl; rewrite IH; reflexivity.
Qed.

Lemma well_keyed_sorted (s : list (A * Timestamp)) :
  well_keyed s -> StronglySorted le_key s ->
  StronglySorted (fun a b => le (key a) (key b)) (map fst s).
Proof.
  intros Hk Hs. induction Hs as [|p s Hs IH Hp]; simpl; [constructor|].
  inversion Hk as [|? ? Kp Ks]; subst.
  constructor; [apply IH, Ks|].
  rewrite Forall_map. rewrite Forall_forall in *.
  intros q Hq. specialize (Hp q Hq). specialize (Ks q Hq).
  unfold le_key in Hp. rewrite Kp, Ks in Hp. exact Hp.
Qed.

Lemma nsort_stable (k : Timestamp) (l : list A) :
  filter (fun x => same k (key x)) (nsort l) = filter (fun x => same k (key x)) l.
Proof.
  unfold _sort_periods_chronologically. destruct l as [|a l]; [reflexivity|].
  destruct (sort_by_key _) as [s|] eqn:E; [|reflexivity].
  assert (Hs : well_keyed s).
  { unfold well_keyed.
    apply (Permutation_Forall (sort_by_key_perm _ _ E)), well_keyed_pairs. }
  rewrite <- (well_keyed_filter (same k) s Hs).
  rewrite (sort_by_key_stable k _ _ E).
  rewrite (well_keyed_filter (same k) _ (well_keyed_pairs (a :: l))).
  rewrite fst_pair_of. reflexivity.
Qed.

(** Every label of [l] has a key without a time zone: a parsed instant
    or the fallback [pd.Timestamp.min]. *)
Definition keys_comparable (l : list A) : Prop :=
  Forall (fun x => naive (key x) = true) l.

Lemma keys_comparable_forallb (l : list A) :
  forallb (fun x => naive (key x)) l = true -> keys_comparable l.
Proof.
  intros H. apply Forall_forall. intros x Hx.
  rewrite forallb_forall in H. apply H, Hx.
Qed.

Lemma keys_comparable_pairs (l : list A) :
  keys_comparable l -> keys_naive (map pair_of l).
Proof.
  unfold keys_comparable, keys_naive. rewrite Forall_map. auto.
Qed.

Lemma nsort_sorted (l : list A) :
  keys_comparable l -> StronglySorted (fun a b => le (key a) (key b)) (nsort l).
Proof.
  intros Hn. unfold _sort_periods_chronologically. destruct l as [|a l]; [constructor|].
  destruct (sort_by_key_naive _ (keys_comparable_pairs _ Hn)) as [s E].
  rewrite E. apply well_keyed_sorted.
  - unfold well_keyed.
    apply (Permutation_Forall (sort_by_key_perm _ _ E)), well_keyed_pairs.
  - eapply sort_by_key_sorted; [apply keys_comparable_pairs, Hn | exact E].
Qed.

End Normalizer.

Lemma sorted_split {A} (R : A -> A -> Prop) (l l1 l2 : list A) (a b : A) :
  StronglySorted R l -> l = (l1 ++ b :: l2)%list -> In a l2 -> R b a.
Proof.
  intros Hs. revert l1. induction Hs as [|x t Ht IH Hx]; intros l1 E Ha.
  - destruct l1; discriminate.
  - destruct l1 as [|y l1]; simpl in E; inversion E; subst.
    + rewrite Forall_forall in Hx. apply Hx, Ha.
    + eapply IH; eauto.
Qed.

End NormalizerFacts.

(** ** Claims on the normalizer *)

Module NormalizerClaims.
Import pd AdAnalytics SortFacts NormalizerFacts.

(** [a] occurs in [l], and never after an occurrence of [b]. *)
Definition precedes {A} (a b : A) (l : list A) : Prop :=
  In a l /\ forall l1 l2, l = (l1 ++ b :: l2)%list -> ~ In a l2.

(** C1, as amended.  For every list of period labels the normalizer
    returns all of them, duplicates included: the output is a permutation
    of the input, not its set of distinct labels.  When every key is a
    timestamp without a time zone (a parsed instant, or [pd.Timestamp.min]
    for a label that did not parse), the output is sorted ascending by key,
    and labels of equal key keep their input order. *)
Theorem C1_normalizer_keeps_and_orders (P : API) (periods : list string) :
  Permutation periods (_sort_periods_chronologically P Py.str periods)
  /\ (keys_comparable P Py.str periods ->
      StronglySorted (fun a b => le (sort_key P Py.str a) (sort_key P Py.str b))
                     (_sort_periods_chronologically P Py.str periods)
      /\ forall k,
           filter (fun x => same k (sort_key P Py.str x))
                  (_sort_periods_chronologically P Py.str periods)
           = filter (fun x => same k (sort_key P Py.str x)) periods).
Proof.
  split; [apply nsort_perm|]. intros Hn.
  split; [apply nsort_sorted, Hn | intros k; apply nsort_stable].
Qed.

(** C1, witness: four quarter labels, one of them twice. *)
Lemma C1_witness :
  Permutation ["2024Q3"; "2023Q4"; "2024Q1"; "2023Q4"]
    (_sort_periods_chronologically Sample.pandas Py.str
       ["2024Q3"; "2023Q4"; "2024Q1"; "2023Q4"])
  /\ StronglySorted
       (fun a b => le (sort_key Sample.pandas Py.str a) (sort_key Sample.pandas Py.str b))
       (_sort_periods_chronologically Sample.pandas Py.str
          ["2024Q3"; "2023Q4"; "2024Q1"; "2023Q4"]).
Proof.
  destruct (C1_normalizer_keeps_and_orders Sample.pandas
              ["2024Q3"; "2023Q4"; "2024Q1"; "2023Q4"]) as (Hp & Hs).
  split; [exact Hp|]. apply Hs.
  apply keys_comparable_forallb. vm_compute. reflexivity.
Defined.

(** C1, counterexample.  A label given twice is returned twice, whatever
    pandas parses it to; and with any pandas that parses the ISO 8601 label
    of June 2024 with its UTC offset to a timestamp with a time zone, that
    label followed by "2024Q1" comes back in the input order, June before
    January, since the sort raises [TypeError] and line 78 returns the
    input. *)
Lemma C1_duplicates_are_kept :
  (forall P : API,
      _sort_periods_chronologically P Py.str ["2024Q1"; "2024Q1"] = ["2024Q1"; "2024Q1"])
  /\ ~ NoDup ["2024Q1"; "2024Q1"]
  /\ (forall P : API,
        to_datetime_format P "%b %Y" Sample.utc_label = None ->
        to_datetime_format P "%B %Y" Sample.utc_label = None ->
        to_datetime P Sample.utc_label = Some (Aware 1717200000000000000) ->
        Timestamp_ymd P 2024 1 1 = Some (Naive 1704067200000000000) ->
        _sort_periods_chronologically P Py.str [Sample.utc_label; "2024Q1"]
        = [Sample.utc_label; "2024Q1"]).
Proof.
  split; [|split].
  - intros P. unfold _sort_periods_chronologically. simpl map.
    assert (E : forall k : Timestamp,
               sort_by_key [("2024Q1", k); ("2024Q1", k)]
               = Some [("2024Q1", k); ("2024Q1", k)]).
    { intros k. simpl. destruct k; simpl; rewrite ?Z.ltb_irrefl; reflexivity. }
    rewrite E. reflexivity.
  - intros H. inversion H as [|? ? Hn _]; subst. apply Hn. left. reflexivity.
  - intros P H1 H2 H3 H4.
    assert (E1 : sort_key P Py.str Sample.utc_label = Aware 1717200000000000000).
    { vm_compute in H1, H2, H3. vm_compute. rewrite H1, H2, H3. reflexivity. }
    assert (E2 : sort_key P Py.str "2024Q1" = Naive 1704067200000000000).
    { vm_compute in H4. vm_compute. rewrite H4. reflexivity. }
    unfold _sort_periods_chronologically. simpl map. rewrite E1, E2. reflexivity.
Qed.

(** C2, the code at the failing input.  ["2024Q1"] reaches
    [pd.Timestamp(year=2024, month=1, day=1)], but ["2024-Q1"] becomes
    ["2024--Q1"] in line 35, whose first part ["2024-"] is no [int]: the
    label gets [pd.Timestamp.min] and sorts before ["2024Q1"], not with
    it. *)
Theorem C2_dashed_quarter_label_fails :
  (forall P : API,
      parse_period P "2024Q1" = Timestamp_ymd P 2024 1 1
      /\ parse_period P "2024-Q1" = None
      /\ sort_key P Py.str "2024-Q1" = Timestamp_min)
  /\ sort_key Sample.pandas Py.str "2024Q1" = Naive 1704067200000000000
  /\ _sort_periods_chronologically Sample.pandas Py.str ["2024Q1"; "2024-Q1"]
     = ["2024-Q1"; "2024Q1"].
Proof.
  split; [|split]; [intros P; repeat split | |]; vm_compute; reflexivity.
Qed.

(** C3, as amended.  A label on which every parse attempt raises is in the
    output as it was given, and its key is [pd.Timestamp.min].  When every
    key is a timestamp without a time zone, it stands before every label
    whose key is later than [pd.Timestamp.min]. *)
Theorem C3_unparseable_label_kept (P : API) (periods : list string) (g : string) :
  In g periods ->
  parse_period P (Py.strip (Py.str g)) = None ->
  In g (_sort_periods_chronologically P Py.str periods)
  /\ sort_key P Py.str g = Timestamp_min
  /\ (keys_comparable P Py.str periods ->
      forall x, lt Timestamp_min (sort_key P Py.str x) = Some true ->
                precedes g x (_sort_periods_chronologically P Py.str periods)).
Proof.
  intros Hg Hfail.
  assert (Hk : sort_key P Py.str g = Timestamp_min).
  { unfold sort_key. rewrite Hfail. reflexivity. }
  split; [apply nsort_In, Hg|]. split; [exact Hk|].
  intros Hn x Hx. split; [apply nsort_In, Hg|].
  intros l1 l2 E Hin.
  pose proof (sorted_split _ _ _ _ _ _ (nsort_sorted P Py.str periods Hn) E Hin) as Hle.
  cbv beta in Hle. rewrite Hk in Hle.
  destruct (sort_key P Py.str x); simpl in *; try discriminate.
  inversion Hx as [H]. apply Z.ltb_lt in H. lia.
Qed.

(** C3, witness: "garbage" between two quarter labels. *)
Lemma C3_witness :
  In "garbage"
     (_sort_periods_chronologically Sample.pandas Py.str ["2024Q1"; "garbage"; "2023Q4"])
  /\ sort_key Sample.pandas Py.str "garbage" = Timestamp_min
  /\ precedes "garbage" "2023Q4"
       (_sort_periods_chronologically Sample.pandas Py.str ["2024Q1"; "garbage"; "2023Q4"]).
Proof.
  destruct (C3_unparseable_label_kept Sample.pandas ["2024Q1"; "garbage"; "2023Q4"] "garbage")
    as (H1 & H2 & H3).
  - simpl. auto.
  - vm_compute. reflexivity.
  - split; [exact H1|]. split; [exact H2|].
    apply H3; [apply keys_comparable_forallb|]; vm_compute; reflexivity.
Defined.

(** C3, counterexample.  With any pandas that parses the ISO 8601 label
    with its UTC offset to a timestamp with a time zone, and raises on
    "garbage", the list of that label and "garbage" is returned as given:
    comparing the two keys raises [TypeError], and "garbage" stays after
    the parseable label.  [Sample.pandas_utc] is such a pandas. *)
Lemma C3_label_with_time_zone :
  (forall (P : API) (t : Z),
      to_datetime_format P "%b %Y" Sample.utc_label = None ->
      to_datetime_format P "%B %Y" Sample.utc_label = None ->
      to_datetime P Sample.utc_label = Some (Aware t) ->
      parse_period P "garbage" = None ->
      _sort_periods_chronologically P Py.str [Sample.utc_label; "garbage"]
      = [Sample.utc_label; "garbage"])
  /\ parse_period Sample.pandas_utc Sample.utc_label = Some (Aware 1717200000000000000)
  /\ parse_period Sample.pandas_utc "garbage" = None
  /\ _sort_periods_chronologically Sample.pandas_utc Py.str [Sample.utc_label; "garbage"]
     = [Sample.utc_label; "garbage"].
Proof.
  split; [|repeat split; vm_compute; reflexivity].
  intros P t H1 H2 H3 H4.
  assert (E1 : sort_key P Py.str Sample.utc_label = Aware t).
  { vm_compute in H1, H2, H3. vm_compute. rewrite H1, H2, H3. reflexivity. }
  assert (E2 : sort_key P Py.str "garbage" = Timestamp_min).
  { unfold sort_key. change (Py.strip (Py.str "garbage")) with "garbage".
    rewrite H4. reflexivity. }
  unfold _sort_periods_chronologically. simpl map. rewrite E1, E2. reflexivity.
Qed.

End NormalizerClaims.

(** ** Claims on the win rate *)

Module WinRate.
Import pd NotionService.

(** The Status of [r] is [name], up to case. *)
Definition status_is (name : string) (r : Row) : bool :=
  match status r with
  | Some s => String.eqb (Py.lower s) (Py.lower name)
  | None => false
  end.

(** The number of rows whose Status is [name]. *)
Definition count (name : string) (df : DataFrame) : Z :=
  Py.len (filter (status_is name) (rows df)).

(** A row that counts for the win rate. *)
Definition outcome_determined (r : Row) : bool :=
  status_is "winner" r || status_is "loser" r || status_is "launched" r.

(** The win rate of three counts, as the specification words it. *)
Definition win_rate (winners losers launched : Z) : Py.Number :=
  let total := winners + losers + launched in
  if total =? 0 then Py.Int 0
  else Py.Float (Float64.round_ndigits2 (Float64.mul (Float64.truediv winners total) 100)).

Definition status_row (s : string) : Row :=
  mkRow None (Some s) None None None None None None None None None None.

(** 3 "Winner", 2 "Loser", 5 "Launched" and 1 "Pending" *)
Definition example_group : DataFrame :=
  mkDataFrame [Status]
    (map status_row
       ["Winner"; "Loser"; "Launched"; "Launched"; "Winner"; "Pending"; "Launched";
        "Loser"; "Launched"; "Winner"; "Launched"]).

Lemma lower_is_status_is (name : string) (r : Row) :
  Py.lower name = name -> lower_is name (status r) = status_is name r.
Proof. intros E. unfold lower_is, status_is. rewrite E. reflexivity. Qed.

Lemma where_status (name : string) (df : DataFrame) :
  Py.lower name = name ->
  Py.len (rows (where_ (fun r => lower_is name (status r)) df)) = count name df.
Proof.
  intros E. unfold count, where_. simpl.
  rewrite (filter_ext _ (status_is name)); [reflexivity|].
  intros r. apply lower_is_status_is, E.
Qed.

Lemma calculate_win_rate_no_rows (df : DataFrame) :
  rows df = [] -> calculate_win_rate df = Py.Ok (Py.Int 0).
Proof.
  intros E. unfold calculate_win_rate, empty. rewrite E.
  destruct (columns df); reflexivity.
Qed.

Lemma has_not_empty_columns (c : Column) (df : DataFrame) :
  has c df = true -> columns df <> [].
Proof. unfold has. destruct (columns df); [discriminate | discriminate]. Qed.

Lemma calculate_win_rate_formula (df : DataFrame) :
  has Status df = true ->
  calculate_win_rate df
  = Py.Ok (win_rate (count "winner" df) (count "loser" df) (count "launched" df)).
Proof.
  intros H. unfold calculate_win_rate. rewrite H. simpl negb. cbv iota.
  rewrite !where_status by reflexivity.
  unfold empty. destruct (columns df) eqn:Ec.
  { exfalso. eapply has_not_empty_columns; eauto. }
  destruct (rows df) eqn:Er.
  - unfold count. rewrite Er. reflexivity.
  - unfold win_rate. destruct (_ =? 0); reflexivity.
Qed.

Lemma count_where_outcome (name : string) (df : DataFrame) :
  (name = "winner" \/ name = "loser" \/ name = "launched") ->
  count name (where_ outcome_determined df) = count name df.
Proof.
  intros Hn. unfold count, where_. simpl.
  replace (filter (status_is name) (filter outcome_determined (rows df)))
    with (filter (status_is name) (rows df)); [reflexivity|].
  induction (rows df) as [|r l IH]; simpl; [reflexivity|].
  destruct (outcome_determined r) eqn:O; simpl; rewrite IH.
  - reflexivity.
  - unfold outcome_determined in O.
    apply orb_false_elim in O as [O1 O3]. apply orb_false_elim in O1 as [O1 O2].
    destruct Hn as [-> | [-> | ->]]; rewrite ?O1, ?O2, ?O3; reflexivity.
Qed.

Lemma count_nonneg name df : 0 <= count name df.
Proof. unfold count, Py.len. lia. Qed.

(** C4.  On a group that has the Status column, [calculate_win_rate]
    returns [winners / (winners + losers + launched) * 100] rounded to two
    decimals ([Float64.round_ndigits2_decimal]), the three counts being
    those of the rows whose Status is "winner", "loser", "launched" up to
    case.  Rows with another or no Status change nothing: the result on the
    group and on its outcome-determined rows is the same.  A group with no
    row, or with no outcome-determined row, yields the integer 0. *)
Theorem C4_win_rate_formula (df : DataFrame) :
  has Status df = true ->
  calculate_win_rate df
  = Py.Ok (win_rate (count "winner" df) (count "loser" df) (count "launched" df))
  /\ calculate_win_rate (where_ outcome_determined df) = calculate_win_rate df
  /\ (rows df = [] -> calculate_win_rate df = Py.Ok (Py.Int 0))
  /\ (rows (where_ outcome_determined df) = [] -> calculate_win_rate df = Py.Ok (Py.Int 0)).
Proof.
  intros H.
  assert (H' : has Status (where_ outcome_determined df) = true) by exact H.
  split; [apply calculate_win_rate_formula, H|].
  split.
  { rewrite (calculate_win_rate_formula _ H), (calculate_win_rate_formula _ H').
    rewrite !count_where_outcome by auto. reflexivity. }
  split; [apply calculate_win_rate_no_rows|].
  intros E.
  rewrite (calculate_win_rate_formula _ H).
  rewrite <- (count_where_outcome "winner"), <- (count_where_outcome "loser"),
    <- (count_where_outcome "launched") by auto.
  unfold count. rewrite E. reflexivity.
Qed.

(** C4, witness: 3 "Winner", 2 "Loser", 5 "Launched" and 1 "Pending" give
    exactly 30.0. *)
Lemma C4_example_is_30 :
  has Status example_group = true
  /\ count "winner" example_group = 3
  /\ count "loser" example_group = 2
  /\ count "launched" example_group = 5
  /\ count "pending" example_group = 1
  /\ calculate_win_rate example_group = Py.Ok (Py.Float 30).
Proof.
  repeat (split; [reflexivity|]).
  destruct (C4_win_rate_formula example_group eq_refl) as [E _].
  rewrite E. vm_compute. reflexivity.
Defined.

(** C10.  Every value [calculate_win_rate] returns lies between 0 and
    100. *)
Theorem C10_win_rate_is_a_percentage (df : DataFrame) (v : Py.Number) :
  calculate_win_rate df = Py.Ok v -> (0 <= Py.value v <= 100)%Q.
Proof.
  unfold calculate_win_rate.
  destruct (empty df).
  { intros H. inversion H. simpl. split; discriminate. }
  destruct (has Status df); simpl negb; cbv iota; [|discriminate].
  set (w := Py.len _). set (l := Py.len _). set (la := Py.len _).
  assert (Hw : 0 <= w) by (subst w; unfold Py.len; lia).
  assert (Hl : 0 <= l) by (subst l; unfold Py.len; lia).
  assert (Hla : 0 <= la) by (subst la; unfold Py.len; lia).
  destruct (w + l + la =? 0) eqn:T.
  { intros H. inversion H. simpl. split; discriminate. }
  apply Z.eqb_neq in T. intros H. inversion H. simpl.
  apply Float64.percentage_bounds, Float64.truediv_unit; lia.
Qed.

(** C10, witness: the group of C4. *)
Lemma C10_witness : (0 <= Py.value (Py.Float 30) <= 100)%Q.
Proof.
  apply (C10_win_rate_is_a_percentage example_group).
  vm_compute. reflexivity.
Defined.

End WinRate.

(** ** Loops, columns and frames *)

Module EngineFacts.
Import pd NotionService AdAnalytics NormalizerFacts.

(** *** Loops *)

Lemma for_each_length {A B} (f : A -> Py.Result B) (l : list A) (l' : list B) :
  Py.for_each f l = Py.Ok l' -> length l' = length l.
Proof.
  revert l'. induction l as [|x t IH]; simpl; intros l' H.
  - inversion H. reflexivity.
  - destruct (f x) as [y|e]; simpl in H; [|discriminate].
    destruct (Py.for_each f t) as [ys|e]; simpl in H; [|discriminate].
    inversion H. simpl. f_equal. apply IH. reflexivity.
Qed.

Lemma for_each_Forall2 {A B} (f : A -> Py.Result B) (l : list A) (l' : list B) :
  Py.for_each f l = Py.Ok l' -> Forall2 (fun x y => f x = Py.Ok y) l l'.
Proof.
  revert l'. induction l as [|x t IH]; simpl; intros l' H.
  - inversion H. constructor.
  - destruct (f x) as [y|e] eqn:E; simpl in H; [|discriminate].
    destruct (Py.for_each f t) as [ys|e]; simpl in H; [|discriminate].
    inversion H. constructor; [exact E | apply IH; reflexivity].
Qed.

Lemma for_each_total {A B} (f : A -> Py.Result B) (g : A -> B) (l : list A) :
  (forall x, In x l -> f x = Py.Ok (g x)) -> Py.for_each f l = Py.Ok (map g l).
Proof.
  induction l as [|x t IH]; simpl; intros H; [reflexivity|].
  rewrite (H x) by auto. simpl. rewrite IH by auto. reflexivity.
Qed.

Lemma Forall2_nth_error {A B} (R : A -> B -> Prop) (l : list A) (l' : list B) i x :
  Forall2 R l l' -> nth_error l i = Some x -> exists y, nth_error l' i = Some y /\ R x y.
Proof.
  intros H. revert i. induction H as [|a b l l' Hab H IH]; intros i Hi.
  - destruct i; discriminate.
  - destruct i as [|i]; simpl in *.
    + inversion Hi; subst. eauto.
    + apply IH, Hi.
Qed.

Lemma Forall2_In_r {A B} (R : A -> B -> Prop) (l : list A) (l' : list B) y :
  Forall2 R l l' -> In y l' -> exists x, In x l /\ R x y.
Proof.
  induction 1 as [|a b l l' Hab H IH]; simpl; intros Hy; [contradiction|].
  destruct Hy as [<- | Hy]; [eauto|].
  destruct (IH Hy) as (x & Hx & Hr). eauto.
Qed.

(** *** Columns *)

Lemma In_dropna {A} (l : list (option A)) (x : A) : In x (dropna l) <-> In (Some x) l.
Proof.
  induction l as [|[a|] t IH]; simpl.
  - tauto.
  - rewrite IH. split; intros [H | H]; auto; [left; congruence | left; congruence].
  - rewrite IH. split; [auto | intros [H | H]; [discriminate | exact H]].
Qed.

Lemma In_unique_from {A} (eqb : A -> A -> bool) (seen l : list A) (x : A) :
  In x (unique_from eqb seen l) -> In x l.
Proof.
  revert seen. induction l as [|a t IH]; simpl; intros seen H; [exact H|].
  destruct (existsb (eqb a) seen).
  - right. eapply IH, H.
  - destruct H as [H | H]; [auto | right; eapply IH, H].
Qed.

Lemma In_unique {A} (eqb : A -> A -> bool) (l : list A) (x : A) :
  In x (unique eqb l) -> In x l.
Proof. apply In_unique_from. Qed.

Lemma In_insert_key (k k' : string) (l : list string) :
  In k (insert_key k' l) <-> k = k' \/ In k l.
Proof.
  induction l as [|h t IH]; simpl.
  - split; intros [H | H]; auto; contradiction.
  - destruct (String.eqb_spec k' h) as [-> | N].
    + simpl. split; [auto | intros [-> | H]; auto].
    + destruct (String.ltb k' h); simpl.
      * split; intros [H | H]; auto.
      * rewrite IH. tauto.
Qed.

Lemma In_fold_insert_key (k : string) (l acc : list string) :
  In k (fold_left (fun acc k => insert_key k acc) l acc) <-> In k l \/ In k acc.
Proof.
  revert acc. induction l as [|h t IH]; simpl; intros acc.
  - tauto.
  - rewrite IH, In_insert_key. split; intros H; intuition auto.
Qed.

Lemma In_group_keys (k : string) (l : list (option string)) :
  In k (group_keys l) <-> In (Some k) l.
Proof.
  unfold group_keys. rewrite In_fold_insert_key, In_dropna. simpl. tauto.
Qed.

Lemma eq_cell_Some (a : option string) (k : string) :
  eq_cell a (Some k) = true <-> a = Some k.
Proof.
  destruct a as [s|]; simpl; [|split; discriminate].
  rewrite String.eqb_eq. split; congruence.
Qed.

(** *** Frames *)

(** The row has a Launch Date. *)
Definition dated (r : Row) : bool := notna (launch_date r).

Lemma has_where (c : Column) (f : Row -> bool) (df : DataFrame) :
  has c (where_ f df) = has c df.
Proof. reflexivity. Qed.

Lemma has_filter_status (c : Column) (a : option string) (df : DataFrame) :
  has c (filter_status a df) = has c df.
Proof.
  unfold filter_status. destruct a; [|reflexivity].
  destruct (_ && _); reflexivity.
Qed.

Lemma rows_filter_status (a : option string) (df : DataFrame) (r : Row) :
  In r (rows (filter_status a df)) -> In r (rows df).
Proof.
  unfold filter_status. destruct a; [|auto].
  destruct (_ && _); [|auto]. simpl. rewrite filter_In. tauto.
Qed.

Lemma filter_by_Ok (c : Column) (cell : Row -> option string) (a : option string)
  (df df' : DataFrame) :
  filter_by c cell a df = Py.Ok df' ->
  columns df' = columns df /\ forall r, In r (rows df') -> In r (rows df).
Proof.
  unfold filter_by. destruct a as [v|]; [|intros H; inversion H; auto].
  destruct (Py.truthy _); [|intros H; inversion H; auto].
  destruct (has c df); [|discriminate].
  intros H. inversion H. simpl. split; [reflexivity|].
  intros r. rewrite filter_In. tauto.
Qed.

Lemma filter_by_present (c : Column) (cell : Row -> option string) (a : option string)
  (df : DataFrame) :
  (Py.truthy a = true -> has c df = true) ->
  exists df', filter_by c cell a df = Py.Ok df'.
Proof.
  unfold filter_by. intros H. destruct a as [v|]; [|eauto].
  destruct (Py.truthy _); [|eauto]. rewrite H by reflexivity. eauto.
Qed.

End EngineFacts.

(** ** Where the labels of a chart come from *)

Module PeriodKeys.
Import pd NotionService AdAnalytics NormalizerFacts EngineFacts.

Section Keys.
Variable P : API.

(** The period key of a row.  [ratio] tells the ratio charts from the
    rate, mean and volume charts. *)
Definition period_key (ratio : bool) (period : string) (df : DataFrame) (r : Row)
  : option string :=
  if String.eqb period "quarter" then dt_to_period P freq_Q r
  else if String.eqb period "week" && negb ratio then
    if has Launch_YY_WW df then launch_yy_ww r else dt_to_period P freq_W r
  else
    if has Launch_Month df then launch_month r else dt_to_period P freq_M r.

(** [k] is the key of a row of [df] that has a Launch Date. *)
Definition keyed_by (key : Row -> option string) (df : DataFrame) (k : option string)
  : Prop :=
  exists r, In r (rows df) /\ dated r = true /\ key r = k.

Lemma rows_Period_from (cell : Row -> option string) (df : DataFrame) :
  rows (Period_from cell df) = map (fun r => set_period (cell r) r) (rows df).
Proof. reflexivity. Qed.

Lemma rows_assign_period (period : string) (df : DataFrame) :
  rows (assign_period P period df)
  = map (fun r => set_period (period_key false period df r) r) (rows df).
Proof.
  unfold assign_period, period_key.
  destruct (String.eqb_spec period "week") as [-> | _]; simpl;
    [|destruct (String.eqb period "quarter")];
    try destruct (has Launch_YY_WW df); try destruct (has Launch_Month df);
    reflexivity.
Qed.

Lemma rows_assign_period_ratio (period : string) (df : DataFrame) :
  rows (assign_period_ratio P period df)
  = map (fun r => set_period (period_key true period df r) r) (rows df).
Proof.
  unfold assign_period_ratio, period_key.
  destruct (String.eqb period "quarter"); [reflexivity|].
  destruct (String.eqb period "week"); simpl;
    destruct (has Launch_Month df); reflexivity.
Qed.

Lemma period_key_columns (ratio : bool) (period : string) (df df' : DataFrame) (r : Row) :
  columns df' = columns df -> period_key ratio period df' r = period_key ratio period df r.
Proof. intros E. unfold period_key, has. rewrite E. reflexivity. Qed.

Lemma columns_filter_status (a : option string) (df : DataFrame) :
  columns (filter_status a df) = columns df.
Proof.
  unfold filter_status. destruct a; [|reflexivity]. destruct (_ && _); reflexivity.
Qed.

Lemma columns_assign_present (c : Column) (f : Row -> Row) (df : DataFrame) :
  has c df = true -> columns (assign c f df) = columns df.
Proof. intros H. unfold assign. rewrite H. reflexivity. Qed.

Lemma period_of_assigned (key : Row -> option string) (l : list Row) (k : option string) :
  In k (map period (map (fun r => set_period (key r) r) l))
  <-> exists r, In r l /\ key r = k.
Proof.
  rewrite map_map. simpl. rewrite in_map_iff.
  split; intros (r & H1 & H2); exists r; auto.
Qed.

Lemma where_dated (df : DataFrame) (r : Row) :
  In r (rows (where_ (fun r => notna (launch_date r)) df))
  <-> In r (rows df) /\ dated r = true.
Proof. unfold where_. simpl. apply filter_In. Qed.

Lemma for_each_keys {G V} (f : G -> Py.Result V) (l : list (string * G))
  (res : list (string * V)) :
  Py.for_each (fun '(k, g) => v <- f g ;; Py.Ok (k, v)) l = Py.Ok res ->
  map fst res = map fst l.
Proof.
  revert res. induction l as [|[k g] t IH]; simpl; intros res H.
  - inversion H. reflexivity.
  - destruct (f g) as [v|e]; simpl in H; [|discriminate].
    destruct (Py.for_each _ t) as [ys|e]; simpl in H; [|discriminate].
    inversion H. simpl. f_equal. apply IH. reflexivity.
Qed.

Lemma groupby_Period_keys (df : DataFrame) :
  map fst (groupby_Period df) = group_keys (map period (rows df)).
Proof. unfold groupby_Period. rewrite map_map. simpl. apply map_id. Qed.

Lemma sorted_series_labels (result : list (string * Py.Number)) (s : Series.t) (k : string) :
  sorted_series P result = Py.Ok s ->
  In k (Series.labels s) <-> In k (map fst result).
Proof.
  unfold sorted_series. destruct (Py.for_each _ _) as [data|e]; simpl; [|discriminate].
  intros H. inversion H. simpl. apply nsort_In.
Qed.

Lemma by_period_keys (metric : DataFrame -> Py.Number) (df : DataFrame) :
  map fst (by_period metric df) = group_keys (map period (rows df)).
Proof.
  unfold by_period. rewrite <- groupby_Period_keys. rewrite map_map.
  apply map_ext. intros [k g]. reflexivity.
Qed.

(** The labels of a chart with one series over the frame [df'] whose rows
    carry their keys. *)
Lemma keys_of_frame (key : Row -> option string) (df' : DataFrame) (k : string) :
  In k (group_keys (map period (map (fun r => set_period (key r) r) (rows df'))))
  <-> exists r, In r (rows df') /\ key r = Some k.
Proof. rewrite In_group_keys. apply period_of_assigned. Qed.

Lemma has_Launch_Date_rows (df : DataFrame) :
  has Launch_Date df = true -> empty df = true -> rows df = [].
Proof.
  unfold has, empty. destruct (columns df); [discriminate|].
  destruct (rows df); [reflexivity | discriminate].
Qed.

Lemma get_win_rate_by_period_labels (df : DataFrame) (period : string) (s : Series.t)
  (k : string) :
  get_win_rate_by_period P df period = Py.Ok s ->
  (In k (Series.labels s) -> keyed_by (period_key false period df) df (Some k))
  /\ (has Launch_Date df = true ->
      keyed_by (period_key false period df) df (Some k) -> In k (Series.labels s)).
Proof.
  unfold get_win_rate_by_period.
  destruct (negb (has Launch_Date df) || empty df) eqn:G.
  - intros H. inversion H. simpl. split; [contradiction|].
    intros HL (r & Hr & _). rewrite HL in G. simpl in G.
    rewrite (has_Launch_Date_rows df HL G) in Hr. exact Hr.
  - set (df1 := where_ _ df).
    destruct (Py.for_each _ (groupby_Period _)) as [result|e] eqn:E; simpl; [|discriminate].
    destruct (Py.for_each (getitem result) _) as [data|e]; simpl; [|discriminate].
    intros H. inversion H. simpl. clear H.
    pose proof (for_each_keys _ _ _ E) as K.
    rewrite groupby_Period_keys, rows_assign_period in K.
    rewrite nsort_In, K, keys_of_frame.
    assert (Hc : forall r, period_key false period df1 r = period_key false period df r)
      by reflexivity.
    split.
    + intros (r & Hr & Hk). apply where_dated in Hr as [Hr Hd].
      exists r. rewrite <- Hc. auto.
    + intros _ (r & Hr & Hd & Hk). exists r. split; [apply where_dated; auto|].
      rewrite Hc. exact Hk.
Qed.

Lemma win_rate_by_labels (dim : Column) (cell : Row -> option string)
  (df : DataFrame) (period : string) (r : Datasets.t) (k : option string) :
  win_rate_by P dim cell df period = Py.Ok r ->
  In k (Datasets.labels r) -> keyed_by (period_key false period df) df k.
Proof.
  unfold win_rate_by.
  destruct (_ || _); [intros H; inversion H; contradiction|].
  destruct (Py.for_each _ _) as [datasets|e]; simpl; [|discriminate].
  intros H. inversion H. simpl. clear H.
  rewrite nsort_In. intros Hk. apply In_unique in Hk.
  rewrite rows_assign_period in Hk. apply period_of_assigned in Hk as (x & Hx & Hk).
  apply where_dated in Hx as [Hx Hd]. exists x. auto.
Qed.

Lemma ratio_by_labels (dim : Column) (cell : Row -> option string)
  (df : DataFrame) (period : string) (a : option string) (r : Datasets.t)
  (k : option string) :
  ratio_by P dim cell df period a = Py.Ok r ->
  In k (Datasets.labels r) -> keyed_by (period_key true period df) df k.
Proof.
  unfold ratio_by.
  destruct (_ || _); [intros H; inversion H; contradiction|].
  intros H. inversion H. simpl. clear H.
  rewrite nsort_In. intros Hk. apply In_unique in Hk.
  rewrite rows_assign_period_ratio in Hk. apply period_of_assigned in Hk as (x & Hx & Hk).
  apply rows_filter_status, where_dated in Hx as [Hx Hd].
  exists x. split; [exact Hx|]. split; [exact Hd|].
  rewrite <- Hk. symmetry. apply period_key_columns.
  rewrite columns_filter_status. reflexivity.
Qed.

Lemma get_product_ratio_labels (df : DataFrame) (period : string) (a : option string)
  (r : Datasets.t) (k : option string) :
  get_product_ratio P df period a = Py.Ok r ->
  In k (Datasets.labels r) -> keyed_by (period_key true period df) df k.
Proof.
  unfold get_product_ratio.
  destruct (negb (has Launch_Date df) || negb (has Product df) || empty df) eqn:G;
    [intros H; inversion H; contradiction|].
  apply orb_false_elim in G as [G _]. apply orb_false_elim in G as [_ G].
  apply negb_false_iff in G.
  intros H. inversion H. simpl. clear H.
  rewrite nsort_In. intros Hk. apply In_unique in Hk.
  apply in_map_iff in Hk as (k' & <- & Hk). apply In_dropna in Hk.
  rewrite rows_assign_period_ratio in Hk. apply period_of_assigned in Hk as (x & Hx & Hk).
  simpl in Hx. apply in_map_iff in Hx as (x0 & <- & Hx).
  apply rows_filter_status, where_dated in Hx as [Hx Hd].
  exists x0. split; [exact Hx|]. split; [exact Hd|].
  rewrite <- Hk. symmetry.
  rewrite (period_key_columns _ _ df).
  - reflexivity.
  - rewrite columns_assign_present, columns_filter_status; [reflexivity|].
    rewrite has_filter_status. exact G.
Qed.

Lemma series_over_frame (metric : DataFrame -> Py.Number) (period : string)
  (df' : DataFrame) (s : Series.t) (k : string) :
  sorted_series P (by_period metric (assign_period P period df')) = Py.Ok s ->
  In k (Series.labels s) ->
  exists r, In r (rows df') /\ period_key false period df' r = Some k.
Proof.
  intros H Hk. rewrite (sorted_series_labels _ _ _ H) in Hk.
  rewrite by_period_keys, rows_assign_period in Hk. apply keys_of_frame, Hk.
Qed.

Lemma get_avg_production_time_labels (df : DataFrame) (a : option string)
  (period : string) (s : Series.t) (k : string) :
  get_avg_production_time P df a period = Py.Ok s ->
  In k (Series.labels s) -> keyed_by (period_key false period df) df (Some k).
Proof.
  unfold get_avg_production_time.
  destruct (_ || _); [intros H; inversion H; contradiction|].
  destruct (empty _); [intros H; inversion H; contradiction|].
  destruct (filter_by _ _ _ _) as [df'|e] eqn:F; simpl; [|discriminate].
  destruct (_ && _); [intros H; inversion H; contradiction|].
  intros H Hk. destruct (series_over_frame _ _ _ _ _ H Hk) as (r & Hr & Hkey).
  destruct (filter_by_Ok _ _ _ _ _ F) as [Hc Hrows].
  apply Hrows in Hr. simpl in Hr.
  apply filter_In in Hr as [Hr _]. apply filter_In in Hr as [Hr _].
  apply filter_In in Hr as [Hr Hd].
  exists r. split; [exact Hr|]. split; [exact Hd|].
  rewrite <- Hkey. symmetry. apply period_key_columns. exact Hc.
Qed.

Lemma get_avg_editing_time_labels (df : DataFrame) (a : option string)
  (period : string) (s : Series.t) (k : string) :
  get_avg_editing_time P df a period = Py.Ok s ->
  In k (Series.labels s) -> keyed_by (period_key false period df) df (Some k).
Proof.
  unfold get_avg_editing_time.
  destruct (_ || _); [intros H; inversion H; contradiction|].
  destruct (filter_by _ _ _ _) as [df'|e] eqn:F; simpl; [|discriminate].
  intros H Hk. destruct (series_over_frame _ _ _ _ _ H Hk) as (r & Hr & Hkey).
  destruct (filter_by_Ok _ _ _ _ _ F) as [Hc Hrows].
  apply Hrows in Hr. simpl in Hr.
  apply filter_In in Hr as [Hr _]. apply filter_In in Hr as [Hr Hd].
  exists r. split; [exact Hr|]. split; [exact Hd|].
  rewrite <- Hkey. symmetry. apply period_key_columns. exact Hc.
Qed.

Lemma get_creatives_volume_labels (df : DataFrame) (period : string)
  (a b : option string) (s : Series.t) (k : string) :
  get_creatives_volume P df period a b = Py.Ok s ->
  In k (Series.labels s) -> keyed_by (period_key false period df) df (Some k).
Proof.
  unfold get_creatives_volume.
  destruct (_ || _); [intros H; inversion H; contradiction|].
  destruct (filter_by _ _ _ _) as [df'|e] eqn:F; simpl; [|discriminate].
  intros H Hk. destruct (series_over_frame _ _ _ _ _ H Hk) as (r & Hr & Hkey).
  destruct (filter_by_Ok _ _ _ _ _ F) as [Hc Hrows].
  apply Hrows, rows_filter_status, where_dated in Hr as [Hr Hd].
  exists r. split; [exact Hr|]. split; [exact Hd|].
  rewrite <- Hkey. symmetry. apply period_key_columns.
  rewrite Hc, columns_filter_status. reflexivity.
Qed.

End Keys.
End PeriodKeys.

(** ** Claims on period keys *)

Module PeriodClaims.
Import pd NotionService AdAnalytics NormalizerFacts EngineFacts PeriodKeys.

(** The week key of a row: Launch YY-WW if the table has the column, else
    the week period of Launch Date. *)
Definition week_key (P : API) (df : DataFrame) (r : Row) : option string :=
  if has Launch_YY_WW df then launch_yy_ww r else dt_to_period P freq_W r.

(** C7.  A ratio chart asked for by week is the ratio chart by month,
    labels and series alike.  The win rate by period asked for by week has
    exactly the week keys of the dated rows as labels: Launch YY-WW where
    the table has the column, else the week period of Launch Date. *)
Theorem C7_week_in_ratio_and_rate_charts (P : API) (df : DataFrame)
  (status_arg : option string) :
  get_ad_type_ratio P df "week" status_arg = get_ad_type_ratio P df "month" status_arg
  /\ get_product_ratio P df "week" status_arg = get_product_ratio P df "month" status_arg
  /\ get_format_ratio P df "week" status_arg = get_format_ratio P df "month" status_arg
  /\ (has Launch_Date df = true ->
      forall s, get_win_rate_by_period P df "week" = Py.Ok s ->
      forall k, In k (Series.labels s) <-> keyed_by (week_key P df) df (Some k)).
Proof.
  split; [reflexivity|]. split; [reflexivity|]. split; [reflexivity|].
  intros HL s Hs k.
  destruct (get_win_rate_by_period_labels P df "week" s k Hs) as [H1 H2].
  split; [exact H1 | exact (H2 HL)].
Qed.

(** C7, witness: the week "24-06" of the sample table. *)
Lemma C7_witness :
  keyed_by (week_key Sample.pandas Sample.table) Sample.table (Some "24-06").
Proof.
  destruct (C7_week_in_ratio_and_rate_charts Sample.pandas Sample.table None)
    as (_ & _ & _ & H).
  apply (H eq_refl
           (Series.mk ["24-03"; "24-06"; "24-14"] [Py.Float 50; Py.Float 0; Py.Int 0])).
  - vm_compute. reflexivity.
  - simpl. auto.
Defined.

(** C9, as amended.  Every label of every chart is the period key of a
    row that has a Launch Date, and the Period column of the frame a chart
    groups holds the period key of each row.  The key is [period_key]:
    Launch Month verbatim when the granularity is the month and the table
    has the column; Launch YY-WW verbatim when it is the week, the table
    has the column and the chart is a rate, mean or volume chart; the month
    key when a ratio chart is asked for by week; and derived from Launch
    Date when the precomputed column is absent, or by quarter. *)
Theorem C9_period_key_of_each_chart (P : API) (df : DataFrame) (period : string)
  (strategist_arg editor_arg status_arg : option string) :
  (forall s k, get_win_rate_by_period P df period = Py.Ok s ->
      In k (Series.labels s) -> keyed_by (period_key P false period df) df (Some k))
  /\ (forall r k, get_win_rate_by_strategist P df period = Py.Ok r ->
      In k (Datasets.labels r) -> keyed_by (period_key P false period df) df k)
  /\ (forall r k, get_win_rate_by_product P df period = Py.Ok r ->
      In k (Datasets.labels r) -> keyed_by (period_key P false period df) df k)
  /\ (forall r k, get_win_rate_by_ad_type P df period = Py.Ok r ->
      In k (Datasets.labels r) -> keyed_by (period_key P false period df) df k)
  /\ (forall s k, get_avg_production_time P df strategist_arg period = Py.Ok s ->
      In k (Series.labels s) -> keyed_by (period_key P false period df) df (Some k))
  /\ (forall s k, get_avg_editing_time P df editor_arg period = Py.Ok s ->
      In k (Series.labels s) -> keyed_by (period_key P false period df) df (Some k))
  /\ (forall s k, get_creatives_volume P df period strategist_arg status_arg = Py.Ok s ->
      In k (Series.labels s) -> keyed_by (period_key P false period df) df (Some k))
  /\ (forall r k, get_ad_type_ratio P df period status_arg = Py.Ok r ->
      In k (Datasets.labels r) -> keyed_by (period_key P true period df) df k)
  /\ (forall r k, get_product_ratio P df period status_arg = Py.Ok r ->
      In k (Datasets.labels r) -> keyed_by (period_key P true period df) df k)
  /\ (forall r k, get_format_ratio P df period status_arg = Py.Ok r ->
      In k (Datasets.labels r) -> keyed_by (period_key P true period df) df k)
  /\ rows (assign_period P period df)
     = map (fun r => set_period (period_key P false period df r) r) (rows df)
  /\ rows (assign_period_ratio P period df)
     = map (fun r => set_period (period_key P true period df r) r) (rows df)
  /\ (has Launch_Month df = true ->
      forall ratio r, period_key P ratio "month" df r = launch_month r)
  /\ (has Launch_Month df = false ->
      forall ratio r, period_key P ratio "month" df r = dt_to_period P freq_M r)
  /\ (has Launch_YY_WW df = true ->
      forall r, period_key P false "week" df r = launch_yy_ww r)
  /\ (has Launch_YY_WW df = false ->
      forall r, period_key P false "week" df r = dt_to_period P freq_W r)
  /\ (forall r, period_key P true "week" df r = period_key P true "month" df r).
Proof.
  split; [intros s k H; apply (get_win_rate_by_period_labels P df period s k H)|].
  split; [intros r k; apply win_rate_by_labels|].
  split; [intros r k; apply win_rate_by_labels|].
  split; [intros r k; apply win_rate_by_labels|].
  split; [intros s k; apply get_avg_production_time_labels|].
  split; [intros s k; apply get_avg_editing_time_labels|].
  split; [intros s k; apply get_creatives_volume_labels|].
  split; [intros r k; apply ratio_by_labels|].
  split; [intros r k; apply get_product_ratio_labels|].
  split; [intros r k; apply ratio_by_labels|].
  split; [apply rows_assign_period|].
  split; [apply rows_assign_period_ratio|].
  unfold period_key. simpl.
  repeat split; intros H; try rewrite H; try reflexivity; intros; destruct ratio; reflexivity.
Qed.

(** C9, witness: "Feb 2024" in the win rate by month and in the ad-type
    ratio by week of the sample table. *)
Lemma C9_witness :
  keyed_by (period_key Sample.pandas false "month" Sample.table) Sample.table
           (Some "Feb 2024")
  /\ keyed_by (period_key Sample.pandas true "week" Sample.table) Sample.table
              (Some "Feb 2024").
Proof.
  destruct (C9_period_key_of_each_chart Sample.pandas Sample.table "month" None None None)
    as (H & _).
  destruct (C9_period_key_of_each_chart Sample.pandas Sample.table "week" None None None)
    as (_ & _ & _ & _ & _ & _ & _ & H' & _).
  split.
  - apply (H (Series.mk ["Jan 2024"; "Feb 2024"; "Apr 2024"]
                        [Py.Float 50; Py.Float 0; Py.Int 0])).
    + vm_compute. reflexivity.
    + simpl. auto.
  - destruct (get_ad_type_ratio Sample.pandas Sample.table "week" None) as [r|e] eqn:E;
      [|vm_compute in E; discriminate].
    apply (H' r); [reflexivity|].
    vm_compute in E. inversion E. simpl. auto.
Defined.

(** C9, counterexample.  The table has the Launch YY-WW column, its one
    row holding "24-03"; the ad-type ratio by week labels that row
    "Jan 2024", its Launch Month. *)
Lemma C9_ratio_chart_by_week_reads_launch_month :
  has Launch_YY_WW Sample.one_creative = true
  /\ map launch_yy_ww (rows Sample.one_creative) = [Some "24-03"]
  /\ map launch_month (rows Sample.one_creative) = [Some "Jan 2024"]
  /\ (forall P : API,
        get_ad_type_ratio P Sample.one_creative "week" None
        = Py.Ok (Datasets.mk [Some "Jan 2024"]
                   [Dataset.mk "Static" [Py.Int 1] None None (Some "#FF6384")])).
Proof.
  repeat split. 
Qed.

End PeriodClaims.

(** ** Claim on the alignment of series *)

Module Alignment.
Import pd NotionService AdAnalytics NormalizerFacts EngineFacts PeriodKeys WinRate.

(** Every series is as long as the list of labels. *)
Definition aligned (r : Datasets.t) : Prop :=
  Forall (fun ds => length (Dataset.data ds) = length (Datasets.labels r))
         (Datasets.datasets r).

(** A cell whose period and dimension value no row of [frame] carries
    holds the integer 0. *)
Definition zero_filled (r : Datasets.t) (cell : Row -> option string) (frame : DataFrame)
  : Prop :=
  forall ds i p,
    In ds (Datasets.datasets r) ->
    nth_error (Datasets.labels r) i = Some p ->
    rows (cell_of cell p (Dataset.label ds) frame) = [] ->
    nth_error (Dataset.data ds) i = Some (Py.Int 0).

Section Frames.
Variable P : API.

(** The frames the loops of the charts read. *)
Definition rate_frame (period : string) (df : DataFrame) : DataFrame :=
  assign_period P period (where_ (fun r => notna (launch_date r)) df).

Definition ratio_frame (period : string) (status_arg : option string) (df : DataFrame)
  : DataFrame :=
  assign_period_ratio P period
    (filter_status status_arg (where_ (fun r => notna (launch_date r)) df)).

Definition product_frame (period : string) (status_arg : option string) (df : DataFrame)
  : DataFrame :=
  assign_period_ratio P period
    (assign Product (fun r => set_product (recode_product (product r)) r)
       (filter_status status_arg (where_ (fun r => notna (launch_date r)) df))).

Lemma win_rate_by_aligned (dim : Column) (cell : Row -> option string)
  (df : DataFrame) (period : string) (r : Datasets.t) :
  win_rate_by P dim cell df period = Py.Ok r ->
  aligned r /\ zero_filled r cell (rate_frame period df).
Proof.
  unfold win_rate_by. fold (rate_frame period df).
  destruct (_ || _).
  { intros H. inversion H. subst r. split; [constructor | intros ds i p []]. }
  set (periods := _sort_periods_chronologically P str_cell _).
  destruct (Py.for_each _ (unique _ _)) as [datasets|e] eqn:E; simpl; [|discriminate].
  intros H. inversion H. subst r. clear H. unfold aligned, zero_filled. simpl.
  pose proof (for_each_Forall2 _ _ _ E) as F.
  assert (D : forall ds, In ds datasets ->
                Forall2 (fun p y => calculate_win_rate
                                      (cell_of cell p (Dataset.label ds) (rate_frame period df))
                                    = Py.Ok y)
                        periods (Dataset.data ds)).
  { intros ds Hds. destruct (Forall2_In_r _ _ _ _ F Hds) as (v & _ & Hv).
    destruct (Py.for_each _ periods) as [data|e] eqn:Ed; simpl in Hv; [|discriminate].
    inversion Hv. subst ds. simpl. apply for_each_Forall2 in Ed. exact Ed. }
  split.
  - apply Forall_forall. intros ds Hds. symmetry.
    eapply Forall2_length, D, Hds.
  - intros ds i p Hds Hp Hrows.
    destruct (Forall2_nth_error _ _ _ _ _ (D ds Hds) Hp) as (y & Hy & Hc).
    rewrite calculate_win_rate_no_rows in Hc by exact Hrows.
    inversion Hc. subst y. exact Hy.
Qed.

Lemma nth_error_count (f : option string -> DataFrame) (periods : list (option string))
  i p :
  nth_error periods i = Some p -> rows (f p) = [] ->
  nth_error (map (fun period_val => Py.Int (Py.len (rows (f period_val)))) periods) i
  = Some (Py.Int 0).
Proof.
  intros Hp Hr. rewrite nth_error_map, Hp. simpl. rewrite Hr. reflexivity.
Qed.

Lemma ratio_by_aligned (dim : Column) (cell : Row -> option string)
  (df : DataFrame) (period : string) (a : option string) (r : Datasets.t) :
  ratio_by P dim cell df period a = Py.Ok r ->
  aligned r /\ zero_filled r cell (ratio_frame period a df).
Proof.
  unfold ratio_by. fold (ratio_frame period a df).
  destruct (_ || _).
  { intros H. inversion H. subst r. split; [constructor | intros ds i p []]. }
  intros H. inversion H. subst r. clear H. unfold aligned, zero_filled. simpl.
  split.
  - apply Forall_forall. intros ds Hds.
    apply in_map_iff in Hds as ([idx v] & <- & _). simpl. apply length_map.
  - intros ds i p Hds Hp Hrows.
    apply in_map_iff in Hds as ([idx v] & <- & _). simpl in *.
    apply (nth_error_count (fun q => cell_of cell q v (ratio_frame period a df)) _ i p);
      assumption.
Qed.

Lemma product_datasets_In (df : DataFrame) (periods : list (option string))
  (products : list string) (idx : nat) (ds : Dataset.t) :
  In ds (product_datasets df periods products idx) ->
  exists product_,
    In product_ products
    /\ Dataset.label ds = (if String.eqb product_ "" then "Unknown" else product_)
    /\ Dataset.data ds
       = map (fun period_val =>
                Py.Int (Py.len (rows (cell_of product period_val product_ df))))
             periods.
Proof.
  revert idx. induction products as [|x t IH]; simpl; intros idx H; [contradiction|].
  match type of H with In _ (match ?c with _ => _ end) => destruct c end;
    destruct H as [<- | H];
    try (exists x; simpl; auto; fail);
    destruct (IH _ H) as (y & Hy & Hl & Hd); exists y; auto.
Qed.

Lemma recode_product_not_blank (c : option string) : recode_product c <> Some "".
Proof. destruct c as [[|a s]|]; discriminate. Qed.

Lemma product_frame_products (period : string) (a : option string) (df : DataFrame)
  (v : string) :
  In (Some v) (map product (rows (product_frame period a df))) -> v <> "".
Proof.
  unfold product_frame. rewrite rows_assign_period_ratio. simpl rows.
  rewrite !map_map. simpl. intros H E. subst v.
  apply in_map_iff in H as (x & Hx & _).
  exact (recode_product_not_blank _ Hx).
Qed.

Lemma get_product_ratio_aligned (df : DataFrame) (period : string) (a : option string)
  (r : Datasets.t) :
  get_product_ratio P df period a = Py.Ok r ->
  aligned r /\ zero_filled r product (product_frame period a df).
Proof.
  unfold get_product_ratio. fold (product_frame period a df).
  destruct (_ || _).
  { intros H. inversion H. subst r. split; [constructor | intros ds i p []]. }
  intros H. inversion H. subst r. clear H. unfold aligned, zero_filled. simpl.
  split.
  - apply Forall_forall. intros ds Hds.
    apply product_datasets_In in Hds as (v & _ & _ & ->). apply length_map.
  - intros ds i p Hds Hp Hrows.
    apply product_datasets_In in Hds as (v & Hv & Hl & ->).
    apply In_unique, In_dropna, product_frame_products in Hv.
    destruct (String.eqb_spec v "") as [E | _]; [contradiction|].
    rewrite Hl in Hrows.
    apply (nth_error_count (fun q => cell_of product q v (product_frame period a df))
             _ i p); assumption.
Qed.

End Frames.

(** C6.  In every chart split by a dimension that is returned, each
    series is as long as the list of labels, and a cell whose period and
    dimension value no row carries holds 0, the value of the metric on an
    empty group. *)
Theorem C6_datasets_aligned_with_labels (P : API) (df : DataFrame) (period : string)
  (status_arg : option string) :
  (forall r, get_win_rate_by_strategist P df period = Py.Ok r ->
     aligned r /\ zero_filled r strategist (rate_frame P period df))
  /\ (forall r, get_win_rate_by_product P df period = Py.Ok r ->
     aligned r /\ zero_filled r product (rate_frame P period df))
  /\ (forall r, get_win_rate_by_ad_type P df period = Py.Ok r ->
     aligned r /\ zero_filled r type_ (rate_frame P period df))
  /\ (forall r, get_ad_type_ratio P df period status_arg = Py.Ok r ->
     aligned r /\ zero_filled r type_ (ratio_frame P period status_arg df))
  /\ (forall r, get_product_ratio P df period status_arg = Py.Ok r ->
     aligned r /\ zero_filled r product (product_frame P period status_arg df))
  /\ (forall r, get_format_ratio P df period status_arg = Py.Ok r ->
     aligned r /\ zero_filled r format (ratio_frame P period status_arg df)).
Proof.
  repeat apply conj; intros r.
  - apply win_rate_by_aligned.
  - apply win_rate_by_aligned.
  - apply win_rate_by_aligned.
  - apply ratio_by_aligned.
  - apply get_product_ratio_aligned.
  - apply ratio_by_aligned.
Qed.

Definition by_strategist_per_quarter : Datasets.t :=
  Datasets.mk [Some "2024Q1"; Some "2024Q2"]
    [Dataset.mk "Ana" [Py.Float 50; Py.Int 0] (Some 2) (Some false) None;
     Dataset.mk "Ben" [Py.Float 0; Py.Int 0] (Some 2) (Some false) None].

(** C6, witness: the win rate by strategist and quarter of the sample
    table; Ana has no creative in 2024Q2. *)
Lemma C6_witness :
  get_win_rate_by_strategist Sample.pandas Sample.table "quarter"
  = Py.Ok by_strategist_per_quarter
  /\ aligned by_strategist_per_quarter
  /\ rows (cell_of strategist (Some "2024Q2") "Ana"
             (rate_frame Sample.pandas "quarter" Sample.table)) = []
  /\ zero_filled by_strategist_per_quarter strategist
       (rate_frame Sample.pandas "quarter" Sample.table).
Proof.
  assert (E : get_win_rate_by_strategist Sample.pandas Sample.table "quarter"
              = Py.Ok by_strategist_per_quarter) by (vm_compute; reflexivity).
  destruct (C6_datasets_aligned_with_labels Sample.pandas Sample.table "quarter" None)
    as (H & _).
  destruct (H _ E) as [Ha Hz].
  split; [exact E|]. split; [exact Ha|]. split; [reflexivity | exact Hz].
Defined.

End Alignment.

(** ** Charts of tables without dated rows *)

Module EmptyResults.
Import pd NotionService AdAnalytics NormalizerFacts EngineFacts PeriodKeys.

(** No row of the table has a Launch Date. *)
Definition no_dated_rows (df : DataFrame) : Prop :=
  filter (fun r => notna (launch_date r)) (rows df) = [].

(** The column a [strategist] or [editor] argument filters on is there
    when the argument is given. *)
Definition filter_column_present (c : Column) (arg : option string) (df : DataFrame)
  : Prop :=
  Py.truthy arg = true -> has c df = true.

Section Empty.
Variable P : API.

Lemma rows_assign_period_nil (period : string) (df : DataFrame) :
  rows df = [] -> rows (assign_period P period df) = [].
Proof. intros E. rewrite rows_assign_period, E. reflexivity. Qed.

Lemma rows_assign_period_ratio_nil (period : string) (df : DataFrame) :
  rows df = [] -> rows (assign_period_ratio P period df) = [].
Proof. intros E. rewrite rows_assign_period_ratio, E. reflexivity. Qed.

Lemma rows_filter_status_nil (a : option string) (df : DataFrame) :
  rows df = [] -> rows (filter_status a df) = [].
Proof.
  intros E. unfold filter_status. destruct a; [|exact E].
  destruct (_ && _); [|exact E]. simpl. rewrite E. reflexivity.
Qed.

Lemma groupby_Period_nil (df : DataFrame) : rows df = [] -> groupby_Period df = [].
Proof. intros E. unfold groupby_Period. rewrite E. reflexivity. Qed.

Lemma sorted_series_nil (metric : DataFrame -> Py.Number) (df : DataFrame) :
  rows df = [] -> sorted_series P (by_period metric df) = Py.Ok Series.empty.
Proof.
  intros E. unfold sorted_series, by_period. rewrite (groupby_Period_nil df E).
  reflexivity.
Qed.

Lemma filter_by_nil (c : Column) (cell : Row -> option string) (a : option string)
  (df df' : DataFrame) :
  rows df = [] -> filter_by c cell a df = Py.Ok df' -> rows df' = [].
Proof.
  intros E. unfold filter_by. destruct a as [v|]; [|intros H; inversion H; subst; exact E].
  destruct (Py.truthy _); [|intros H; inversion H; subst; exact E].
  destruct (has c df); [|discriminate].
  intros H. inversion H. simpl. rewrite E. reflexivity.
Qed.

Lemma rows_where_dated_nil (df : DataFrame) :
  no_dated_rows df -> rows (where_ (fun r => notna (launch_date r)) df) = [].
Proof. intros H. exact H. Qed.

Lemma get_win_rate_by_period_undated (df : DataFrame) (period : string) :
  has Launch_Date df = false \/ no_dated_rows df ->
  get_win_rate_by_period P df period = Py.Ok Series.empty.
Proof.
  intros H. unfold get_win_rate_by_period.
  destruct (negb (has Launch_Date df) || empty df) eqn:G; [reflexivity|].
  destruct H as [H | H]; [rewrite H in G; discriminate|].
  rewrite groupby_Period_nil; [reflexivity|].
  apply rows_assign_period_nil, rows_where_dated_nil, H.
Qed.

Lemma win_rate_by_undated (dim : Column) (cell : Row -> option string)
  (df : DataFrame) (period : string) :
  has Launch_Date df = false \/ has dim df = false \/ no_dated_rows df ->
  win_rate_by P dim cell df period = Py.Ok Datasets.empty.
Proof.
  intros H. unfold win_rate_by.
  destruct (negb (has Launch_Date df) || negb (has dim df) || empty df) eqn:G;
    [reflexivity|].
  destruct H as [H | [H | H]]; try (rewrite H in G; simpl in G; discriminate).
  { rewrite H in G. rewrite orb_true_r in G. discriminate. }
  rewrite (rows_assign_period_nil period _ (rows_where_dated_nil df H)). reflexivity.
Qed.

Lemma ratio_by_undated (dim : Column) (cell : Row -> option string)
  (df : DataFrame) (period : string) (a : option string) :
  has Launch_Date df = false \/ has dim df = false \/ no_dated_rows df ->
  ratio_by P dim cell df period a = Py.Ok Datasets.empty.
Proof.
  intros H. unfold ratio_by.
  destruct (negb (has Launch_Date df) || negb (has dim df) || empty df) eqn:G;
    [reflexivity|].
  destruct H as [H | [H | H]]; try (rewrite H in G; simpl in G; discriminate).
  { rewrite H in G. rewrite orb_true_r in G. discriminate. }
  rewrite (rows_assign_period_ratio_nil period _
             (rows_filter_status_nil a _ (rows_where_dated_nil df H))).
  reflexivity.
Qed.

Lemma get_product_ratio_undated (df : DataFrame) (period : string) (a : option string) :
  has Launch_Date df = false \/ has Product df = false \/ no_dated_rows df ->
  get_product_ratio P df period a = Py.Ok Datasets.empty.
Proof.
  intros H. unfold get_product_ratio.
  destruct (negb (has Launch_Date df) || negb (has Product df) || empty df) eqn:G;
    [reflexivity|].
  destruct H as [H | [H | H]]; try (rewrite H in G; simpl in G; discriminate).
  { rewrite H in G. rewrite orb_true_r in G. discriminate. }
  rewrite rows_assign_period_ratio_nil; [reflexivity|].
  simpl. rewrite (rows_filter_status_nil a _ (rows_where_dated_nil df H)). reflexivity.
Qed.

Lemma get_avg_production_time_undated (df : DataFrame) (a : option string)
  (period : string) :
  has Launch_Date df = false \/ has Ad_time_to_ready df = false \/ no_dated_rows df ->
  get_avg_production_time P df a period = Py.Ok Series.empty.
Proof.
  intros H. unfold get_avg_production_time.
  destruct (negb (has Ad_time_to_ready df) || negb (has Launch_Date df)) eqn:G;
    [reflexivity|].
  destruct H as [H | [H | H]]; try (rewrite H in G; simpl in G; discriminate).
  { rewrite H in G. rewrite orb_true_r in G. discriminate. }
  unfold no_dated_rows in H. unfold where_ at 3. simpl rows. rewrite H. simpl.
  unfold empty. simpl. destruct (columns df); reflexivity.
Qed.

Lemma get_avg_editing_time_undated (df : DataFrame) (a : option string)
  (period : string) :
  has Launch_Date df = false \/ has Editing_Duration_minutes df = false
  \/ (no_dated_rows df /\ filter_column_present Editor_Designer a df) ->
  get_avg_editing_time P df a period = Py.Ok Series.empty.
Proof.
  intros H. unfold get_avg_editing_time.
  destruct (negb (has Editing_Duration_minutes df) || negb (has Launch_Date df)) eqn:G;
    [reflexivity|].
  destruct H as [H | [H | [H Hc]]]; try (rewrite H in G; simpl in G; discriminate).
  { rewrite H in G. rewrite orb_true_r in G. discriminate. }
  set (df1 := where_ _ (where_ _ df)).
  assert (E1 : rows df1 = []).
  { subst df1. simpl. unfold no_dated_rows in H. rewrite H. reflexivity. }
  destruct (filter_by_present Editor_Designer editor_designer a df1 Hc) as [df' F].
  rewrite F. simpl.
  apply sorted_series_nil, rows_assign_period_nil.
  eapply filter_by_nil; eauto.
Qed.

Lemma get_creatives_volume_undated (df : DataFrame) (period : string)
  (a b : option string) :
  has Launch_Date df = false
  \/ (no_dated_rows df /\ filter_column_present Strategist a df) ->
  get_creatives_volume P df period a b = Py.Ok Series.empty.
Proof.
  intros H. unfold get_creatives_volume.
  destruct (negb (has Launch_Date df) || empty df) eqn:G; [reflexivity|].
  destruct H as [H | [H Hc]]; [rewrite H in G; discriminate|].
  set (df1 := filter_status b _).
  assert (E1 : rows df1 = [])
    by (subst df1; apply rows_filter_status_nil, rows_where_dated_nil, H).
  assert (Hc' : filter_column_present Strategist a df1).
  { intros T. subst df1. rewrite has_filter_status. exact (Hc T). }
  destruct (filter_by_present Strategist strategist a df1 Hc') as [df' F].
  rewrite F. simpl.
  apply sorted_series_nil, rows_assign_period_nil.
  eapply filter_by_nil; eauto.
Qed.

End Empty.
End EmptyResults.

(** ** Claims on guards and on the Product column *)

Module GuardClaims.
Import pd NotionService AdAnalytics NormalizerFacts EngineFacts PeriodKeys EmptyResults.

(** C5, as amended.  Every entry point returns its empty structure when
    the table lacks the Launch Date column, when it lacks the column the
    chart is about (its dimension, or the measured duration), and when no
    row has a Launch Date; in the last case [get_avg_editing_time] and
    [get_creatives_volume] need the column of a requested editor or
    strategist filter to be there. *)
Theorem C5_guarded_inputs_give_empty_charts (P : API) (df : DataFrame) (period : string)
  (strategist_arg editor_arg status_arg : option string) :
  (has Launch_Date df = false \/ no_dated_rows df ->
     get_win_rate_by_period P df period = Py.Ok Series.empty
     /\ get_win_rate_by_strategist P df period = Py.Ok Datasets.empty
     /\ get_win_rate_by_product P df period = Py.Ok Datasets.empty
     /\ get_win_rate_by_ad_type P df period = Py.Ok Datasets.empty
     /\ get_ad_type_ratio P df period status_arg = Py.Ok Datasets.empty
     /\ get_product_ratio P df period status_arg = Py.Ok Datasets.empty
     /\ get_format_ratio P df period status_arg = Py.Ok Datasets.empty
     /\ get_avg_production_time P df strategist_arg period = Py.Ok Series.empty)
  /\ (has Launch_Date df = false
      \/ (no_dated_rows df /\ filter_column_present Editor_Designer editor_arg df) ->
      get_avg_editing_time P df editor_arg period = Py.Ok Series.empty)
  /\ (has Launch_Date df = false
      \/ (no_dated_rows df /\ filter_column_present Strategist strategist_arg df) ->
      get_creatives_volume P df period strategist_arg status_arg = Py.Ok Series.empty)
  /\ (has Strategist df = false ->
      get_win_rate_by_strategist P df period = Py.Ok Datasets.empty)
  /\ (has Product df = false ->
      get_win_rate_by_product P df period = Py.Ok Datasets.empty
      /\ get_product_ratio P df period status_arg = Py.Ok Datasets.empty)
  /\ (has Type_ df = false ->
      get_win_rate_by_ad_type P df period = Py.Ok Datasets.empty
      /\ get_ad_type_ratio P df period status_arg = Py.Ok Datasets.empty)
  /\ (has Format df = false ->
      get_format_ratio P df period status_arg = Py.Ok Datasets.empty)
  /\ (has Ad_time_to_ready df = false ->
      get_avg_production_time P df strategist_arg period = Py.Ok Series.empty)
  /\ (has Editing_Duration_minutes df = false ->
      get_avg_editing_time P df editor_arg period = Py.Ok Series.empty).
Proof.
  split.
  { intros H.
    assert (H3 : forall c, has Launch_Date df = false \/ has c df = false \/ no_dated_rows df)
      by (intros c; tauto).
    split; [apply get_win_rate_by_period_undated, H|].
    repeat split;
      first [ apply win_rate_by_undated, H3
            | apply ratio_by_undated, H3
            | apply get_product_ratio_undated, H3
            | apply get_avg_production_time_undated, H3 ]. }
  split; [intros H; apply get_avg_editing_time_undated; tauto|].
  split; [intros H; apply get_creatives_volume_undated; tauto|].
  split; [intros H; apply win_rate_by_undated; tauto|].
  split; [intros H; split;
          [apply win_rate_by_undated | apply get_product_ratio_undated]; tauto|].
  split; [intros H; split; [apply win_rate_by_undated | apply ratio_by_undated]; tauto|].
  split; [intros H; apply ratio_by_undated; tauto|].
  split; [intros H; apply get_avg_production_time_undated; tauto|].
  intros H; apply get_avg_editing_time_undated; tauto.
Qed.

(** A table whose only creative has no Launch Date. *)
Definition undated_table : DataFrame :=
  mkDataFrame Sample.all_columns
    [Sample.creative None "Winner" "Ben" "Whitening Kit" "Static" "1:1" "" ""].

(** C5, witness: a table whose only creative has no Launch Date. *)
Lemma C5_witness :
  get_win_rate_by_period Sample.pandas undated_table "month" = Py.Ok Series.empty
  /\ get_product_ratio Sample.pandas undated_table "month" (Some "winner")
     = Py.Ok Datasets.empty
  /\ get_creatives_volume Sample.pandas undated_table "month" (Some "Ben") (Some "winner")
     = Py.Ok Series.empty.
Proof.
  destruct (C5_guarded_inputs_give_empty_charts Sample.pandas undated_table "month"
              (Some "Ben") None (Some "winner")) as (H1 & _ & H3 & _).
  destruct H1 as (Ha & _ & _ & _ & _ & Hb & _); [right; reflexivity|].
  split; [exact Ha|]. split; [exact Hb|].
  apply H3. right. split; [reflexivity | intros _; reflexivity].
Defined.

(** C5, counterexample.  On the sample table without its Status column
    the win rate by period raises [KeyError], and so does the volume chart
    filtered by strategist on a table without the Strategist column. *)
Lemma C5_missing_status_column_raises :
  has Status Sample.table_without_status = false
  /\ empty Sample.table_without_status = false
  /\ (forall P : API,
        get_win_rate_by_period P Sample.table_without_status "month"
        = Py.Raise (Py.KeyError "Status"))
  /\ (forall P : API,
        get_creatives_volume P
          (mkDataFrame [Launch_Date; Status; Launch_Month] (rows Sample.table))
          "month" (Some "Ben") None
        = Py.Raise (Py.KeyError "Strategist")).
Proof. repeat split. Qed.

(** C8, the code at the failing input.  With one creative whose Product
    is the empty string, the win rate by product returns a series labelled
    with the empty string, while the product ratio labels it "Unknown". *)
Theorem C8_blank_product_in_win_rate_chart :
  map product (rows Sample.one_creative) = [Some ""]
  /\ (forall P : API,
        get_win_rate_by_product P Sample.one_creative "month"
        = Py.Ok (Datasets.mk [Some "Jan 2024"]
                   [Dataset.mk "" [Py.Float 100] (Some 2) (Some false) None]))
  /\ (forall P : API,
        get_product_ratio P Sample.one_creative "month" None
        = Py.Ok (Datasets.mk [Some "Jan 2024"]
                   [Dataset.mk "Unknown" [Py.Int 1] None None (Some "#FF6384")])).
Proof.
  split; [reflexivity|]. split; intros P; vm_compute; reflexivity.
Qed.

End GuardClaims.

(** ** More on the normalizer: inputs in order, and keys that cannot be
    compared *)

Module NormalizerOrder.
Import pd AdAnalytics SortFacts NormalizerFacts.

(** A timestamp with a time zone. *)
Definition aware (t : Timestamp) : bool :=
  match t with Aware _ => true | _ => false end.

(** [a <= b] on two instants without a time zone, as a test. *)
Definition leb (a b : Timestamp) : bool :=
  match a, b with
  | Naive x, Naive y => x <=? y
  | _, _ => false
  end.

(** Each key is at most every later one. *)
Fixpoint ascending (keys : list Timestamp) : bool :=
  match keys with
  | [] => true
  | k :: t => forallb (leb k) t && ascending t
  end.

Lemma leb_le (a b : Timestamp) : leb a b = true -> le a b.
Proof. destruct a, b; simpl; try discriminate. apply Z.leb_le. Qed.

Lemma ascending_sorted {A} (key : A -> Timestamp) (l : list A) :
  ascending (map key l) = true -> StronglySorted (fun a b => le (key a) (key b)) l.
Proof.
  induction l as [|x t IH]; simpl; intros H; [constructor|].
  apply andb_true_iff in H. destruct H as [H1 H2].
  constructor; [apply IH, H2|].
  rewrite forallb_forall in H1. apply Forall_forall. intros y Hy.
  apply leb_le, H1, in_map, Hy.
Qed.

Section Pairs.
Context {A : Type}.
Implicit Types (x y : A * Timestamp) (l : list (A * Timestamp)).

Lemma sort_by_key_ascending l :
  keys_naive l -> StronglySorted le_key l -> sort_by_key l = Some l.
Proof.
  intros Hn Hs. induction Hs as [|x t Ht IH Hx]; [reflexivity|].
  inversion Hn as [|? ? Hxn Htn]; subst.
  simpl. rewrite (IH Htn).
  destruct t as [|y t']; [reflexivity|]. simpl.
  inversion Hx as [|? ? Hxy _]; subst.
  unfold le_key, le in Hxy.
  destruct (snd x); try contradiction. destruct (snd y); try contradiction.
  simpl. replace (ns0 <? ns) with false; [reflexivity|].
  symmetry. apply Z.ltb_ge. exact Hxy.
Qed.

(** No key is [NaT]. *)
Definition keys_known l : Prop := Forall (fun p => snd p <> NaT) l.

Definition keys_aware l : Prop := Forall (fun p => aware (snd p) = true) l.

Lemma insert_one_kind x l l' :
  snd x <> NaT -> keys_known l -> keys_naive l \/ keys_aware l ->
  insert x l = Some l' ->
  keys_naive (x :: l) \/ keys_aware (x :: l).
Proof.
  intros Hx Hk Hl H.
  destruct l as [|y t].
  { destruct (snd x) eqn:E; [left | right | contradiction];
      constructor; try constructor; rewrite E; reflexivity. }
  simpl in H. inversion Hk as [|? ? Hy _]; subst.
  destruct Hl as [Hl | Hl]; inversion Hl as [|? ? Hy' _]; subst.
  - left. constructor; [|exact Hl].
    destruct (snd y); try discriminate. destruct (snd x); try discriminate;
      [reflexivity | contradiction].
  - right. constructor; [|exact Hl].
    destruct (snd y); try discriminate. destruct (snd x); try discriminate;
      [reflexivity | contradiction].
Qed.

Lemma sort_by_key_one_kind l s :
  keys_known l -> sort_by_key l = Some s -> keys_naive l \/ keys_aware l.
Proof.
  intros Hk. revert s. induction Hk as [|x t Hx Ht IH]; intros s H.
  - left. constructor.
  - simpl in H. destruct (sort_by_key t) as [s'|] eqn:E; [|discriminate].
    assert (Hp := sort_by_key_perm _ _ E).
    destruct (insert_one_kind x s' s Hx) as [K | K]; auto.
    + unfold keys_known. rewrite <- Hp. exact Ht.
    + destruct (IH s' eq_refl) as [K | K]; [left | right];
        [unfold keys_naive | unfold keys_aware]; rewrite <- Hp; exact K.
    + left. inversion K; subst. constructor; [assumption|].
      unfold keys_naive. rewrite Hp. assumption.
    + right. inversion K; subst. constructor; [assumption|].
      unfold keys_aware. rewrite Hp. assumption.
Qed.

End Pairs.

Section Normalizer.
Variable P : API.
Context {A : Type} (str : A -> string).

Local Abbreviation nsort := (_sort_periods_chronologically P str).
Local Abbreviation key := (sort_key P str).
Local Abbreviation pair_of := (fun period : A => (period, sort_key P str period)).

Lemma sorted_pairs (l : list A) :
  StronglySorted (fun a b => le (key a) (key b)) l ->
  StronglySorted le_key (map pair_of l).
Proof.
  induction 1 as [|x t Ht IH Hx]; simpl; constructor; [exact IH|].
  rewrite Forall_map. exact Hx.
Qed.

Lemma nsort_ascending (l : list A) :
  keys_comparable P str l ->
  StronglySorted (fun a b => le (key a) (key b)) l ->
  nsort l = l.
Proof.
  intros Hn Hs. unfold _sort_periods_chronologically.
  destruct l as [|a l]; [reflexivity|].
  rewrite (sort_by_key_ascending _ (keys_comparable_pairs P str _ Hn) (sorted_pairs _ Hs)).
  apply fst_pair_of.
Qed.

Lemma keys_comparable_nsort (l : list A) :
  keys_comparable P str l -> keys_comparable P str (nsort l).
Proof.
  unfold keys_comparable. intros H.
  apply (Permutation_Forall (nsort_perm P str l)), H.
Qed.

Lemma nsort_mixed (l : list A) (x y : A) :
  Forall (fun z => key z <> NaT) l ->
  In x l -> naive (key x) = true ->
  In y l -> aware (key y) = true ->
  nsort l = l.
Proof.
  intros Hk Hx Nx Hy Ay. unfold _sort_periods_chronologically.
  destruct l as [|a l]; [reflexivity|].
  destruct (sort_by_key _) as [s|] eqn:E; [|reflexivity].
  exfalso.
  assert (K : keys_known (map pair_of (a :: l))).
  { unfold keys_known. rewrite Forall_map. exact Hk. }
  destruct (sort_by_key_one_kind _ _ K E) as [H | H].
  - unfold keys_naive in H. rewrite Forall_map, Forall_forall in H.
    specialize (H y Hy). simpl in H. destruct (key y); discriminate.
  - unfold keys_aware in H. rewrite Forall_map, Forall_forall in H.
    specialize (H x Hx). simpl in H. destruct (key x); discriminate.
Qed.

End Normalizer.

(** X1.  When every key is a timestamp without a time zone, a list of
    labels that is already in ascending order of the keys is returned as
    it is; so normalizing twice is normalizing once. *)
Theorem labels_in_order_are_unchanged (P : API) (periods : list string) :
  keys_comparable P Py.str periods ->
  (StronglySorted (fun a b => le (sort_key P Py.str a) (sort_key P Py.str b)) periods ->
   _sort_periods_chronologically P Py.str periods = periods)
  /\ _sort_periods_chronologically P Py.str (_sort_periods_chronologically P Py.str periods)
     = _sort_periods_chronologically P Py.str periods.
Proof.
  intros H. split; [apply nsort_ascending, H|].
  apply nsort_ascending; [apply keys_comparable_nsort, H | apply nsort_sorted, H].
Qed.

(** X1, witness: three quarters in order, one of them twice. *)
Lemma labels_in_order_witness :
  _sort_periods_chronologically Sample.pandas Py.str ["2023Q4"; "2024Q1"; "2024Q1"; "2024Q3"]
  = ["2023Q4"; "2024Q1"; "2024Q1"; "2024Q3"].
Proof.
  destruct (labels_in_order_are_unchanged Sample.pandas
              ["2023Q4"; "2024Q1"; "2024Q1"; "2024Q3"]) as [H _].
  - apply keys_comparable_forallb. vm_compute. reflexivity.
  - apply H. apply ascending_sorted. vm_compute. reflexivity.
Defined.

(** X2.  When no key is [NaT] and the list holds a label whose key has a
    time zone and one whose key has none, sorting raises and line 78
    returns the labels in the order given. *)
Theorem mixed_time_zones_keep_input_order (P : API) (periods : list string) (x y : string) :
  Forall (fun z => sort_key P Py.str z <> NaT) periods ->
  In x periods -> naive (sort_key P Py.str x) = true ->
  In y periods -> aware (sort_key P Py.str y) = true ->
  _sort_periods_chronologically P Py.str periods = periods.
Proof. apply nsort_mixed. Qed.

(** X2, witness: a 2024 label with a UTC offset between two quarters. *)
Lemma mixed_time_zones_witness :
  _sort_periods_chronologically Sample.pandas_utc Py.str
    ["2024Q3"; Sample.utc_label; "2023Q4"]
  = ["2024Q3"; Sample.utc_label; "2023Q4"].
Proof.
  apply (mixed_time_zones_keep_input_order Sample.pandas_utc _ "2024Q3" Sample.utc_label).
  - repeat constructor; vm_compute; discriminate.
  - vm_compute. auto.
  - vm_compute. reflexivity.
  - vm_compute. auto.
  - vm_compute. reflexivity.
Defined.

End NormalizerOrder.

(** ** Quarter labels *)

Module QuarterLabels.
Import pd AdAnalytics.

Lemma contains_app (c : ascii) (a b : string) :
  Py.contains c (a ++ b) = Py.contains c a || Py.contains c b.
Proof.
  induction a as [|d a IH]; cbn [Py.contains String.append]; [reflexivity|].
  rewrite IH. apply orb_assoc.
Qed.

Lemma replace_Q_app (a b : string) :
  Py.replace_Q (a ++ b) = Py.replace_Q a ++ Py.replace_Q b.
Proof.
  induction a as [|c a IH]; cbn [Py.replace_Q String.append]; [reflexivity|].
  destruct (Ascii.eqb c "Q"); cbn [String.append]; rewrite IH; reflexivity.
Qed.

Lemma replace_Q_without (a : string) :
  Py.contains "Q" a = false -> Py.replace_Q a = a.
Proof.
  induction a as [|c a IH]; cbn [Py.replace_Q Py.contains]; [reflexivity|].
  rewrite Ascii.eqb_sym. intros H. apply orb_false_iff in H. destruct H as [H1 H2].
  rewrite H1, (IH H2). reflexivity.
Qed.

Lemma split_dashQ_without (a : string) :
  Py.contains "Q" a = false -> Py.split_dashQ a = [a].
Proof.
  induction a as [|c a IH]; [reflexivity|].
  intros H. cbn [Py.contains] in H. apply orb_false_iff in H. destruct H as [H1 H2].
  specialize (IH H2).
  destruct a as [|d a']; [reflexivity|].
  change (Py.split_dashQ (String c (String d a')))
    with (if Ascii.eqb c "-" && Ascii.eqb d "Q"
          then EmptyString :: Py.split_dashQ a'
          else match Py.split_dashQ (String d a') with
               | h :: t => String c h :: t
               | [] => [String c EmptyString]
               end).
  cbn [Py.contains] in H2. apply orb_false_iff in H2. destruct H2 as [H2 _].
  rewrite Ascii.eqb_sym in H2. rewrite H2, andb_false_r, IH. reflexivity.
Qed.

Lemma split_dashQ_at (a b : string) :
  Py.contains "Q" a = false ->
  Py.split_dashQ (a ++ "-Q" ++ b) = a :: Py.split_dashQ b.
Proof.
  induction a as [|c a IH]; [reflexivity|].
  intros H. cbn [Py.contains] in H. apply orb_false_iff in H. destruct H as [H1 H2].
  specialize (IH H2).
  change ((String c a ++ "-Q" ++ b)%string) with (String c (a ++ "-Q" ++ b)).
  destruct (a ++ "-Q" ++ b)%string as [|d r] eqn:E.
  { destruct a; discriminate. }
  change (Py.split_dashQ (String c (String d r)))
    with (if Ascii.eqb c "-" && Ascii.eqb d "Q"
          then EmptyString :: Py.split_dashQ r
          else match Py.split_dashQ (String d r) with
               | h :: t => String c h :: t
               | [] => [String c EmptyString]
               end).
  assert (D : Ascii.eqb d "Q" = false).
  { destruct a as [|d' a']; cbn [String.append] in E; inversion E; subst; [reflexivity|].
    cbn [Py.contains] in H2. apply orb_false_iff in H2. rewrite Ascii.eqb_sym. apply H2. }
  rewrite D, andb_false_r, IH. reflexivity.
Qed.

(** The parts of line 35 for a label with one ["Q"]. *)
Lemma parts_of_quarter (a b : string) :
  Py.contains "Q" a = false -> Py.contains "Q" b = false ->
  Py.split_dashQ (Py.replace_Q (a ++ "Q" ++ b)) = [a; b].
Proof.
  intros Ha Hb.
  rewrite replace_Q_app, (replace_Q_without a Ha), replace_Q_app, (replace_Q_without b Hb).
  change (Py.replace_Q "Q" ++ b)%string with ("-Q" ++ b)%string.
  rewrite (split_dashQ_at a b Ha), (split_dashQ_without b Hb). reflexivity.
Qed.

Lemma rstrip_dash (a : string) : Py.rstrip (a ++ "-") = (a ++ "-")%string.
Proof.
  induction a as [|c a IH]; [reflexivity|].
  change (Py.rstrip (String c a ++ "-"))
    with (match Py.rstrip (a ++ "-") with
          | EmptyString => if Py.isspace c then EmptyString else String c EmptyString
          | r' => String c r'
          end).
  rewrite IH. destruct a; reflexivity.
Qed.

Lemma lstrip_dash (a : string) : exists a', Py.lstrip (a ++ "-") = (a' ++ "-")%string.
Proof.
  induction a as [|c a IH]; [exists EmptyString; reflexivity|].
  simpl. destruct (Py.isspace c); [exact IH|].
  exists (String c a). reflexivity.
Qed.

Lemma int_digits_dash (n : nat) :
  forall (a : string) (acc : Z),
    (String.length a <= n)%nat -> Py.int_digits acc (a ++ "-") = None.
Proof.
  induction n as [|n IH]; intros a acc L.
  - destruct a; [reflexivity | simpl in L; lia].
  - destruct a as [|c a]; [reflexivity|].
    simpl in L. change (String c a ++ "-")%string with (String c (a ++ "-")).
    simpl. destruct (Py.isdigit c); [apply IH; lia|].
    destruct (Ascii.eqb c "_"); [|reflexivity].
    destruct a as [|d a]; [reflexivity|].
    change (String d a ++ "-")%string with (String d (a ++ "-")).
    cbv iota. destruct (Py.isdigit d); [|reflexivity].
    apply IH. simpl in L. lia.
Qed.

Lemma int_unsigned_dash (a : string) : Py.int_unsigned (a ++ "-") = None.
Proof.
  destruct a as [|c a]; [reflexivity|].
  change (String c a ++ "-")%string with (String c (a ++ "-")).
  simpl. destruct (Py.isdigit c); [|reflexivity].
  apply (int_digits_dash (String.length a)). lia.
Qed.

(** [int(s)] raises [ValueError] on a string that ends with a dash. *)
Lemma int_dash (a : string) : Py.int (a ++ "-") = None.
Proof.
  unfold Py.int, Py.strip.
  destruct (lstrip_dash a) as [a' E]. rewrite E, rstrip_dash.
  destruct a' as [|c a']; [reflexivity|].
  change (String c a' ++ "-")%string with (String c (a' ++ "-")).
  cbv iota. rewrite !int_unsigned_dash.
  change (Py.int_unsigned (String c (a' ++ "-")))
    with (Py.int_unsigned (String c a' ++ "-")).
  rewrite int_unsigned_dash.
  destruct (Ascii.eqb c "-"); [reflexivity|]. destruct (Ascii.eqb c "+"); reflexivity.
Qed.

Lemma app_assoc_dash (a b : string) : (a ++ "-Q" ++ b = (a ++ "-") ++ "Q" ++ b)%string.
Proof. induction a as [|c a IH]; [reflexivity|]. simpl. f_equal. exact IH. Qed.

(** X3.  A label with one ["Q"] is read as a quarter: what stands before
    the ["Q"] is the year and what stands after it the quarter, both
    through [int], and the key is the first day of the month
    [(quarter - 1) * 3 + 1] of that year, as [pd.Timestamp] builds it; no
    other parser of pandas is asked.  When a dash stands before the
    ["Q"], the year part ends with that dash, [int] raises, and the label
    has no key of its own. *)
Theorem quarter_label_key (P : API) (a b : string) :
  Py.contains "Q" a = false -> Py.contains "Q" b = false ->
  parse_period P (a ++ "Q" ++ b)
  = match Py.int a, Py.int b with
    | Some year, Some quarter => Timestamp_ymd P year ((quarter - 1) * 3 + 1) 1
    | _, _ => None
    end
  /\ parse_period P (a ++ "-Q" ++ b) = None.
Proof.
  intros Ha Hb.
  assert (E : forall a0, Py.contains "Q" a0 = false ->
            parse_period P (a0 ++ "Q" ++ b)
            = match Py.int a0, Py.int b with
              | Some year, Some quarter => Timestamp_ymd P year ((quarter - 1) * 3 + 1) 1
              | _, _ => None
              end).
  { intros a0 H0. unfold parse_period.
    rewrite contains_app. change (Py.contains "Q" ("Q" ++ b)) with true.
    rewrite orb_true_r. rewrite (parts_of_quarter a0 b H0 Hb). simpl.
    destruct (Py.int a0); [|reflexivity]. destruct (Py.int b); reflexivity. }
  split; [apply E, Ha|].
  rewrite app_assoc_dash, E.
  - rewrite int_dash. reflexivity.
  - rewrite contains_app, Ha. reflexivity.
Qed.

(** X3, witness: the third quarter of 2024 starts on the first of July. *)
Lemma quarter_label_witness :
  parse_period Sample.pandas "2024Q3" = Some (Naive 1719792000000000000)
  /\ parse_period Sample.pandas "2024-Q3" = None.
Proof.
  destruct (quarter_label_key Sample.pandas "2024" "3" eq_refl eq_refl) as [E1 E2].
  split; [|exact E2].
  etransitivity; [exact E1|]. vm_compute. reflexivity.
Defined.

End QuarterLabels.

(** ** More on the win rate *)

Module RoundingFacts.
Import Float64.
Local Open Scope Q_scope.

Lemma rne_Qeq (x y : Q) : x == y -> rne x = rne y.
Proof.
  intros E. unfold rne. rewrite (Qfloor_comp _ _ E).
  assert (C : Qcompare (x - inject_Z (Qfloor y)) (1 # 2)
              = Qcompare (y - inject_Z (Qfloor y)) (1 # 2)).
  { apply Qcompare_comp; [rewrite E|]; reflexivity. }
  rewrite C. reflexivity.
Qed.

Lemma log2_floor_Qeq (x y : Q) : 0 < x -> x == y -> log2_floor x = log2_floor y.
Proof.
  intros Hx E.
  assert (Hy : 0 < y) by (rewrite <- E; exact Hx).
  apply Z.le_antisymm; apply log2_floor_le; try assumption; rewrite E; apply Qle_refl.
Qed.

Lemma round_pos_Qeq (x y : Q) : 0 < x -> x == y -> round_pos x == round_pos y.
Proof.
  intros Hx E. unfold round_pos, ulp_exponent.
  rewrite (log2_floor_Qeq x y Hx E).
  set (u := 2 ^ Z.max (-1074) (log2_floor y - 52)).
  rewrite (rne_Qeq (x / u) (y / u)); [reflexivity|].
  rewrite E. reflexivity.
Qed.

(** Two fractions of the same value round to the same float. *)
Lemma round_Qeq (x y : Q) : x == y -> round x = round y.
Proof.
  intros E. unfold round.
  assert (C : Qcompare x 0 = Qcompare y 0) by (apply Qcompare_comp; [exact E | reflexivity]).
  rewrite <- C. destruct (Qcompare x 0) eqn:D; [reflexivity| |].
  - apply Qlt_alt in D. apply Qred_complete.
    apply Qopp_comp. apply round_pos_Qeq; [lra | rewrite E; reflexivity].
  - apply Qgt_alt in D. apply Qred_complete. apply round_pos_Qeq; assumption.
Qed.

Lemma truediv_same (t : Z) : (0 < t)%Z -> truediv t t = 1.
Proof.
  intros Ht. unfold truediv. rewrite <- round_1. apply round_Qeq.
  assert (H : 0 < inject_Z t) by (rewrite <- (Zlt_Qlt 0); exact Ht).
  field. lra.
Qed.

Lemma truediv_zero (t : Z) : truediv 0 t = 0.
Proof.
  unfold truediv. transitivity (round 0); [|reflexivity].
  apply round_Qeq. unfold Qdiv. apply Qmult_0_l.
Qed.

Lemma truediv_le (a b t : Z) :
  (0 <= a <= b)%Z -> (0 < t)%Z -> truediv a t <= truediv b t.
Proof.
  intros Hab Ht. unfold truediv.
  assert (Hq : 0 < inject_Z t) by (rewrite <- (Zlt_Qlt 0); exact Ht).
  assert (Ha : 0 <= inject_Z a) by (rewrite <- (Zle_Qle 0); lia).
  assert (Hb : inject_Z a <= inject_Z b) by (rewrite <- Zle_Qle; lia).
  apply round_le.
  - apply Qle_shift_div_l; [exact Hq | lra].
  - apply Qle_shift_div_r; [exact Hq|].
    setoid_replace (inject_Z b / inject_Z t * inject_Z t) with (inject_Z b) by (field; lra).
    exact Hb.
Qed.

Lemma round_ndigits2_le (x y : Q) : 0 <= x -> x <= y -> round_ndigits2 x <= round_ndigits2 y.
Proof.
  intros Hx Hxy. unfold round_ndigits2.
  assert (R : (rne (x * 100) <= rne (y * 100))%Z) by (apply rne_le; lra).
  assert (R0 : (0 <= rne (x * 100))%Z).
  { rewrite <- (rne_inject_Z 0). apply rne_le. change (inject_Z 0) with 0. lra. }
  rewrite Zle_Qle in R, R0. change (inject_Z 0) with 0 in R0.
  apply round_le.
  - apply Qle_shift_div_l; [reflexivity | lra].
  - apply Qle_shift_div_r; [reflexivity|].
    setoid_replace (inject_Z (rne (y * 100)) / 100 * 100) with (inject_Z (rne (y * 100)))
      by field.
    exact R.
Qed.

(** The percentage of two decimals grows with the quotient. *)
Lemma percentage_le (x y : Q) :
  0 <= x -> x <= y ->
  round_ndigits2 (mul x 100) <= round_ndigits2 (mul y 100).
Proof.
  intros Hx Hxy. apply round_ndigits2_le.
  - apply round_nonneg. lra.
  - apply round_le; lra.
Qed.

End RoundingFacts.

Module WinRateFacts.
Import pd NotionService WinRate.

(** The Status of a row in lower case. *)
Definition lowered_status (r : Row) : option string := option_map Py.lower (status r).

Lemma count_lowered (name : string) (df : DataFrame) :
  count name df
  = Py.len (filter (fun c => match c with
                             | Some s => String.eqb s (Py.lower name)
                             | None => false
                             end)
                   (map lowered_status (rows df))).
Proof.
  unfold count, Py.len. f_equal.
  induction (rows df) as [|r l IH]; simpl; [reflexivity|].
  unfold status_is at 1, lowered_status at 1.
  destruct (status r) as [s|]; simpl.
  - destruct (String.eqb (Py.lower s) (Py.lower name)); simpl; rewrite IH; reflexivity.
  - exact IH.
Qed.

Lemma filter_perm {A} (f : A -> bool) (l l' : list A) :
  Permutation l l' -> Permutation (filter f l) (filter f l').
Proof.
  induction 1 as [|x l l' H IH|x y l|l l' l'' H1 IH1 H2 IH2]; simpl.
  - constructor.
  - destruct (f x); [apply perm_skip|]; exact IH.
  - destruct (f x), (f y); try apply Permutation_refl. apply perm_swap.
  - eapply perm_trans; eauto.
Qed.

Lemma count_perm (name : string) (a b : DataFrame) :
  Permutation (map lowered_status (rows a)) (map lowered_status (rows b)) ->
  count name a = count name b.
Proof.
  intros H. rewrite !count_lowered. unfold Py.len. f_equal.
  apply Permutation_length, filter_perm, H.
Qed.

Lemma total_positive (df : DataFrame) :
  0 <= count "winner" df + count "loser" df + count "launched" df.
Proof.
  pose proof (count_nonneg "winner" df). pose proof (count_nonneg "loser" df).
  pose proof (count_nonneg "launched" df). lia.
Qed.

(** X4.  The win rate of a group reads nothing but the Status values, up
    to their case and their order: two groups whose Status values in lower
    case are a permutation of each other have the same win rate. *)
Theorem win_rate_reads_statuses_only (a b : DataFrame) :
  has Status a = true -> has Status b = true ->
  Permutation (map lowered_status (rows a)) (map lowered_status (rows b)) ->
  calculate_win_rate a = calculate_win_rate b.
Proof.
  intros Ha Hb H.
  rewrite (calculate_win_rate_formula a Ha), (calculate_win_rate_formula b Hb).
  rewrite (count_perm "winner" a b H), (count_perm "loser" a b H),
    (count_perm "launched" a b H).
  reflexivity.
Qed.

(** X4, witness: the same four statuses in another order and another
    case, beside a column the metric does not read. *)
Lemma win_rate_reads_statuses_only_witness :
  calculate_win_rate
    (mkDataFrame [Launch_Date; Status]
       (map status_row ["LAUNCHED"; "loser"; "Winner"; "Pending"]))
  = calculate_win_rate
      (mkDataFrame [Status] (map status_row ["pending"; "WINNER"; "Loser"; "launched"])).
Proof.
  apply win_rate_reads_statuses_only; [reflexivity | reflexivity |].
  exact (Permutation_rev [Some "launched"; Some "loser"; Some "winner"; Some "pending"]).
Defined.

(** X5.  The two ends of the scale.  A group whose outcome-determined
    rows are all winners has the win rate 100.0 exactly, and a group with
    outcome-determined rows and no winner among them has 0.0: rounding
    moves neither. *)
Theorem win_rate_extremes (df : DataFrame) :
  has Status df = true ->
  (0 < count "winner" df -> count "loser" df = 0 -> count "launched" df = 0 ->
   calculate_win_rate df = Py.Ok (Py.Float 100))
  /\ (count "winner" df = 0 -> 0 < count "loser" df + count "launched" df ->
      calculate_win_rate df = Py.Ok (Py.Float 0)).
Proof.
  intros H. rewrite (calculate_win_rate_formula df H). unfold win_rate. split.
  - intros Hw Hl Hla. rewrite Hl, Hla, !Z.add_0_r.
    destruct (Z.eqb_spec (count "winner" df) 0) as [E | _]; [lia|].
    rewrite (RoundingFacts.truediv_same _ Hw). reflexivity.
  - intros Hw Ht. rewrite Hw. simpl Z.add.
    destruct (Z.eqb_spec (count "loser" df + count "launched" df) 0) as [E | _]; [lia|].
    rewrite RoundingFacts.truediv_zero. reflexivity.
Qed.

(** X5, witness: two winners and a pending row; a loser and a launched
    row. *)
Lemma win_rate_extremes_witness :
  calculate_win_rate (mkDataFrame [Status] (map status_row ["Winner"; "Pending"; "winner"]))
  = Py.Ok (Py.Float 100)
  /\ calculate_win_rate (mkDataFrame [Status] (map status_row ["Loser"; "Launched"]))
     = Py.Ok (Py.Float 0).
Proof.
  split.
  - apply (win_rate_extremes
             (mkDataFrame [Status] (map status_row ["Winner"; "Pending"; "winner"])));
      reflexivity.
  - apply (win_rate_extremes (mkDataFrame [Status] (map status_row ["Loser"; "Launched"])));
      reflexivity.
Defined.

(** X6.  Of two groups with as many outcome-determined rows, the one with
    more winners has the win rate that is not the smaller one. *)
Theorem win_rate_grows_with_winners (a b : DataFrame) (va vb : Py.Number) :
  has Status a = true -> has Status b = true ->
  count "winner" a + count "loser" a + count "launched" a
  = count "winner" b + count "loser" b + count "launched" b ->
  count "winner" a <= count "winner" b ->
  calculate_win_rate a = Py.Ok va -> calculate_win_rate b = Py.Ok vb ->
  (Py.value va <= Py.value vb)%Q.
Proof.
  intros Ha Hb Ht Hw.
  rewrite (calculate_win_rate_formula a Ha), (calculate_win_rate_formula b Hb).
  unfold win_rate. rewrite Ht.
  pose proof (count_nonneg "winner" a) as Wa.
  pose proof (total_positive b) as Tb.
  destruct (Z.eqb_spec (count "winner" b + count "loser" b + count "launched" b) 0)
    as [E | N]; intros Ea Eb; inversion Ea; inversion Eb; subst; simpl.
  - apply Qle_refl.
  - apply RoundingFacts.percentage_le.
    + apply Float64.truediv_unit; [|lia].
      pose proof (count_nonneg "loser" a). pose proof (count_nonneg "launched" a). lia.
    + apply RoundingFacts.truediv_le; lia.
Qed.

(** X6, witness: one winner of three, then two of three. *)
Lemma win_rate_grows_witness :
  (Py.value (Py.Float (Float64.round (3333 # 100)))
   <= Py.value (Py.Float (Float64.round (6667 # 100))))%Q.
Proof.
  apply (win_rate_grows_with_winners
           (mkDataFrame [Status] (map status_row ["Winner"; "Loser"; "Loser"]))
           (mkDataFrame [Status] (map status_row ["Winner"; "Launched"; "Winner"])));
    try (vm_compute; reflexivity).
  vm_compute. discriminate.
Defined.

(** X7.  A win rate is a float of two decimals: the float nearest to
    [n / 100] for a whole number [n] of hundredths between 0 and 10000. *)
Theorem win_rate_has_two_decimals (df : DataFrame) (v : Py.Number) :
  calculate_win_rate df = Py.Ok v ->
  exists n : Z, 0 <= n <= 10000 /\ Py.value v = Float64.round (inject_Z n / 100).
Proof.
  unfold calculate_win_rate.
  destruct (empty df).
  { intros H. inversion H. exists 0. split; [lia | reflexivity]. }
  destruct (has Status df); simpl negb; cbv iota; [|discriminate].
  set (w := Py.len _). set (l := Py.len _). set (la := Py.len _).
  assert (Hw : 0 <= w) by (subst w; unfold Py.len; lia).
  assert (Hl : 0 <= l) by (subst l; unfold Py.len; lia).
  assert (Hla : 0 <= la) by (subst la; unfold Py.len; lia).
  destruct (w + l + la =? 0) eqn:T.
  { intros H. inversion H. exists 0. split; [lia | reflexivity]. }
  apply Z.eqb_neq in T. intros H. inversion H. simpl.
  set (x := Float64.mul _ 100).
  exists (Float64.rne (x * 100)). split; [|reflexivity].
  assert (Hx : (0 <= x <= 100)%Q).
  { subst x. unfold Float64.mul.
    destruct (Float64.truediv_unit w (w + l + la)) as [U0 U1]; [lia | lia |].
    split; [apply Float64.round_nonneg; lra|].
    rewrite <- Float64.round_100 at 2. apply Float64.round_le; lra. }
  split.
  - rewrite <- (Float64.rne_inject_Z 0). apply Float64.rne_le.
    change (inject_Z 0) with 0%Q. lra.
  - rewrite <- (Float64.rne_inject_Z 10000). apply Float64.rne_le.
    change (inject_Z 10000) with 10000%Q. lra.
Qed.

(** X7, witness: one winner of three is 33.33, the float nearest to
    3333 hundredths. *)
Lemma win_rate_has_two_decimals_witness :
  exists n : Z,
    0 <= n <= 10000
    /\ Py.value (Py.Float (Float64.round (3333 # 100))) = Float64.round (inject_Z n / 100).
Proof.
  apply (win_rate_has_two_decimals
           (mkDataFrame [Status] (map status_row ["Winner"; "Loser"; "Loser"]))).
  vm_compute. reflexivity.
Defined.

End WinRateFacts.

(** ** The two services compute the same win rate *)

Module ServicesAgree.
Import pd.

(** [GoogleSheetService.calculate_win_rate] and
    [NotionService.calculate_win_rate] have the same text, and return the
    same on every table. *)
Remark win_rate_of_both_services (df : DataFrame) :
  GoogleSheetService.calculate_win_rate df = NotionService.calculate_win_rate df.
Proof. reflexivity. Qed.

End ServicesAgree.

(** ** Lists, keys and groups *)

Module TableFacts.
Import pd AdAnalytics EngineFacts.

Lemma filter_all {A} (f : A -> bool) (l : list A) :
  (forall x, In x l -> f x = true) -> filter f l = l.
Proof.
  induction l as [|x l IH]; simpl; intros H; [reflexivity|].
  rewrite (H x (or_introl eq_refl)), IH; auto.
Qed.

Lemma filter_filter {A} (f g : A -> bool) (l : list A) :
  filter f (filter g l) = filter (fun x => g x && f x) l.
Proof.
  induction l as [|x l IH]; simpl; [reflexivity|].
  destruct (g x); simpl; rewrite IH; reflexivity.
Qed.

Lemma filter_of_map {A B} (f : B -> bool) (g : A -> B) (l : list A) :
  filter f (map g l) = map g (filter (fun x => f (g x)) l).
Proof.
  induction l as [|x l IH]; simpl; [reflexivity|].
  destruct (f (g x)); simpl; rewrite IH; reflexivity.
Qed.

Lemma filter_nil_iff {A} (f : A -> bool) (l : list A) :
  filter f l = [] <-> forall x, In x l -> f x = false.
Proof.
  induction l as [|x l IH]; simpl; [tauto|].
  destruct (f x) eqn:E; split.
  - discriminate.
  - intros H. rewrite (H x (or_introl eq_refl)) in E. discriminate.
  - intros H y [<- | Hy]; [exact E | apply IH; assumption].
  - intros H. apply IH. auto.
Qed.

(** *** The order of strings *)

Lemma ascii_lt_trans (a b c : ascii) :
  Ascii.compare a b = Lt -> Ascii.compare b c = Lt -> Ascii.compare a c = Lt.
Proof.
  unfold Ascii.compare. rewrite !N.compare_lt_iff. apply N.lt_trans.
Qed.

Lemma ascii_compare_refl (a : ascii) : Ascii.compare a a = Eq.
Proof. unfold Ascii.compare. apply N.compare_refl. Qed.

Lemma string_lt_trans (s1 s2 s3 : string) :
  String.compare s1 s2 = Lt -> String.compare s2 s3 = Lt -> String.compare s1 s3 = Lt.
Proof.
  revert s2 s3. induction s1 as [|c1 s1 IH]; intros [|c2 s2] [|c3 s3]; simpl;
    try discriminate; try reflexivity.
  destruct (Ascii.compare c1 c2) eqn:C12; try discriminate;
    destruct (Ascii.compare c2 c3) eqn:C23; try discriminate.
  - apply Ascii.compare_eq_iff in C12, C23. subst. rewrite ascii_compare_refl. apply IH.
  - apply Ascii.compare_eq_iff in C12. subst. rewrite C23. reflexivity.
  - apply Ascii.compare_eq_iff in C23. subst. rewrite C12. reflexivity.
  - rewrite (ascii_lt_trans _ _ _ C12 C23). reflexivity.
Qed.

Lemma string_compare_refl (s : string) : String.compare s s = Eq.
Proof. induction s as [|c s IH]; simpl; [reflexivity|]. rewrite ascii_compare_refl. exact IH. Qed.

Lemma ltb_trans (a b c : string) :
  String.ltb a b = true -> String.ltb b c = true -> String.ltb a c = true.
Proof.
  unfold String.ltb.
  destruct (String.compare a b) eqn:E1; try discriminate.
  destruct (String.compare b c) eqn:E2; try discriminate.
  rewrite (string_lt_trans _ _ _ E1 E2). reflexivity.
Qed.

Lemma ltb_irrefl (a : string) : String.ltb a a = false.
Proof. unfold String.ltb. rewrite string_compare_refl. reflexivity. Qed.

Lemma ltb_total (a b : string) :
  String.ltb a b = false -> String.eqb a b = false -> String.ltb b a = true.
Proof.
  unfold String.ltb. rewrite (String.compare_antisym b a).
  destruct (String.compare a b) eqn:E; simpl; try discriminate; [|reflexivity].
  apply String.compare_eq_iff in E. subst. rewrite String.eqb_refl. discriminate.
Qed.

(** *** The keys of [groupby] *)

Definition increasing (l : list string) : Prop :=
  StronglySorted (fun a b => String.ltb a b = true) l.

Lemma increasing_NoDup (l : list string) : increasing l -> NoDup l.
Proof.
  induction 1 as [|x l Hl IH Hx]; constructor; [|exact IH].
  intros Hin. rewrite Forall_forall in Hx. specialize (Hx x Hin).
  rewrite ltb_irrefl in Hx. discriminate.
Qed.

Lemma insert_key_increasing (k : string) (l : list string) :
  increasing l -> increasing (insert_key k l).
Proof.
  induction 1 as [|h t Ht IH Hh]; simpl.
  - repeat constructor.
  - destruct (String.eqb k h) eqn:E; [constructor; assumption|].
    destruct (String.ltb k h) eqn:L.
    + constructor; [constructor; assumption|].
      constructor; [exact L|].
      eapply Forall_impl; [|exact Hh]. intros x Hx. eapply ltb_trans; eauto.
    + constructor; [exact IH|].
      apply Forall_forall. intros x Hx. apply In_insert_key in Hx.
      destruct Hx as [-> | Hx].
      * apply ltb_total; [exact L | exact E].
      * rewrite Forall_forall in Hh. apply Hh, Hx.
Qed.

Lemma fold_insert_key_increasing (l acc : list string) :
  increasing acc -> increasing (fold_left (fun acc k => insert_key k acc) l acc).
Proof.
  revert acc. induction l as [|k l IH]; simpl; intros acc H; [exact H|].
  apply IH, insert_key_increasing, H.
Qed.

Lemma group_keys_increasing (l : list (option string)) : increasing (group_keys l).
Proof. apply fold_insert_key_increasing. constructor. Qed.

Lemma group_keys_NoDup (l : list (option string)) : NoDup (group_keys l).
Proof. apply increasing_NoDup, group_keys_increasing. Qed.

(** *** [unique] *)

Section Unique.
Context {A : Type} (eqb : A -> A -> bool).
Hypothesis eqb_eq : forall a b, eqb a b = true <-> a = b.

Lemma existsb_eqb (x : A) (l : list A) : existsb (eqb x) l = true <-> In x l.
Proof.
  rewrite existsb_exists. split.
  - intros (y & Hy & E). apply eqb_eq in E. subst. exact Hy.
  - intros H. exists x. split; [exact H | apply eqb_eq; reflexivity].
Qed.

Lemma unique_from_spec (seen l : list A) (x : A) :
  In x (unique_from eqb seen l) <-> In x l /\ ~ In x seen.
Proof.
  revert seen. induction l as [|y l IH]; intros seen; simpl; [tauto|].
  destruct (existsb (eqb y) seen) eqn:E.
  - apply existsb_eqb in E. rewrite IH. split.
    + intros [H1 H2]. auto.
    + intros [[<- | H1] H2]; [contradiction | auto].
  - assert (N : ~ In y seen).
    { intros H. apply existsb_eqb in H. rewrite H in E. discriminate. }
    simpl. rewrite IH. simpl. split.
    + intros [<- | [H1 H2]]; [auto|]. split; [auto|]. intros H. apply H2. auto.
    + intros [[<- | H1] H2]; [auto|].
      destruct (eqb y x) eqn:Eyx.
      * apply eqb_eq in Eyx. auto.
      * right. split; [exact H1|]. intros [<- | H]; [|contradiction].
        assert (T : eqb y y = true) by (apply eqb_eq; reflexivity).
        rewrite T in Eyx. discriminate.
Qed.

Lemma unique_from_NoDup (seen l : list A) : NoDup (unique_from eqb seen l).
Proof.
  revert seen. induction l as [|y l IH]; intros seen; simpl; [constructor|].
  destruct (existsb (eqb y) seen); [apply IH|].
  constructor; [|apply IH].
  rewrite unique_from_spec. simpl. intros [_ H]. apply H. auto.
Qed.

Lemma unique_In (l : list A) (x : A) : In x (unique eqb l) <-> In x l.
Proof. unfold unique. rewrite unique_from_spec. simpl. tauto. Qed.

Lemma unique_NoDup (l : list A) : NoDup (unique eqb l).
Proof. apply unique_from_NoDup. Qed.

End Unique.

Lemma eq_value_eq (a b : option string) : eq_value a b = true <-> a = b.
Proof.
  destruct a as [x|], b as [y|]; simpl; try (split; [discriminate | intros H; inversion H]);
    [|tauto].
  rewrite String.eqb_eq. split; [intros ->; reflexivity | intros H; inversion H; reflexivity].
Qed.

Lemma dropna_Some {A} (l : list A) : dropna (map Some l) = l.
Proof. induction l as [|x l IH]; simpl; [reflexivity|]. rewrite IH. reflexivity. Qed.

Lemma NoDup_map_Some {A} (l : list A) : NoDup l -> NoDup (map Some l).
Proof.
  induction 1 as [|x l Hx Hl IH]; simpl; constructor; [|exact IH].
  rewrite in_map_iff. intros (y & E & Hy). inversion E; subst. contradiction.
Qed.

(** *** Counting by key *)

(** The sum of [f] over a list. *)
Definition sum_over {A} (f : A -> Z) (l : list A) : Z := fold_right Z.add 0 (map f l).

Lemma sum_over_indicator (k0 : string) (ks : list string) :
  NoDup ks -> In k0 ks ->
  sum_over (fun k => if String.eqb k0 k then 1 else 0) ks = 1.
Proof.
  unfold sum_over. induction 1 as [|k ks Hk Hks IH]; simpl; [contradiction|].
  intros [-> | Hin].
  - rewrite String.eqb_refl.
    assert (Z0 : fold_right Z.add 0 (map (fun k => if String.eqb k0 k then 1 else 0) ks) = 0).
    { clear IH Hks. induction ks as [|k ks IH]; simpl; [reflexivity|].
      destruct (String.eqb_spec k0 k) as [-> | _].
      - exfalso. apply Hk. left. reflexivity.
      - rewrite IH; [reflexivity|]. intros H. apply Hk. right. exact H. }
    rewrite Z0. reflexivity.
  - destruct (String.eqb_spec k0 k) as [-> | _]; [contradiction|].
    rewrite (IH Hin). reflexivity.
Qed.

Lemma sum_over_zero {A} (f : A -> Z) (l : list A) :
  (forall x, In x l -> f x = 0) -> sum_over f l = 0.
Proof.
  unfold sum_over. induction l as [|x l IH]; simpl; intros H; [reflexivity|].
  rewrite (H x (or_introl eq_refl)), IH; auto.
Qed.

Lemma sum_over_add {A} (f g : A -> Z) (l : list A) :
  sum_over (fun x => f x + g x) l = sum_over f l + sum_over g l.
Proof.
  unfold sum_over. induction l as [|x l IH]; simpl; [reflexivity|]. rewrite IH. lia.
Qed.

Lemma sum_over_ext {A} (f g : A -> Z) (l : list A) :
  (forall x, In x l -> f x = g x) -> sum_over f l = sum_over g l.
Proof.
  unfold sum_over. induction l as [|x l IH]; simpl; intros H; [reflexivity|].
  rewrite (H x (or_introl eq_refl)), IH; auto.
Qed.

(** Rows counted key by key add up to the rows that have one of the
    keys. *)
Lemma count_by_key {R} (key : R -> option string) (sel : R -> bool) (ks : list string)
  (l : list R) :
  NoDup ks ->
  (forall r k, In r l -> sel r = true -> key r = Some k -> In k ks) ->
  sum_over (fun k => Py.len (filter (fun r => sel r && eq_cell (key r) (Some k)) l)) ks
  = Py.len (filter (fun r => sel r && notna (key r)) l).
Proof.
  intros Hk. induction l as [|r l IH]; intros Hin.
  - simpl. apply sum_over_zero. reflexivity.
  - assert (IH' := IH (fun r0 k H => Hin r0 k (or_intror H))). clear IH.
    assert (L : forall f : R -> bool,
               Py.len (filter f (r :: l)) = (if f r then 1 else 0) + Py.len (filter f l)).
    { intros f. simpl. destruct (f r); unfold Py.len; simpl length; lia. }
    rewrite (sum_over_ext _ _ _
               (fun k _ => L (fun r => sel r && eq_cell (key r) (Some k)))).
    rewrite sum_over_add, IH', L. f_equal.
    destruct (sel r) eqn:S; simpl andb; [|apply sum_over_zero; reflexivity].
    destruct (key r) as [k0|] eqn:K; simpl; [|apply sum_over_zero; reflexivity].
    apply sum_over_indicator; [exact Hk|].
    eapply Hin; eauto. left. reflexivity.
Qed.

End TableFacts.

(** ** The rows behind each chart *)

Module ChartRows.
Import pd NotionService AdAnalytics SortFacts NormalizerFacts EngineFacts PeriodKeys.
Import TableFacts.

(** The row passes the filter on [status] of the ratio and volume charts:
    the filter applies when the argument is not empty and the table has a
    Status column. *)
Definition passes_status (status_arg : option string) (df : DataFrame) (r : Row) : bool :=
  match status_arg with
  | Some s =>
      if Py.truthy status_arg && has Status df then lower_is (Py.lower s) (status r)
      else true
  | None => true
  end.

(** The row passes the filter asked for by a [strategist] or [editor]
    argument. *)
Definition passes (cell : Row -> option string) (arg : option string) (r : Row) : bool :=
  match arg with
  | Some v => if Py.truthy arg then eq_cell (cell r) (Some v) else true
  | None => true
  end.

(** The number of rows of [df] that satisfy [f]. *)
Definition count_rows (f : Row -> bool) (df : DataFrame) : Z :=
  Py.len (filter f (rows df)).

(** [labels] holds the keys that satisfy [is_key], each of them once, and
    in chronological order whenever every key is a timestamp without a
    time zone. *)
Definition labelled {A} (P : API) (str : A -> string) (labels : list A)
  (is_key : A -> Prop) : Prop :=
  (forall k, In k labels <-> is_key k)
  /\ NoDup labels
  /\ (keys_comparable P str labels ->
      StronglySorted (fun a b => le (sort_key P str a) (sort_key P str b)) labels).

Lemma rows_filter_status_passes (a : option string) (df : DataFrame) :
  rows (filter_status a df) = filter (passes_status a df) (rows df).
Proof.
  unfold filter_status, passes_status. destruct a as [s|].
  - destruct (_ && _); [reflexivity|]. symmetry. apply filter_all. reflexivity.
  - symmetry. apply filter_all. reflexivity.
Qed.

Lemma filter_by_passes (c : Column) (cell : Row -> option string) (a : option string)
  (df df' : DataFrame) :
  filter_by c cell a df = Py.Ok df' ->
  columns df' = columns df /\ rows df' = filter (passes cell a) (rows df).
Proof.
  unfold filter_by, passes. destruct a as [v|].
  - destruct (Py.truthy _).
    + destruct (has c df); [|discriminate]. intros H. inversion H. auto.
    + intros H. inversion H. subst. split; [reflexivity|].
      symmetry. apply filter_all. reflexivity.
  - intros H. inversion H. subst. split; [reflexivity|].
    symmetry. apply filter_all. reflexivity.
Qed.

Lemma has_assign_other (c c' : Column) (f : Row -> Row) (df : DataFrame) :
  Column_beq c c' = false -> has c (assign c' f df) = has c df.
Proof.
  intros N. unfold assign, has. simpl.
  destruct (existsb (Column_beq c') (columns df)); [reflexivity|].
  rewrite existsb_app. simpl. rewrite N. rewrite !orb_false_r. reflexivity.
Qed.

Lemma has_Period_from (c : Column) (cell : Row -> option string) (df : DataFrame) :
  Column_beq c Period = false -> has c (Period_from cell df) = has c df.
Proof. apply has_assign_other. Qed.

Section Frames.
Variable P : API.

Lemma has_assign_period (c : Column) (period : string) (df : DataFrame) :
  Column_beq c Period = false -> has c (assign_period P period df) = has c df.
Proof.
  intros N. unfold assign_period.
  destruct (String.eqb period "week"); [destruct (has Launch_YY_WW df)|];
    [| |destruct (String.eqb period "quarter"); [|destruct (has Launch_Month df)]];
    apply has_Period_from, N.
Qed.

Lemma has_assign_period_ratio (c : Column) (period : string) (df : DataFrame) :
  Column_beq c Period = false -> has c (assign_period_ratio P period df) = has c df.
Proof.
  intros N. unfold assign_period_ratio.
  destruct (String.eqb period "quarter");
    [|destruct (String.eqb period "week"); destruct (has Launch_Month df)];
    apply has_Period_from, N.
Qed.

Lemma labelled_sorted {A} (str : A -> string) (l : list A) (is_key : A -> Prop) :
  NoDup l -> (forall k, In k l <-> is_key k) ->
  labelled P str (_sort_periods_chronologically P str l) is_key.
Proof.
  intros Hn Hk. split; [|split].
  - intros k. rewrite nsort_In. apply Hk.
  - apply (Permutation_NoDup (nsort_perm P str l)), Hn.
  - intros Hc. apply nsort_sorted.
    unfold keys_comparable in *.
    apply (Permutation_Forall (Permutation_sym (nsort_perm P str l))), Hc.
Qed.

Lemma labelled_nil {A} (str : A -> string) (is_key : A -> Prop) :
  (forall k, ~ is_key k) -> labelled P str [] is_key.
Proof.
  intros H. split; [|split].
  - intros k. simpl. split; [contradiction | apply H].
  - constructor.
  - intros _. constructor.
Qed.

(** *** Series charts *)

Lemma getitem_map {V} (f : string -> V) (ks : list string) (k : string) :
  In k ks -> getitem (map (fun k => (k, f k)) ks) k = Py.Ok (f k).
Proof.
  induction ks as [|a ks IH]; simpl; [contradiction|].
  intros H. destruct (String.eqb_spec k a) as [-> | N]; [reflexivity|].
  destruct H as [-> | H]; [contradiction | apply IH, H].
Qed.

Lemma sorted_series_map (f : string -> Py.Number) (ks : list string) :
  sorted_series P (map (fun k => (k, f k)) ks)
  = Py.Ok (Series.mk (_sort_periods_chronologically P Py.str ks)
                     (map f (_sort_periods_chronologically P Py.str ks))).
Proof.
  unfold sorted_series. rewrite map_map. simpl. rewrite map_id.
  rewrite (for_each_total _ f); [reflexivity|].
  intros x Hx. apply getitem_map. apply (nsort_In P Py.str), Hx.
Qed.

Lemma by_period_map (metric : DataFrame -> Py.Number) (df : DataFrame) :
  by_period metric df
  = map (fun k => (k, metric (where_ (fun r => eq_cell (period r) (Some k)) df)))
        (group_keys (map period (rows df))).
Proof. unfold by_period, groupby_Period. rewrite map_map. reflexivity. Qed.

(** The rows of one group of a frame, in terms of the table [df] the
    frame was made from by a selection [sel] of its rows. *)
Lemma group_rows (ratio : bool) (period : string) (df df2 : DataFrame) (sel : Row -> bool)
  (k : option string) :
  columns df2 = columns df -> rows df2 = filter sel (rows df) ->
  filter (fun r => eq_cell (pd.period r) k)
         (map (fun r => set_period (period_key P ratio period df2 r) r) (rows df2))
  = map (fun r => set_period (period_key P ratio period df r) r)
        (filter (fun r => sel r && eq_cell (period_key P ratio period df r) k) (rows df)).
Proof.
  intros Hc Hr. rewrite filter_of_map, Hr, filter_filter. simpl.
  rewrite (filter_ext _ (fun r => sel r && eq_cell (period_key P ratio period df r) k)).
  - apply map_ext. intros r. rewrite (period_key_columns P ratio period df df2 r Hc).
    reflexivity.
  - intros r. rewrite (period_key_columns P ratio period df df2 r Hc). reflexivity.
Qed.

Lemma keys_of_selection (ratio : bool) (period : string) (df df2 : DataFrame)
  (sel : Row -> bool) (k : option string) :
  columns df2 = columns df -> rows df2 = filter sel (rows df) ->
  In k (map pd.period
          (map (fun r => set_period (period_key P ratio period df2 r) r) (rows df2)))
  <-> exists r, In r (rows df) /\ sel r = true /\ period_key P ratio period df r = k.
Proof.
  intros Hc Hr. rewrite period_of_assigned. rewrite Hr.
  split; intros (r & H1 & H2).
  - apply filter_In in H1. destruct H1 as [H1 H3].
    exists r. rewrite <- (period_key_columns P ratio period df df2 r Hc). auto.
  - destruct H2 as [H2 H3]. exists r. split; [apply filter_In; auto|].
    rewrite (period_key_columns P ratio period df df2 r Hc). exact H3.
Qed.

Lemma series_chart (metric : DataFrame -> Py.Number) (period : string)
  (df df2 : DataFrame) (sel : Row -> bool) (s : Series.t) :
  columns df2 = columns df -> rows df2 = filter sel (rows df) ->
  sorted_series P (by_period metric (assign_period P period df2)) = Py.Ok s ->
  labelled P Py.str (Series.labels s)
    (fun k => exists r, In r (rows df) /\ sel r = true
                        /\ period_key P false period df r = Some k)
  /\ Series.data s
     = map (fun k =>
              metric
                (mkDataFrame (columns (assign_period P period df2))
                   (map (fun r => set_period (period_key P false period df r) r)
                      (filter (fun r => sel r
                                        && eq_cell (period_key P false period df r) (Some k))
                              (rows df)))))
           (Series.labels s).
Proof.
  intros Hc Hr. rewrite by_period_map, sorted_series_map. intros H. inversion H. simpl.
  split.
  - apply labelled_sorted; [apply group_keys_NoDup|].
    intros k. rewrite In_group_keys, rows_assign_period.
    apply keys_of_selection; assumption.
  - apply map_ext. intros k. f_equal. unfold where_. f_equal.
    rewrite rows_assign_period. apply group_rows; assumption.
Qed.

End Frames.

End ChartRows.

(** ** The charts of one series *)

Module SeriesCharts.
Import pd NotionService AdAnalytics SortFacts NormalizerFacts EngineFacts PeriodKeys.
Import TableFacts ChartRows.

(** The rows [get_creatives_volume] counts. *)
Definition counted (strategist_arg status_arg : option string) (df : DataFrame) (r : Row)
  : bool :=
  dated r && passes_status status_arg df r && passes strategist strategist_arg r.

(** The rows [get_avg_production_time] averages: those with a Launch Date
    and a production time above zero. *)
Definition timed (strategist_arg : option string) (r : Row) : bool :=
  dated r
  && match ad_time_to_ready r with Some x => positive x | None => false end
  && passes strategist strategist_arg r.

(** The rows [get_avg_editing_time] averages: those with a Launch Date and
    an editing duration, whatever its sign. *)
Definition edited (editor_arg : option string) (r : Row) : bool :=
  dated r && notna (editing_duration_minutes r) && passes editor_designer editor_arg r.

(** An [int] of a chart, read as a whole number. *)
Definition whole (n : Py.Number) : Z :=
  match n with Py.Int z => z | Py.Float _ => 0 end.

Lemma empty_rows (c : Column) (df : DataFrame) :
  has c df = true -> empty df = match rows df with [] => true | _ => false end.
Proof.
  unfold has, empty. destruct (columns df); [discriminate | reflexivity].
Qed.

Lemma empty_no_rows (c : Column) (df : DataFrame) :
  has c df = true -> empty df = true -> rows df = [].
Proof.
  intros H. rewrite (empty_rows c df H). destruct (rows df); [reflexivity | discriminate].
Qed.

(** The win rate of a group reads its Status values, and whether it has
    rows and a Status column. *)
Lemma calculate_win_rate_ext (a b : DataFrame) :
  empty a = empty b -> has Status a = has Status b ->
  map status (rows a) = map status (rows b) ->
  calculate_win_rate a = calculate_win_rate b.
Proof.
  intros He Hs Hm. unfold calculate_win_rate. rewrite He, Hs.
  assert (L : forall name,
             Py.len (rows (where_ (fun r => lower_is name (status r)) a))
             = Py.len (rows (where_ (fun r => lower_is name (status r)) b))).
  { intros name. unfold where_, Py.len. simpl. f_equal.
    rewrite <- (length_map status (filter _ (rows a))).
    rewrite <- (length_map status (filter _ (rows b))).
    rewrite <- !(filter_of_map (lower_is name) status). rewrite Hm. reflexivity. }
  rewrite !L. reflexivity.
Qed.

Section Charts.
Variable P : API.

Lemma for_each_getitem {G V} (f : G -> Py.Result V) (group : string -> G)
  (ks : list string) (res : list (string * V)) (k : string) (v : V) :
  Py.for_each (fun '(k, g) => v <- f g ;; Py.Ok (k, v)) (map (fun k => (k, group k)) ks)
  = Py.Ok res ->
  getitem res k = Py.Ok v -> f (group k) = Py.Ok v.
Proof.
  revert res. induction ks as [|a ks IH]; simpl; intros res H G0.
  - inversion H. subst. discriminate.
  - destruct (f (group a)) as [va|e] eqn:Fa; simpl in H; [|discriminate].
    destruct (Py.for_each _ _) as [rest|e] eqn:Fr; simpl in H; [|discriminate].
    inversion H. subst. simpl in G0.
    destruct (String.eqb_spec k a) as [-> | N].
    + inversion G0. subst. exact Fa.
    + eapply IH; eauto.
Qed.

Lemma win_rate_by_period_rows (df : DataFrame) (period : string) (s : Series.t) :
  has Launch_Date df = true ->
  get_win_rate_by_period P df period = Py.Ok s ->
  labelled P Py.str (Series.labels s)
    (fun k => exists r, In r (rows df) /\ dated r = true
                        /\ period_key P false period df r = Some k)
  /\ Forall2 (fun k v =>
                calculate_win_rate
                  (where_ (fun r => dated r
                                    && eq_cell (period_key P false period df r) (Some k)) df)
                = Py.Ok v)
             (Series.labels s) (Series.data s).
Proof.
  intros HL. unfold get_win_rate_by_period. rewrite HL. simpl negb. simpl orb.
  destruct (empty df) eqn:E.
  { intros H. inversion H. simpl. split; [|constructor].
    apply labelled_nil. intros k (r & Hr & _).
    rewrite (empty_no_rows _ _ HL E) in Hr. contradiction. }
  set (df2 := where_ (fun r => notna (launch_date r)) df).
  set (frame := assign_period P period df2).
  unfold groupby_Period.
  destruct (Py.for_each _ _) as [result|e] eqn:F; simpl; [|discriminate].
  destruct (Py.for_each (getitem result) _) as [data|e] eqn:D; simpl; [|discriminate].
  intros H. inversion H. simpl. clear H.
  assert (K : map fst result = group_keys (map pd.period (rows frame))).
  { rewrite (for_each_keys _ _ _ F). rewrite map_map. simpl. apply map_id. }
  rewrite K. split.
  - apply labelled_sorted; [apply group_keys_NoDup|].
    intros k. rewrite In_group_keys. subst frame. rewrite rows_assign_period.
    apply (keys_of_selection P false period df df2 dated); reflexivity.
  - apply for_each_Forall2 in D. rewrite K in D.
    eapply Forall2_impl; [|exact D]. intros k v G0. simpl in G0.
    apply (for_each_getitem _ _ _ _ _ _ F) in G0.
    rewrite <- G0. apply calculate_win_rate_ext.
    + assert (Hg : has Launch_Date
                     (where_ (fun r => eq_cell (pd.period r) (Some k)) frame) = true).
      { subst frame. rewrite has_where, has_assign_period by reflexivity. exact HL. }
      rewrite (empty_rows _ _ Hg), (empty_rows Launch_Date (where_ _ df) HL).
      simpl rows. subst frame. rewrite rows_assign_period.
      rewrite (group_rows P false period df df2 dated (Some k)) by reflexivity.
      destruct (filter _ (rows df)); reflexivity.
    + subst frame. rewrite !has_where, has_assign_period by reflexivity. reflexivity.
    + simpl rows. subst frame. rewrite rows_assign_period.
      rewrite (group_rows P false period df df2 dated (Some k)) by reflexivity.
      rewrite map_map. reflexivity.
Qed.

Lemma creatives_volume_rows (df : DataFrame) (period : string)
  (a b : option string) (s : Series.t) :
  has Launch_Date df = true ->
  get_creatives_volume P df period a b = Py.Ok s ->
  labelled P Py.str (Series.labels s)
    (fun k => exists r, In r (rows df) /\ counted a b df r = true
                        /\ period_key P false period df r = Some k)
  /\ Series.data s
     = map (fun k =>
              Py.Int (count_rows
                        (fun r => counted a b df r
                                  && eq_cell (period_key P false period df r) (Some k)) df))
           (Series.labels s).
Proof.
  intros HL. unfold get_creatives_volume. rewrite HL. simpl negb. simpl orb.
  destruct (empty df) eqn:E.
  { intros H. inversion H. simpl. split; [|reflexivity].
    apply labelled_nil. intros k (r & Hr & _).
    rewrite (empty_no_rows _ _ HL E) in Hr. contradiction. }
  destruct (filter_by _ _ _ _) as [df2|e] eqn:F; simpl; [|discriminate].
  apply filter_by_passes in F. destruct F as [Fc Fr].
  rewrite rows_filter_status_passes in Fr. simpl rows in Fr.
  rewrite !filter_filter in Fr.
  rewrite columns_filter_status in Fc. simpl columns in Fc.
  assert (Fr' : rows df2 = filter (counted a b df) (rows df)).
  { rewrite Fr. apply filter_ext. intros r. rewrite andb_assoc. reflexivity. }
  intros H.
  destruct (series_chart P _ period df df2 (counted a b df) s Fc Fr' H) as [H1 H2].
  split; [exact H1|].
  rewrite H2. apply map_ext. intros k. unfold count_rows, Py.len. simpl rows.
  rewrite length_map. reflexivity.
Qed.

Lemma avg_production_time_rows (df : DataFrame) (a : option string) (period : string)
  (s : Series.t) :
  has Launch_Date df = true -> has Ad_time_to_ready df = true ->
  get_avg_production_time P df a period = Py.Ok s ->
  labelled P Py.str (Series.labels s)
    (fun k => exists r, In r (rows df) /\ timed a r = true
                        /\ period_key P false period df r = Some k)
  /\ Series.data s
     = map (fun k =>
              Py.Float
                (mean_round2 P
                   (dropna
                      (map ad_time_to_ready
                         (filter (fun r => timed a r
                                           && eq_cell (period_key P false period df r)
                                                      (Some k))
                                 (rows df))))))
           (Series.labels s).
Proof.
  intros HL HT. unfold get_avg_production_time. rewrite HL, HT. simpl negb. simpl orb.
  set (df3 := where_ _ (where_ _ (where_ _ df))).
  assert (R3 : rows df3
               = filter (fun r => dated r
                                  && match ad_time_to_ready r with
                                     | Some x => positive x
                                     | None => false
                                     end) (rows df)).
  { subst df3. simpl rows. rewrite !filter_filter. apply filter_ext.
    intros r. unfold dated. destruct (notna (launch_date r)); [|reflexivity].
    destruct (ad_time_to_ready r); reflexivity. }
  assert (H3 : has Launch_Date df3 = true) by exact HL.
  destruct (empty df3) eqn:E3.
  { intros H. inversion H. simpl. split; [|reflexivity].
    apply labelled_nil. intros k (r & Hr & Hs & _).
    assert (Hin : In r (rows df3)).
    { rewrite R3. apply filter_In. split; [exact Hr|].
      unfold timed in Hs. apply andb_true_iff in Hs. apply Hs. }
    rewrite (empty_no_rows _ _ H3 E3) in Hin. contradiction. }
  destruct (filter_by _ _ _ _) as [df4|e] eqn:F; simpl; [|discriminate].
  apply filter_by_passes in F. destruct F as [Fc Fr].
  rewrite R3, filter_filter in Fr.
  assert (Fr' : rows df4 = filter (timed a) (rows df)) by exact Fr.
  assert (H4 : has Launch_Date df4 = true).
  { unfold has. rewrite Fc. exact HL. }
  destruct (Py.truthy a && empty df4) eqn:E4.
  { intros H. inversion H. simpl. split; [|reflexivity].
    apply labelled_nil. intros k (r & Hr & Hs & _).
    apply andb_true_iff in E4. destruct E4 as [_ E4].
    assert (Hin : In r (rows df4)).
    { rewrite Fr'. apply filter_In. split; [exact Hr | exact Hs]. }
    rewrite (empty_no_rows _ _ H4 E4) in Hin. contradiction. }
  intros H.
  destruct (series_chart P _ period df df4 (timed a) s Fc Fr' H) as [H1 H2].
  split; [exact H1|].
  rewrite H2. apply map_ext. intros k. simpl rows. rewrite map_map. reflexivity.
Qed.

Lemma avg_editing_time_rows (df : DataFrame) (a : option string) (period : string)
  (s : Series.t) :
  has Launch_Date df = true -> has Editing_Duration_minutes df = true ->
  get_avg_editing_time P df a period = Py.Ok s ->
  labelled P Py.str (Series.labels s)
    (fun k => exists r, In r (rows df) /\ edited a r = true
                        /\ period_key P false period df r = Some k)
  /\ Series.data s
     = map (fun k =>
              Py.Float
                (mean_round2 P
                   (dropna
                      (map editing_duration_hours
                         (filter (fun r => edited a r
                                           && eq_cell (period_key P false period df r)
                                                      (Some k))
                                 (rows df))))))
           (Series.labels s).
Proof.
  intros HL HT. unfold get_avg_editing_time. rewrite HL, HT. simpl negb. simpl orb.
  destruct (filter_by _ _ _ _) as [df2|e] eqn:F; simpl; [|discriminate].
  apply filter_by_passes in F. destruct F as [Fc Fr].
  simpl rows in Fr. rewrite !filter_filter in Fr. simpl columns in Fc.
  assert (Fr' : rows df2 = filter (edited a) (rows df)).
  { rewrite Fr. apply filter_ext. intros r. rewrite ?andb_assoc. reflexivity. }
  intros H.
  destruct (series_chart P _ period df df2 (edited a) s Fc Fr' H) as [H1 H2].
  split; [exact H1|].
  rewrite H2. apply map_ext. intros k. simpl rows. rewrite map_map. reflexivity.
Qed.

End Charts.

End SeriesCharts.

(** ** The charts of one series per dimension value *)

Module DatasetCharts.
Import pd NotionService AdAnalytics SortFacts NormalizerFacts EngineFacts PeriodKeys.
Import TableFacts ChartRows SeriesCharts.

(** The period keys of the rows [sel] of [df]. *)
Definition period_keys (P : API) (ratio : bool) (period : string) (sel : Row -> bool)
  (df : DataFrame) (k : option string) : Prop :=
  exists row, In row (rows df) /\ sel row = true /\ period_key P ratio period df row = k.

(** The rows of [df] selected by [sel] that fall in the period [p] and
    carry the value [v] of the dimension. *)
Definition in_cell (P : API) (ratio : bool) (period : string) (sel : Row -> bool)
  (cell : Row -> option string) (df : DataFrame) (p : option string) (v : string)
  (row : Row) : bool :=
  sel row && eq_cell (period_key P ratio period df row) p && eq_cell (cell row) (Some v).

(** There is one dataset per value of the dimension, in the order the
    values are first met, and its numbers are the counts of the rows of
    each period with that value. *)
Definition counts_of (P : API) (period : string) (sel : Row -> bool)
  (cell : Row -> option string) (df : DataFrame) (r : Datasets.t) : Prop :=
  map Dataset.label (Datasets.datasets r)
  = unique String.eqb (dropna (map cell (filter sel (rows df))))
  /\ Forall (fun ds =>
               Dataset.data ds
               = map (fun p =>
                        Py.Int (count_rows
                                  (in_cell P true period sel cell df p (Dataset.label ds)) df))
                     (Datasets.labels r))
            (Datasets.datasets r).

(** There is one dataset per value of the dimension, and its numbers are
    the win rates of the rows of each period with that value. *)
Definition rates_of (P : API) (period : string) (sel : Row -> bool)
  (cell : Row -> option string) (df : DataFrame) (r : Datasets.t) : Prop :=
  map Dataset.label (Datasets.datasets r)
  = unique String.eqb (dropna (map cell (filter sel (rows df))))
  /\ Forall (fun ds =>
               Forall2 (fun p v =>
                          calculate_win_rate
                            (where_ (in_cell P false period sel cell df p (Dataset.label ds))
                                    df)
                          = Py.Ok v)
                       (Datasets.labels r) (Dataset.data ds))
            (Datasets.datasets r).

(** The numbers of all datasets at the label of index [i], added. *)
Definition stack_total (r : Datasets.t) (i : nat) : Z :=
  sum_over (fun ds => match nth_error (Dataset.data ds) i with
                      | Some n => whole n
                      | None => 0
                      end)
           (Datasets.datasets r).

Lemma map_snd_enumerate {A} (l : list A) (idx : nat) :
  map snd (enumerate_from idx l) = l.
Proof.
  revert idx. induction l as [|x l IH]; simpl; intros idx; [reflexivity|].
  rewrite IH. reflexivity.
Qed.

Lemma sum_over_map {A B} (f : B -> Z) (g : A -> B) (l : list A) :
  sum_over f (map g l) = sum_over (fun x => f (g x)) l.
Proof. unfold sum_over. rewrite map_map. reflexivity. Qed.

Lemma Forall2_labels {A} (f : Dataset.t -> A) (Q : Dataset.t -> Prop)
  (vs : list A) (dss : list Dataset.t) :
  Forall2 (fun v ds => f ds = v /\ Q ds) vs dss -> map f dss = vs /\ Forall Q dss.
Proof.
  induction 1 as [|v ds vs dss [H1 H2] H IH]; simpl; [split; constructor|].
  destruct IH as [IH1 IH2]. split; [rewrite H1, IH1; reflexivity | constructor; assumption].
Qed.

Section Charts.
Variable P : API.

Section Cells.
Variables (ratio : bool) (period : string) (df df2 : DataFrame) (sel : Row -> bool).
Variable cell : Row -> option string.
Hypothesis cell_set_period : forall x r, cell (set_period x r) = cell r.
Hypothesis Hc : columns df2 = columns df.
Hypothesis Hr : rows df2 = filter sel (rows df).

Local Abbreviation frame_rows :=
  (map (fun r => set_period (period_key P ratio period df2 r) r) (rows df2)).

Lemma cell_rows (p : option string) (v : string) :
  filter (fun r => eq_cell (pd.period r) p && eq_cell (cell r) (Some v)) frame_rows
  = map (fun r => set_period (period_key P ratio period df r) r)
        (filter (in_cell P ratio period sel cell df p v) (rows df)).
Proof.
  rewrite filter_of_map, Hr, filter_filter. simpl.
  rewrite (filter_ext _ (in_cell P ratio period sel cell df p v)).
  - apply map_ext. intros r. rewrite (period_key_columns P ratio period df df2 r Hc).
    reflexivity.
  - intros r. unfold in_cell.
    rewrite (period_key_columns P ratio period df df2 r Hc), cell_set_period.
    rewrite andb_assoc. reflexivity.
Qed.

Lemma cells_of_frame : map cell frame_rows = map cell (filter sel (rows df)).
Proof.
  rewrite map_map, Hr. apply map_ext. intros r. apply cell_set_period.
Qed.

Lemma periods_of_frame :
  labelled P str_cell
    (_sort_periods_chronologically P str_cell (unique eq_value (map pd.period frame_rows)))
    (period_keys P ratio period sel df).
Proof.
  apply labelled_sorted; [apply unique_NoDup, eq_value_eq|].
  intros k. rewrite (unique_In _ eq_value_eq).
  apply (keys_of_selection P ratio period df df2 sel k Hc Hr).
Qed.

Lemma known_periods_of_frame :
  labelled P str_cell
    (_sort_periods_chronologically P str_cell
       (unique eq_value (map Some (dropna (map pd.period frame_rows)))))
    (fun k => k <> None /\ period_keys P ratio period sel df k).
Proof.
  apply labelled_sorted; [apply unique_NoDup, eq_value_eq|].
  intros k. rewrite (unique_In _ eq_value_eq), in_map_iff. split.
  - intros (k' & <- & Hk). split; [discriminate|].
    apply In_dropna in Hk.
    apply (keys_of_selection P ratio period df df2 sel (Some k') Hc Hr) in Hk. exact Hk.
  - intros [Hn Hk]. destruct k as [k'|]; [|contradiction].
    exists k'. split; [reflexivity|]. apply In_dropna.
    apply (keys_of_selection P ratio period df df2 sel (Some k') Hc Hr). exact Hk.
Qed.

End Cells.

Lemma ratio_by_rows (dim : Column) (cell : Row -> option string)
  (df : DataFrame) (period : string) (a : option string) (r : Datasets.t) :
  (forall x row, cell (set_period x row) = cell row) ->
  has Launch_Date df = true -> has dim df = true ->
  ratio_by P dim cell df period a = Py.Ok r ->
  labelled P str_cell (Datasets.labels r)
    (period_keys P true period (fun row => dated row && passes_status a df row) df)
  /\ counts_of P period (fun row => dated row && passes_status a df row) cell df r.
Proof.
  intros Hcell HL HD. unfold ratio_by. rewrite HL, HD. simpl negb. simpl orb.
  set (sel := fun row => dated row && passes_status a df row).
  destruct (empty df) eqn:E.
  { intros H. inversion H. unfold counts_of. simpl.
    rewrite (empty_no_rows _ _ HL E). simpl. split; [|split; constructor].
    apply labelled_nil. intros k (row & Hrow & _).
    rewrite (empty_no_rows _ _ HL E) in Hrow. contradiction. }
  set (df2 := filter_status a (where_ (fun r => notna (launch_date r)) df)).
  assert (Hc : columns df2 = columns df).
  { subst df2. rewrite columns_filter_status. reflexivity. }
  assert (Hr : rows df2 = filter sel (rows df)).
  { subst df2. rewrite rows_filter_status_passes. simpl rows. apply filter_filter. }
  rewrite rows_assign_period_ratio.
  intros H. inversion H. clear H. unfold counts_of. simpl.
  split; [apply periods_of_frame; assumption|].
  rewrite (cells_of_frame true period df df2 sel cell Hcell Hr).
  split.
  - rewrite map_map.
    rewrite (map_ext _ snd); [apply map_snd_enumerate|]. intros [idx v]. reflexivity.
  - apply Forall_forall. intros ds Hds.
    apply in_map_iff in Hds as ([idx v] & <- & _). simpl.
    apply map_ext. intros p. unfold count_rows, Py.len, cell_of, where_. simpl rows.
    rewrite rows_assign_period_ratio.
    rewrite (cell_rows true period df df2 sel cell Hcell Hc Hr), length_map. reflexivity.
Qed.

Lemma win_rate_by_rows (dim : Column) (cell : Row -> option string)
  (df : DataFrame) (period : string) (r : Datasets.t) :
  (forall x row, cell (set_period x row) = cell row) ->
  has Launch_Date df = true -> has dim df = true ->
  win_rate_by P dim cell df period = Py.Ok r ->
  labelled P str_cell (Datasets.labels r) (period_keys P false period dated df)
  /\ rates_of P period dated cell df r.
Proof.
  intros Hcell HL HD. unfold win_rate_by. rewrite HL, HD. simpl negb. simpl orb.
  destruct (empty df) eqn:E.
  { intros H. inversion H. unfold rates_of. simpl.
    rewrite (empty_no_rows _ _ HL E). simpl. split; [|split; constructor].
    apply labelled_nil. intros k (row & Hrow & _).
    rewrite (empty_no_rows _ _ HL E) in Hrow. contradiction. }
  set (df2 := where_ (fun r => notna (launch_date r)) df).
  assert (Hc : columns df2 = columns df) by reflexivity.
  assert (Hr : rows df2 = filter dated (rows df)) by reflexivity.
  set (frame := assign_period P period df2).
  assert (Rf : rows frame
               = map (fun r => set_period (period_key P false period df2 r) r) (rows df2))
    by apply rows_assign_period.
  rewrite Rf.
  set (periods := _sort_periods_chronologically P str_cell _).
  destruct (Py.for_each _ (unique _ _)) as [datasets|e] eqn:F; simpl; [|discriminate].
  intros H. inversion H. clear H. unfold rates_of. simpl.
  split; [apply periods_of_frame; assumption|].
  rewrite (cells_of_frame false period df df2 dated cell Hcell Hr) in F.
  apply for_each_Forall2 in F.
  apply Forall2_labels.
  eapply Forall2_impl; [|exact F]. intros v ds Hv. simpl in Hv.
  destruct (Py.for_each _ periods) as [data|e] eqn:Ed; simpl in Hv; [|discriminate].
  inversion Hv. subst ds. simpl. split; [reflexivity|].
  apply for_each_Forall2 in Ed.
  eapply Forall2_impl; [|exact Ed]. intros p x Hx. simpl in Hx.
  rewrite <- Hx. apply calculate_win_rate_ext.
  - assert (Hg : has Launch_Date (cell_of cell p v frame) = true).
    { unfold cell_of. subst frame. rewrite has_where, has_assign_period by reflexivity.
      exact HL. }
    rewrite (empty_rows _ _ Hg), (empty_rows Launch_Date (where_ _ df) HL).
    unfold cell_of. simpl rows. rewrite Rf.
    rewrite (cell_rows false period df df2 dated cell Hcell Hc Hr).
    destruct (filter (in_cell P false period dated cell df p v) (rows df)); reflexivity.
  - unfold cell_of. subst frame. rewrite !has_where, has_assign_period by reflexivity.
    reflexivity.
  - unfold cell_of. simpl rows. rewrite Rf.
    rewrite (cell_rows false period df df2 dated cell Hcell Hc Hr).
    rewrite map_map. reflexivity.
Qed.


(** The cell [Product] of a row after line 327. *)
Definition recoded_product (row : Row) : option string := recode_product (product row).

Lemma recoded_product_not_blank (row : Row) : recoded_product row <> Some "".
Proof. unfold recoded_product. destruct (product row) as [[|c s]|]; discriminate. Qed.

Lemma product_datasets_spec (df : DataFrame) (periods : list (option string))
  (products : list string) (idx : nat) :
  Forall2 (fun v ds =>
             Dataset.label ds = (if String.eqb v "" then "Unknown" else v)
             /\ Dataset.data ds
                = map (fun period_val =>
                         Py.Int (Py.len (rows (cell_of product period_val v df))))
                      periods)
          products (product_datasets df periods products idx).
Proof.
  revert idx. induction products as [|v t IH]; intros idx; cbn [product_datasets];
    [constructor|].
  destruct (lookup_color product_colors v); constructor; auto.
Qed.

Lemma named_datasets (D : string -> list Py.Number) (products : list string)
  (dss : list Dataset.t) :
  (forall v, In v products -> v <> "") ->
  Forall2 (fun v ds =>
             Dataset.label ds = (if String.eqb v "" then "Unknown" else v)
             /\ Dataset.data ds = D v)
          products dss ->
  map Dataset.label dss = products
  /\ Forall (fun ds => Dataset.data ds = D (Dataset.label ds)) dss.
Proof.
  intros Hne H. induction H as [|v ds vs dss [H1 H2] H IH]; simpl; [split; constructor|].
  destruct IH as [IH1 IH2]; [intros; apply Hne; right; assumption|].
  assert (Ev : Dataset.label ds = v).
  { rewrite H1. destruct (String.eqb_spec v "") as [E | _]; [|reflexivity].
    exfalso. apply (Hne v); [left; reflexivity | exact E]. }
  split; [rewrite Ev, IH1; reflexivity|].
  constructor; [rewrite Ev; exact H2 | exact IH2].
Qed.

Lemma get_product_ratio_rows (df : DataFrame) (period : string) (a : option string)
  (r : Datasets.t) :
  has Launch_Date df = true -> has Product df = true ->
  get_product_ratio P df period a = Py.Ok r ->
  labelled P str_cell (Datasets.labels r)
    (fun k => k <> None
              /\ period_keys P true period
                   (fun row => dated row && passes_status a df row) df k)
  /\ counts_of P period (fun row => dated row && passes_status a df row)
       recoded_product df r.
Proof.
  intros HL HD. unfold get_product_ratio. rewrite HL, HD. simpl negb. simpl orb.
  set (sel := fun row => dated row && passes_status a df row).
  destruct (empty df) eqn:E.
  { intros H. inversion H. unfold counts_of. simpl.
    rewrite (empty_no_rows _ _ HL E). simpl. split; [|split; constructor].
    apply labelled_nil. intros k (_ & row & Hrow & _).
    rewrite (empty_no_rows _ _ HL E) in Hrow. contradiction. }
  set (g := fun r => set_product (recode_product (product r)) r).
  set (df2 := filter_status a (where_ (fun r => notna (launch_date r)) df)).
  set (df3 := assign Product g df2).
  set (df' := mkDataFrame (columns df) (map g (rows df))).
  assert (Hc2 : columns df2 = columns df).
  { subst df2. rewrite columns_filter_status. reflexivity. }
  assert (Hc : columns df3 = columns df').
  { subst df3. rewrite columns_assign_present; [exact Hc2|].
    unfold has. rewrite Hc2. exact HD. }
  assert (Hr : rows df3 = filter sel (rows df')).
  { subst df3 df2 df'. simpl rows. rewrite rows_filter_status_passes. simpl rows.
    rewrite filter_filter, filter_of_map. reflexivity. }
  rewrite rows_assign_period_ratio.
  set (frame_rows := map (fun r => set_period (period_key P true period df3 r) r) (rows df3)).
  set (periods := _sort_periods_chronologically P str_cell _).
  intros H. inversion H. clear H. unfold counts_of. simpl.
  split.
  - destruct (known_periods_of_frame true period df' df3 sel Hc Hr) as (L1 & L2 & L3).
    subst periods frame_rows.
    split; [|split; assumption].
    intros k. rewrite L1. unfold period_keys. subst df'. simpl rows.
    split; intros (Hn & row & Hrow & Hs & Hkey); (split; [exact Hn|]).
    + apply in_map_iff in Hrow as (row0 & <- & Hrow0). exists row0. auto.
    + exists (g row). split; [apply in_map, Hrow | auto].
  - assert (Hp : map product frame_rows = map recoded_product (filter sel (rows df))).
    { subst frame_rows.
      rewrite (cells_of_frame true period df' df3 sel product (fun _ _ => eq_refl) Hr).
      subst df'. simpl rows. rewrite filter_of_map, map_map. reflexivity. }
    rewrite Hp.
    set (products := unique String.eqb (dropna (map recoded_product (filter sel (rows df))))).
    assert (Hne : forall v, In v products -> v <> "").
    { intros v Hv Ev. subst v products.
      apply In_unique, In_dropna, in_map_iff in Hv as (row & Hrow & _).
      exact (recoded_product_not_blank _ Hrow). }
    destruct (named_datasets _ products _ Hne
                (product_datasets_spec (assign_period_ratio P period df3) periods
                   products 0)) as [N1 N2].
    split; [exact N1|].
    eapply Forall_impl; [|exact N2]. intros ds Hds. rewrite Hds.
    apply map_ext. intros p. f_equal.
    unfold count_rows, Py.len, cell_of, where_. simpl rows.
    rewrite rows_assign_period_ratio.
    rewrite (cell_rows true period df' df3 sel product (fun _ _ => eq_refl) Hc Hr).
    rewrite length_map. subst df'. simpl rows. rewrite filter_of_map, length_map.
    reflexivity.
Qed.


Lemma stack_total_counts (period : string) (sel : Row -> bool)
  (cell : Row -> option string) (df : DataFrame) (r : Datasets.t) (i : nat)
  (p : option string) :
  counts_of P period sel cell df r ->
  nth_error (Datasets.labels r) i = Some p ->
  stack_total r i
  = count_rows (fun row => sel row && eq_cell (period_key P true period df row) p
                           && notna (cell row)) df.
Proof.
  intros [Hl Hd] Hp. unfold stack_total.
  rewrite (sum_over_ext _
             (fun ds => count_rows
                          (in_cell P true period sel cell df p (Dataset.label ds)) df)).
  - rewrite <- (sum_over_map
                  (fun v => count_rows (in_cell P true period sel cell df p v) df)
                  Dataset.label).
    rewrite Hl. unfold count_rows, in_cell.
    apply (count_by_key cell
             (fun row => sel row && eq_cell (period_key P true period df row) p)).
    + apply unique_NoDup, String.eqb_eq.
    + intros row v Hrow Hs Hv. apply (unique_In _ String.eqb_eq), In_dropna.
      rewrite <- Hv. apply in_map, filter_In. split; [exact Hrow|].
      apply andb_true_iff in Hs. apply Hs.
  - intros ds Hds. rewrite Forall_forall in Hd. rewrite (Hd ds Hds).
    rewrite nth_error_map, Hp. reflexivity.
Qed.

End Charts.

End DatasetCharts.

(** ** What each chart shows *)

Module ChartContents.
Import pd NotionService AdAnalytics SortFacts NormalizerFacts EngineFacts PeriodKeys.
Import TableFacts ChartRows SeriesCharts DatasetCharts.

(** X8.  The win-rate chart by period, on a table with a Launch Date
    column.  Its labels are the period keys of the rows that have a Launch
    Date, each key once, in chronological order when the keys can be
    compared; the number under a label is the win rate of the rows with a
    Launch Date and that key. *)
Theorem win_rate_by_period_chart (P : API) (df : DataFrame) (period : string)
  (s : Series.t) :
  has Launch_Date df = true ->
  get_win_rate_by_period P df period = Py.Ok s ->
  labelled P Py.str (Series.labels s)
    (fun k => exists r, In r (rows df) /\ dated r = true
                        /\ period_key P false period df r = Some k)
  /\ Forall2 (fun k v =>
                calculate_win_rate
                  (where_ (fun r => dated r
                                    && eq_cell (period_key P false period df r) (Some k)) df)
                = Py.Ok v)
             (Series.labels s) (Series.data s).
Proof. apply win_rate_by_period_rows. Qed.

(** X8, witness: the sample table by month. *)
Lemma win_rate_by_period_chart_witness :
  let s := Series.mk ["Jan 2024"; "Feb 2024"; "Apr 2024"] [Py.Float 50; Py.Float 0; Py.Int 0] in
  get_win_rate_by_period Sample.pandas Sample.table "month" = Py.Ok s
  /\ labelled Sample.pandas Py.str (Series.labels s)
       (fun k => exists r, In r (rows Sample.table) /\ dated r = true
                           /\ period_key Sample.pandas false "month" Sample.table r = Some k)
  /\ Forall2 (fun k v =>
                calculate_win_rate
                  (where_ (fun r => dated r
                                    && eq_cell (period_key Sample.pandas false "month"
                                                  Sample.table r) (Some k)) Sample.table)
                = Py.Ok v)
             (Series.labels s) (Series.data s).
Proof.
  assert (E : get_win_rate_by_period Sample.pandas Sample.table "month"
              = Py.Ok (Series.mk ["Jan 2024"; "Feb 2024"; "Apr 2024"]
                                 [Py.Float 50; Py.Float 0; Py.Int 0]))
    by (vm_compute; reflexivity).
  split; [exact E|].
  exact (win_rate_by_period_chart Sample.pandas Sample.table "month" _ eq_refl E).
Defined.

(** X9.  The volume chart, on a table with a Launch Date column.  Its
    labels are the period keys of the rows it counts (those with a Launch
    Date that pass the status and strategist filters), each key once, in
    chronological order when the keys can be compared; the number under a
    label is the number of counted rows with that key. *)
Theorem creatives_volume_chart (P : API) (df : DataFrame) (period : string)
  (strategist_arg status_arg : option string) (s : Series.t) :
  has Launch_Date df = true ->
  get_creatives_volume P df period strategist_arg status_arg = Py.Ok s ->
  labelled P Py.str (Series.labels s)
    (fun k => exists r, In r (rows df) /\ counted strategist_arg status_arg df r = true
                        /\ period_key P false period df r = Some k)
  /\ Series.data s
     = map (fun k =>
              Py.Int (count_rows
                        (fun r => counted strategist_arg status_arg df r
                                  && eq_cell (period_key P false period df r) (Some k)) df))
           (Series.labels s).
Proof. apply creatives_volume_rows. Qed.

(** X9, witness: the losers of Ben in the sample table, by quarter. *)
Lemma creatives_volume_chart_witness :
  let s := Series.mk ["2024Q1"] [Py.Int 1] in
  get_creatives_volume Sample.pandas Sample.table "quarter" (Some "Ben") (Some "LOSER")
  = Py.Ok s
  /\ labelled Sample.pandas Py.str (Series.labels s)
       (fun k => exists r, In r (rows Sample.table)
                           /\ counted (Some "Ben") (Some "LOSER") Sample.table r = true
                           /\ period_key Sample.pandas false "quarter" Sample.table r = Some k)
  /\ Series.data s
     = map (fun k =>
              Py.Int (count_rows
                        (fun r => counted (Some "Ben") (Some "LOSER") Sample.table r
                                  && eq_cell (period_key Sample.pandas false "quarter"
                                                Sample.table r) (Some k)) Sample.table))
           (Series.labels s).
Proof.
  assert (E : get_creatives_volume Sample.pandas Sample.table "quarter" (Some "Ben")
                (Some "LOSER")
              = Py.Ok (Series.mk ["2024Q1"] [Py.Int 1]))
    by (vm_compute; reflexivity).
  split; [exact E|].
  exact (creatives_volume_chart Sample.pandas Sample.table "quarter" _ _ _ eq_refl E).
Defined.

(** X10.  The numbers of the volume chart add up to the number of counted
    rows that have a period key: no such row is left out and none is
    counted twice. *)
Theorem creatives_volume_total (P : API) (df : DataFrame) (period : string)
  (strategist_arg status_arg : option string) (s : Series.t) :
  has Launch_Date df = true ->
  get_creatives_volume P df period strategist_arg status_arg = Py.Ok s ->
  sum_over whole (Series.data s)
  = count_rows (fun r => counted strategist_arg status_arg df r
                         && notna (period_key P false period df r)) df.
Proof.
  intros HL H.
  destruct (creatives_volume_rows P df period _ _ s HL H) as [(L1 & L2 & _) D].
  rewrite D, sum_over_map. simpl whole.
  apply (count_by_key (period_key P false period df)
           (counted strategist_arg status_arg df)); [exact L2|].
  intros r k Hr Hs Hk. apply L1. eauto.
Qed.

(** X10, witness: the four creatives of the sample table that have a
    Launch Date. *)
Lemma creatives_volume_total_witness :
  sum_over whole [Py.Int 2; Py.Int 1; Py.Int 1]
  = count_rows (fun r => counted None None Sample.table r
                         && notna (period_key Sample.pandas false "month" Sample.table r))
               Sample.table.
Proof.
  apply (creatives_volume_total Sample.pandas Sample.table "month" None None
           (Series.mk ["Jan 2024"; "Feb 2024"; "Apr 2024"] [Py.Int 2; Py.Int 1; Py.Int 1])).
  - reflexivity.
  - vm_compute. reflexivity.
Defined.

(** X11.  The two charts of means, on a table with the Launch Date column
    and the column they average.  The labels of the production-time chart
    are the period keys of the rows with a Launch Date and a production
    time above zero that pass the strategist filter; the number under a
    label is the mean, as pandas computes and rounds it, of the production
    times of those rows with that key: a row with no production time, or
    one of zero or less, is in no mean.  The labels of the editing-time
    chart are the period keys of the rows with a Launch Date and an
    editing duration that pass the editor filter; the number under a label
    is the mean of the durations of those rows with that key, each divided
    by 60: a duration of zero or less is in the mean like any other. *)
Theorem charts_of_means (P : API) (df : DataFrame) (strategist_arg editor_arg : option string)
  (period : string) :
  has Launch_Date df = true ->
  (has Ad_time_to_ready df = true ->
   forall s, get_avg_production_time P df strategist_arg period = Py.Ok s ->
     labelled P Py.str (Series.labels s)
       (fun k => exists r, In r (rows df) /\ timed strategist_arg r = true
                           /\ period_key P false period df r = Some k)
     /\ Series.data s
        = map (fun k =>
                 Py.Float
                   (mean_round2 P
                      (dropna
                         (map ad_time_to_ready
                            (filter (fun r => timed strategist_arg r
                                              && eq_cell (period_key P false period df r)
                                                         (Some k))
                                    (rows df))))))
              (Series.labels s))
  /\ (has Editing_Duration_minutes df = true ->
      forall s, get_avg_editing_time P df editor_arg period = Py.Ok s ->
        labelled P Py.str (Series.labels s)
          (fun k => exists r, In r (rows df) /\ edited editor_arg r = true
                              /\ period_key P false period df r = Some k)
        /\ Series.data s
           = map (fun k =>
                    Py.Float
                      (mean_round2 P
                         (dropna
                            (map editing_duration_hours
                               (filter (fun r => edited editor_arg r
                                                 && eq_cell (period_key P false period df r)
                                                            (Some k))
                                       (rows df))))))
                 (Series.labels s)).
Proof.
  intros HL. split; intros HT s H.
  - apply avg_production_time_rows; assumption.
  - apply avg_editing_time_rows; assumption.
Qed.

(** X11, witness.  Of the two creatives of January one has a production
    time of zero, of the two of February one has none: the means are 3 and
    4 days.  Dan edited the two creatives of February, for 120 minutes and
    for -30 minutes: the mean is 0.75 hours. *)
Lemma charts_of_means_witness :
  let s := Series.mk ["Jan 2024"; "Feb 2024"] [Py.Float 3; Py.Float 4] in
  let s' := Series.mk ["Feb 2024"] [Py.Float (3 # 4)] in
  get_avg_production_time Sample.pandas Timesheet.table None "month" = Py.Ok s
  /\ Series.data s
     = map (fun k =>
              Py.Float
                (mean_round2 Sample.pandas
                   (dropna
                      (map ad_time_to_ready
                         (filter (fun r => timed None r
                                           && eq_cell (period_key Sample.pandas false "month"
                                                         Timesheet.table r) (Some k))
                                 (rows Timesheet.table))))))
           (Series.labels s)
  /\ get_avg_editing_time Sample.pandas Timesheet.table (Some "Dan") "month" = Py.Ok s'
  /\ Series.data s'
     = map (fun k =>
              Py.Float
                (mean_round2 Sample.pandas
                   (dropna
                      (map editing_duration_hours
                         (filter (fun r => edited (Some "Dan") r
                                           && eq_cell (period_key Sample.pandas false "month"
                                                         Timesheet.table r) (Some k))
                                 (rows Timesheet.table))))))
           (Series.labels s').
Proof.
  assert (E : get_avg_production_time Sample.pandas Timesheet.table None "month"
              = Py.Ok (Series.mk ["Jan 2024"; "Feb 2024"] [Py.Float 3; Py.Float 4]))
    by (vm_compute; reflexivity).
  assert (E' : get_avg_editing_time Sample.pandas Timesheet.table (Some "Dan") "month"
               = Py.Ok (Series.mk ["Feb 2024"] [Py.Float (3 # 4)]))
    by (vm_compute; reflexivity).
  destruct (charts_of_means Sample.pandas Timesheet.table None (Some "Dan") "month" eq_refl)
    as [H H'].
  split; [exact E|]. split; [exact (proj2 (H eq_refl _ E))|].
  split; [exact E'|]. exact (proj2 (H' eq_refl _ E')).
Defined.

(** X12.  The product chart and the volume chart agree.  For any period
    but ["week"], with the same status filter and no strategist, both
    charts have the same labels, and under each label the bars of the
    product chart add up to the number of the volume chart. *)
Theorem product_bars_stack_to_volume (P : API) (df : DataFrame) (period : string)
  (status_arg : option string) (s : Series.t) (r : Datasets.t) :
  period <> "week" ->
  has Launch_Date df = true -> has Product df = true ->
  get_creatives_volume P df period None status_arg = Py.Ok s ->
  get_product_ratio P df period status_arg = Py.Ok r ->
  (forall k, In k (Series.labels s) <-> In (Some k) (Datasets.labels r))
  /\ forall i j k,
       nth_error (Series.labels s) i = Some k ->
       nth_error (Datasets.labels r) j = Some (Some k) ->
       option_map whole (nth_error (Series.data s) i) = Some (stack_total r j).
Proof.
  intros Hw HL HD Hs Hr.
  assert (K : forall row, period_key P false period df row = period_key P true period df row).
  { intros row. unfold period_key. apply String.eqb_neq in Hw. rewrite Hw. reflexivity. }
  assert (C : forall row,
             counted None status_arg df row = dated row && passes_status status_arg df row).
  { intros row. unfold counted. simpl. apply andb_true_r. }
  destruct (creatives_volume_rows P df period None status_arg s HL Hs) as [(L1 & _) D].
  destruct (get_product_ratio_rows P df period status_arg r HL HD Hr) as [(M1 & _) Cn].
  split.
  - intros k. rewrite L1, M1. unfold period_keys. split.
    + intros (row & H1 & H2 & H3). split; [discriminate|].
      exists row. rewrite <- C, <- K. auto.
    + intros (_ & row & H1 & H2 & H3). exists row. rewrite C, K. auto.
  - intros i j k Hi Hj.
    rewrite D, nth_error_map, Hi. simpl. f_equal.
    rewrite (stack_total_counts P period _ recoded_product df r j (Some k) Cn Hj).
    unfold count_rows. erewrite filter_ext; [reflexivity|]. intros row.
    rewrite C, K. unfold recoded_product.
    destruct (product row) as [[|c0 s0]|]; simpl; rewrite andb_true_r; reflexivity.
Qed.

(** X12, witness: January 2024 in the sample table, two creatives. *)
Lemma product_bars_witness :
  option_map whole (nth_error [Py.Int 2; Py.Int 1; Py.Int 1] 0)
  = Some (stack_total
            (Datasets.mk [Some "Jan 2024"; Some "Feb 2024"; Some "Apr 2024"]
               [Dataset.mk "V34" [Py.Int 1; Py.Int 1; Py.Int 0] None None (Some "#9966FF");
                Dataset.mk "Unknown" [Py.Int 1; Py.Int 0; Py.Int 0] None None
                  (Some "#FF6384");
                Dataset.mk "Whitening Kit" [Py.Int 0; Py.Int 0; Py.Int 1] None None
                  (Some "#36A2EB")])
            0).
Proof.
  destruct (product_bars_stack_to_volume Sample.pandas Sample.table "month" None
              (Series.mk ["Jan 2024"; "Feb 2024"; "Apr 2024"] [Py.Int 2; Py.Int 1; Py.Int 1])
              (Datasets.mk [Some "Jan 2024"; Some "Feb 2024"; Some "Apr 2024"]
                 [Dataset.mk "V34" [Py.Int 1; Py.Int 1; Py.Int 0] None None (Some "#9966FF");
                  Dataset.mk "Unknown" [Py.Int 1; Py.Int 0; Py.Int 0] None None
                    (Some "#FF6384");
                  Dataset.mk "Whitening Kit" [Py.Int 0; Py.Int 0; Py.Int 1] None None
                    (Some "#36A2EB")]))
    as [_ H].
  - discriminate.
  - reflexivity.
  - reflexivity.
  - vm_compute. reflexivity.
  - vm_compute. reflexivity.
  - apply (H 0%nat 0%nat "Jan 2024"); reflexivity.
Defined.

(** X13.  The win-rate charts by strategist, product and ad type, on a
    table with the Launch Date column and the column of the dimension.
    The labels are the period keys of the rows that have a Launch Date,
    each once, in chronological order when the keys can be compared; there
    is one dataset per value of the dimension among those rows, in the
    order the values are first met; and the number of a dataset under a
    label is the win rate of the rows with a Launch Date, that key and
    that value. *)
Theorem win_rate_by_dimension_charts (P : API) (df : DataFrame) (period : string) :
  has Launch_Date df = true ->
  (has Strategist df = true ->
   forall r, get_win_rate_by_strategist P df period = Py.Ok r ->
     labelled P str_cell (Datasets.labels r) (period_keys P false period dated df)
     /\ rates_of P period dated strategist df r)
  /\ (has Product df = true ->
      forall r, get_win_rate_by_product P df period = Py.Ok r ->
        labelled P str_cell (Datasets.labels r) (period_keys P false period dated df)
        /\ rates_of P period dated product df r)
  /\ (has Type_ df = true ->
      forall r, get_win_rate_by_ad_type P df period = Py.Ok r ->
        labelled P str_cell (Datasets.labels r) (period_keys P false period dated df)
        /\ rates_of P period dated type_ df r).
Proof.
  intros HL. split; [|split]; intros HD r H;
    eapply win_rate_by_rows; eauto; reflexivity.
Qed.

(** X13, witness: the sample table by strategist and month. *)
Lemma win_rate_by_dimension_witness :
  let r := Datasets.mk [Some "Jan 2024"; Some "Feb 2024"; Some "Apr 2024"]
             [Dataset.mk "Ana" [Py.Float 100; Py.Float 0; Py.Int 0] (Some 2) (Some false) None;
              Dataset.mk "Ben" [Py.Float 0; Py.Int 0; Py.Int 0] (Some 2) (Some false) None] in
  get_win_rate_by_strategist Sample.pandas Sample.table "month" = Py.Ok r
  /\ labelled Sample.pandas str_cell (Datasets.labels r)
       (period_keys Sample.pandas false "month" dated Sample.table)
  /\ rates_of Sample.pandas "month" dated strategist Sample.table r.
Proof.
  assert (E : get_win_rate_by_strategist Sample.pandas Sample.table "month"
              = Py.Ok (Datasets.mk [Some "Jan 2024"; Some "Feb 2024"; Some "Apr 2024"]
                         [Dataset.mk "Ana" [Py.Float 100; Py.Float 0; Py.Int 0]
                            (Some 2) (Some false) None;
                          Dataset.mk "Ben" [Py.Float 0; Py.Int 0; Py.Int 0]
                            (Some 2) (Some false) None]))
    by (vm_compute; reflexivity).
  split; [exact E|].
  destruct (win_rate_by_dimension_charts Sample.pandas Sample.table "month" eq_refl)
    as [H _].
  exact (H eq_refl _ E).
Defined.

(** X14.  The ratio charts by ad type and by format, on a table with the
    Launch Date column and the column of the dimension.  The labels are
    the period keys of the rows that have a Launch Date and pass the
    status filter, each once, in chronological order when the keys can be
    compared; there is one dataset per value of the dimension among those
    rows, in the order the values are first met; and the number of a
    dataset under a label is the number of those rows with that key and
    that value. *)
Theorem ratio_charts (P : API) (df : DataFrame) (period : string)
  (status_arg : option string) :
  has Launch_Date df = true ->
  (has Type_ df = true ->
   forall r, get_ad_type_ratio P df period status_arg = Py.Ok r ->
     labelled P str_cell (Datasets.labels r)
       (period_keys P true period (fun row => dated row && passes_status status_arg df row) df)
     /\ counts_of P period (fun row => dated row && passes_status status_arg df row)
          type_ df r)
  /\ (has Format df = true ->
      forall r, get_format_ratio P df period status_arg = Py.Ok r ->
        labelled P str_cell (Datasets.labels r)
          (period_keys P true period
             (fun row => dated row && passes_status status_arg df row) df)
        /\ counts_of P period (fun row => dated row && passes_status status_arg df row)
             format df r).
Proof.
  intros HL. split; intros HD r H; eapply ratio_by_rows; eauto; reflexivity.
Qed.

(** X14, witness: the winners of the sample table by format and quarter. *)
Lemma ratio_charts_witness :
  let r := Datasets.mk [Some "2024Q1"]
             [Dataset.mk "9:16" [Py.Int 1] None None (Some "#FF6384")] in
  get_format_ratio Sample.pandas Sample.table "quarter" (Some "winner") = Py.Ok r
  /\ labelled Sample.pandas str_cell (Datasets.labels r)
       (period_keys Sample.pandas true "quarter"
          (fun row => dated row && passes_status (Some "winner") Sample.table row)
          Sample.table)
  /\ counts_of Sample.pandas "quarter"
       (fun row => dated row && passes_status (Some "winner") Sample.table row)
       format Sample.table r.
Proof.
  assert (E : get_format_ratio Sample.pandas Sample.table "quarter" (Some "winner")
              = Py.Ok (Datasets.mk [Some "2024Q1"]
                         [Dataset.mk "9:16" [Py.Int 1] None None (Some "#FF6384")]))
    by (vm_compute; reflexivity).
  split; [exact E|].
  destruct (ratio_charts Sample.pandas Sample.table "quarter" (Some "winner") eq_refl)
    as [_ H].
  exact (H eq_refl _ E).
Defined.

(** X15.  The product ratio chart, on a table with the Launch Date and
    Product columns.  The labels are the period keys, those that are not
    missing, of the rows that have a Launch Date and pass the status
    filter; there is one dataset per product among those rows, an empty or
    missing product read as "Unknown"; and the number of a dataset under a
    label is the number of those rows with that key and that product. *)
Theorem product_ratio_chart (P : API) (df : DataFrame) (period : string)
  (status_arg : option string) (r : Datasets.t) :
  has Launch_Date df = true -> has Product df = true ->
  get_product_ratio P df period status_arg = Py.Ok r ->
  labelled P str_cell (Datasets.labels r)
    (fun k => k <> None
              /\ period_keys P true period
                   (fun row => dated row && passes_status status_arg df row) df k)
  /\ counts_of P period (fun row => dated row && passes_status status_arg df row)
       recoded_product df r.
Proof. apply get_product_ratio_rows. Qed.

(** X15, witness: the sample table by month; its second creative has an
    empty Product. *)
Lemma product_ratio_chart_witness :
  let r := Datasets.mk [Some "Jan 2024"; Some "Feb 2024"; Some "Apr 2024"]
             [Dataset.mk "V34" [Py.Int 1; Py.Int 1; Py.Int 0] None None (Some "#9966FF");
              Dataset.mk "Unknown" [Py.Int 1; Py.Int 0; Py.Int 0] None None (Some "#FF6384");
              Dataset.mk "Whitening Kit" [Py.Int 0; Py.Int 0; Py.Int 1] None None
                (Some "#36A2EB")] in
  get_product_ratio Sample.pandas Sample.table "month" None = Py.Ok r
  /\ labelled Sample.pandas str_cell (Datasets.labels r)
       (fun k => k <> None
                 /\ period_keys Sample.pandas true "month"
                      (fun row => dated row && passes_status None Sample.table row)
                      Sample.table k)
  /\ counts_of Sample.pandas "month"
       (fun row => dated row && passes_status None Sample.table row)
       recoded_product Sample.table r.
Proof.
  assert (E : get_product_ratio Sample.pandas Sample.table "month" None
              = Py.Ok (Datasets.mk [Some "Jan 2024"; Some "Feb 2024"; Some "Apr 2024"]
                         [Dataset.mk "V34" [Py.Int 1; Py.Int 1; Py.Int 0] None None
                            (Some "#9966FF");
                          Dataset.mk "Unknown" [Py.Int 1; Py.Int 0; Py.Int 0] None None
                            (Some "#FF6384");
                          Dataset.mk "Whitening Kit" [Py.Int 0; Py.Int 0; Py.Int 1] None None
                            (Some "#36A2EB")]))
    by (vm_compute; reflexivity).
  split; [exact E|].
  exact (product_ratio_chart Sample.pandas Sample.table "month" None _ eq_refl eq_refl E).
Defined.

(** X16.  The bars of a ratio chart add up.  Under each label the numbers
    of the datasets of the ad-type chart add up to the number of rows of
    that period (with a Launch Date, passing the status filter) that have
    an ad type, and likewise for the format chart; in the product chart
    they add up to the number of all rows of that period, since a row
    without a product is counted under "Unknown". *)
Theorem ratio_stacks_add_up (P : API) (df : DataFrame) (period : string)
  (status_arg : option string) (i : nat) (p : option string) :
  has Launch_Date df = true ->
  (has Type_ df = true ->
   forall r, get_ad_type_ratio P df period status_arg = Py.Ok r ->
     nth_error (Datasets.labels r) i = Some p ->
     stack_total r i
     = count_rows (fun row => dated row && passes_status status_arg df row
                              && eq_cell (period_key P true period df row) p
                              && notna (type_ row)) df)
  /\ (has Format df = true ->
      forall r, get_format_ratio P df period status_arg = Py.Ok r ->
        nth_error (Datasets.labels r) i = Some p ->
        stack_total r i
        = count_rows (fun row => dated row && passes_status status_arg df row
                                 && eq_cell (period_key P true period df row) p
                                 && notna (format row)) df)
  /\ (has Product df = true ->
      forall r, get_product_ratio P df period status_arg = Py.Ok r ->
        nth_error (Datasets.labels r) i = Some p ->
        stack_total r i
        = count_rows (fun row => dated row && passes_status status_arg df row
                                 && eq_cell (period_key P true period df row) p) df).
Proof.
  intros HL. split; [|split]; intros HD r H Hp.
  - destruct (ratio_by_rows P Type_ type_ df period status_arg r
                (fun _ _ => eq_refl) HL HD H) as [_ C].
    apply (stack_total_counts P period _ type_ df r i p C Hp).
  - destruct (ratio_by_rows P Format format df period status_arg r
                (fun _ _ => eq_refl) HL HD H) as [_ C].
    apply (stack_total_counts P period _ format df r i p C Hp).
  - destruct (get_product_ratio_rows P df period status_arg r HL HD H) as [_ C].
    rewrite (stack_total_counts P period _ recoded_product df r i p C Hp).
    unfold count_rows. erewrite filter_ext; [reflexivity|]. intros row.
    unfold recoded_product. destruct (product row) as [[|c s]|]; apply andb_true_r.
Qed.

(** X16, witness: the two creatives of January 2024 in the product chart
    of the sample table, one under "V34" and one under "Unknown". *)
Lemma ratio_stacks_add_up_witness :
  stack_total
    (Datasets.mk [Some "Jan 2024"; Some "Feb 2024"; Some "Apr 2024"]
       [Dataset.mk "V34" [Py.Int 1; Py.Int 1; Py.Int 0] None None (Some "#9966FF");
        Dataset.mk "Unknown" [Py.Int 1; Py.Int 0; Py.Int 0] None None (Some "#FF6384");
        Dataset.mk "Whitening Kit" [Py.Int 0; Py.Int 0; Py.Int 1] None None
          (Some "#36A2EB")])
    0
  = count_rows (fun row => dated row && passes_status None Sample.table row
                           && eq_cell (period_key Sample.pandas true "month"
                                         Sample.table row) (Some "Jan 2024"))
               Sample.table.
Proof.
  destruct (ratio_stacks_add_up Sample.pandas Sample.table "month" None 0
              (Some "Jan 2024") eq_refl) as (_ & _ & H).
  apply (H eq_refl); [vm_compute; reflexivity | reflexivity].
Defined.

End ChartContents.

(** ** When a chart raises *)

Module ChartErrors.
Import pd NotionService AdAnalytics SortFacts NormalizerFacts EngineFacts PeriodKeys.
Import TableFacts ChartRows SeriesCharts DatasetCharts.

Lemma for_each_Raise {A B} (f : A -> Py.Result B) (l : list A) (e : Py.Exn) :
  Py.for_each f l = Py.Raise e -> exists x, In x l /\ f x = Py.Raise e.
Proof.
  induction l as [|x t IH]; simpl; [discriminate|].
  destruct (f x) as [y|e'] eqn:E; simpl.
  - destruct (Py.for_each f t) as [ys|e'']; simpl; [discriminate|].
    intros H. inversion H. subst. destruct (IH eq_refl) as (z & Hz & Fz). eauto.
  - intros H. inversion H. subst. eauto.
Qed.

Lemma for_each_Ok_or_Raise {A B} (f : A -> Py.Result B) (l : list A) :
  (exists l', Py.for_each f l = Py.Ok l' /\ forall x, In x l -> exists y, f x = Py.Ok y)
  \/ (exists e, Py.for_each f l = Py.Raise e).
Proof.
  induction l as [|x t IH]; simpl.
  - left. exists []. split; [reflexivity | contradiction].
  - destruct (f x) as [y|e] eqn:E; simpl; [|right; eauto].
    destruct IH as [(l' & H & Hall) | (e & H)]; rewrite H; simpl.
    + left. exists (y :: l'). split; [reflexivity|].
      intros z [<- | Hz]; [eauto | apply Hall, Hz].
    + right. eauto.
Qed.

(** A loop whose steps can only raise [e0] raises [e0] exactly when one of
    its steps does. *)
Lemma for_each_raises {A B} (f : A -> Py.Result B) (l : list A) (e0 e : Py.Exn) :
  (forall x e', In x l -> f x = Py.Raise e' -> e' = e0) ->
  Py.for_each f l = Py.Raise e <-> e = e0 /\ exists x, In x l /\ f x = Py.Raise e0.
Proof.
  intros H0. split.
  - intros H. destruct (for_each_Raise f l e H) as (x & Hx & Fx).
    assert (e = e0) by (eapply H0; eauto). subst. eauto.
  - intros [-> (x & Hx & Fx)].
    destruct (for_each_Ok_or_Raise f l) as [(l' & _ & Hall) | (e & H)].
    + destruct (Hall x Hx) as [y Hy]. rewrite Hy in Fx. discriminate.
    + destruct (for_each_Raise f l e H) as (z & Hz & Fz).
      rewrite H. f_equal. eapply H0; eauto.
Qed.

Lemma calculate_win_rate_raises (df : DataFrame) (e : Py.Exn) :
  calculate_win_rate df = Py.Raise e
  <-> empty df = false /\ has Status df = false /\ e = Py.KeyError "Status".
Proof.
  unfold calculate_win_rate. destruct (empty df).
  { split; [discriminate | intros (H & _); discriminate]. }
  destruct (has Status df); simpl.
  - destruct (_ =? 0); split; try discriminate; intros (_ & H & _); discriminate.
  - split; [intros H; inversion H; auto | intros (_ & _ & ->); reflexivity].
Qed.

Section Errors.
Variable P : API.

Lemma sorted_series_by_period (metric : DataFrame -> Py.Number) (df : DataFrame) :
  exists s, sorted_series P (by_period metric df) = Py.Ok s.
Proof. rewrite by_period_map, sorted_series_map. eauto. Qed.

Lemma filter_by_raises (c : Column) (cell : Row -> option string) (a : option string)
  (df : DataFrame) (e : Py.Exn) :
  filter_by c cell a df = Py.Raise e
  <-> Py.truthy a = true /\ has c df = false /\ e = Py.KeyError (header c).
Proof.
  unfold filter_by. destruct a as [v|].
  - destruct (Py.truthy (Some v)).
    + destruct (has c df); split; try discriminate.
      * intros (_ & H & _). discriminate.
      * intros H. inversion H. auto.
      * intros (_ & _ & ->). reflexivity.
    + split; [discriminate | intros (H & _); discriminate].
  - split; [discriminate | intros (H & _); discriminate].
Qed.

End Errors.


Section StatusErrors.
Variable P : API.

Lemma getitem_fst {V} (d : list (string * V)) (k : string) :
  In k (map fst d) -> exists v, getitem d k = Py.Ok v.
Proof.
  induction d as [|[k' v] d IH]; simpl; [contradiction|].
  intros H. destruct (String.eqb_spec k k') as [-> | N]; [eauto|].
  destruct H as [-> | H]; [contradiction | apply IH, H].
Qed.

Lemma for_each_Ok {A B} (f : A -> Py.Result B) (l : list A) :
  (forall x, In x l -> exists y, f x = Py.Ok y) -> exists l', Py.for_each f l = Py.Ok l'.
Proof.
  intros H. destruct (for_each_Ok_or_Raise f l) as [(l' & E & _) | (e & E)]; [eauto|].
  destruct (for_each_Raise f l e E) as (x & Hx & Fx).
  destruct (H x Hx) as [y Hy]. rewrite Hy in Fx. discriminate.
Qed.

Lemma no_rows_empty (df : DataFrame) : rows df = [] -> empty df = true.
Proof. intros E. unfold empty. rewrite E. destruct (columns df); reflexivity. Qed.

Lemma rows_not_empty (c : Column) (df : DataFrame) (r : Row) :
  has c df = true -> In r (rows df) -> empty df = false.
Proof.
  intros H Hr. rewrite (empty_rows c df H). destruct (rows df); [contradiction | reflexivity].
Qed.

Lemma get_win_rate_by_period_raises (df : DataFrame) (period : string) (e : Py.Exn) :
  get_win_rate_by_period P df period = Py.Raise e
  <-> has Launch_Date df = true /\ has Status df = false
      /\ (exists r k, In r (rows df) /\ dated r = true
                      /\ period_key P false period df r = Some k)
      /\ e = Py.KeyError "Status".
Proof.
  unfold get_win_rate_by_period.
  destruct (has Launch_Date df) eqn:HL; simpl;
    [|split; [discriminate | intros (H & _); discriminate]].
  destruct (empty df) eqn:E.
  { split; [discriminate|]. intros (_ & _ & (r & k & Hr & _) & _).
    rewrite (empty_no_rows _ _ HL E) in Hr. contradiction. }
  set (df2 := where_ (fun r => notna (launch_date r)) df).
  set (frame := assign_period P period df2).
  assert (Rf : rows frame
               = map (fun r => set_period (period_key P false period df2 r) r) (rows df2))
    by apply rows_assign_period.
  assert (Hf : forall c, Column_beq c Period = false -> has c frame = has c df).
  { intros c Hc. subst frame. rewrite has_assign_period by exact Hc. reflexivity. }
  assert (Step : forall x e',
             In x (groupby_Period frame) ->
             (let '(period_val, group) := x in
              rate <- calculate_win_rate group ;; Py.Ok (period_val, rate)) = Py.Raise e'
             <-> has Status df = false /\ e' = Py.KeyError "Status").
  { intros [k g] e' Hx. unfold groupby_Period in Hx.
    apply in_map_iff in Hx as (k0 & Ek & Hk). inversion Ek. subst k0 g. clear Ek.
    assert (Ne : empty (where_ (fun r => eq_cell (pd.period r) (Some k)) frame) = false).
    { apply In_group_keys, in_map_iff in Hk as (r & Er & Hr).
      apply (rows_not_empty Launch_Date _ r).
      - rewrite has_where. rewrite Hf by reflexivity. exact HL.
      - simpl. apply filter_In. split; [exact Hr|]. rewrite Er. simpl.
        apply String.eqb_refl. }
    destruct (calculate_win_rate _) as [v|e''] eqn:C; simpl.
    - split; [discriminate|]. intros (Hs & _).
      assert (R : calculate_win_rate
                    (where_ (fun r => eq_cell (pd.period r) (Some k)) frame)
                  = Py.Raise (Py.KeyError "Status")).
      { apply calculate_win_rate_raises. rewrite has_where, Hf by reflexivity. auto. }
      rewrite R in C. discriminate.
    - apply calculate_win_rate_raises in C. destruct C as (_ & Hs & ->).
      rewrite has_where, Hf in Hs by reflexivity.
      split; [intros H; inversion H; auto | intros (_ & ->); reflexivity]. }
  destruct (Py.for_each _ (groupby_Period frame)) as [result|e'] eqn:F; simpl.
  - destruct (for_each_Ok (getitem result)
                (_sort_periods_chronologically P Py.str (map fst result))) as [data D].
    { intros k Hk. apply getitem_fst. exact (proj1 (nsort_In P Py.str _ k) Hk). }
    rewrite D. simpl. split; [discriminate|].
    intros (_ & Hs & (r & k & Hr & Hd & Hk) & _).
    assert (Hin : In k (group_keys (map pd.period (rows frame)))).
    { apply In_group_keys. rewrite Rf.
      apply (keys_of_selection P false period df df2 dated (Some k)); [reflexivity..|].
      eauto. }
    rewrite <- groupby_Period_keys in Hin. apply in_map_iff in Hin as (x & Ex & Hx).
    destruct (for_each_Ok_or_Raise
                (fun '(period_val, group) =>
                   rate <- calculate_win_rate group ;; Py.Ok (period_val, rate))
                (groupby_Period frame)) as [(l' & _ & Hall) | (e'' & H)].
    + destruct (Hall x Hx) as [y Hy].
      assert (R : (let '(period_val, group) := x in
                   rate <- calculate_win_rate group ;; Py.Ok (period_val, rate))
                  = Py.Raise (Py.KeyError "Status")) by (apply Step; auto).
      rewrite R in Hy. discriminate.
    + rewrite H in F. discriminate.
  - destruct (for_each_Raise _ _ _ F) as (x & Hx & Fx).
    apply (Step x e' Hx) in Fx. destruct Fx as (Hs & ->).
    split; [|intros (_ & _ & _ & ->); reflexivity].
    intros H. inversion H. subst e. repeat (split; [auto; fail|]).
    split; [|reflexivity].
    unfold groupby_Period in Hx. apply in_map_iff in Hx as (k & _ & Hk).
    apply In_group_keys in Hk. rewrite Rf in Hk.
    apply (keys_of_selection P false period df df2 dated (Some k)) in Hk; [|reflexivity..].
    destruct Hk as (r & Hr & Hd & Hk). eauto.
Qed.

Lemma eq_cell_true (a b : option string) : eq_cell a b = true -> a = b /\ notna a = true.
Proof.
  destruct a as [x|], b as [y|]; simpl; try discriminate.
  intros H. apply String.eqb_eq in H. subst. auto.
Qed.

Lemma win_rate_by_raises (dim : Column) (cell : Row -> option string)
  (df : DataFrame) (period : string) (e : Py.Exn) :
  (forall x row, cell (set_period x row) = cell row) ->
  win_rate_by P dim cell df period = Py.Raise e
  <-> has Launch_Date df = true /\ has dim df = true /\ has Status df = false
      /\ (exists r k v, In r (rows df) /\ dated r = true
                        /\ period_key P false period df r = Some k /\ cell r = Some v)
      /\ e = Py.KeyError "Status".
Proof.
  intros Hcell. unfold win_rate_by.
  destruct (has Launch_Date df) eqn:HL; simpl;
    [|split; [discriminate | intros (H & _); discriminate]].
  destruct (has dim df) eqn:HD; simpl;
    [|split; [discriminate | intros (_ & H & _); discriminate]].
  destruct (empty df) eqn:E.
  { split; [discriminate|]. intros (_ & _ & _ & (r & k & v & Hr & _) & _).
    rewrite (empty_no_rows _ _ HL E) in Hr. contradiction. }
  set (df2 := where_ (fun r => notna (launch_date r)) df).
  assert (Hc : columns df2 = columns df) by reflexivity.
  assert (Hr : rows df2 = filter dated (rows df)) by reflexivity.
  set (frame := assign_period P period df2).
  assert (Rf : rows frame
               = map (fun r => set_period (period_key P false period df2 r) r) (rows df2))
    by apply rows_assign_period.
  assert (Hf : forall c, Column_beq c Period = false -> has c frame = has c df).
  { intros c Hc'. subst frame. rewrite has_assign_period by exact Hc'. reflexivity. }
  rewrite Rf.
  set (periods := _sort_periods_chronologically P str_cell _).
  set (values := unique String.eqb _).
  assert (Cell : forall p v,
             rows (cell_of cell p v frame)
             = map (fun r => set_period (period_key P false period df r) r)
                   (filter (in_cell P false period dated cell df p v) (rows df))).
  { intros p v. unfold cell_of. simpl rows. rewrite Rf.
    apply (cell_rows P false period df df2 dated cell Hcell Hc Hr). }
  assert (Inner : forall p v e',
             calculate_win_rate (cell_of cell p v frame) = Py.Raise e'
             <-> (exists r, In r (rows df) /\ in_cell P false period dated cell df p v r = true)
                 /\ has Status df = false /\ e' = Py.KeyError "Status").
  { intros p v e'. rewrite calculate_win_rate_raises.
    unfold cell_of at 2. rewrite has_where, Hf by reflexivity.
    assert (Hg : has Launch_Date (cell_of cell p v frame) = true).
    { unfold cell_of. rewrite has_where, Hf by reflexivity. exact HL. }
    rewrite (empty_rows _ _ Hg), Cell.
    destruct (filter (in_cell P false period dated cell df p v) (rows df))
      as [|r0 l0] eqn:Ef; simpl.
    - split; [intros (H & _); discriminate|]. intros ((r & Hin & Hs) & _).
      assert (Hx : In r []) by (rewrite <- Ef; apply filter_In; auto). contradiction.
    - split; intros (_ & H2 & H3); (split; [|auto]); [|reflexivity].
      exists r0. apply filter_In. rewrite Ef. left. reflexivity. }
  assert (Step : forall v e',
             (data <- Py.for_each
                        (fun period_val =>
                           calculate_win_rate (cell_of cell period_val v frame)) periods ;;
              Py.Ok (Dataset.mk v data (Some 2) (Some false) None)) = Py.Raise e'
             <-> e' = Py.KeyError "Status"
                 /\ exists p, In p periods
                              /\ calculate_win_rate (cell_of cell p v frame)
                                 = Py.Raise (Py.KeyError "Status")).
  { intros v e'.
    rewrite <- (for_each_raises
                  (fun period_val => calculate_win_rate (cell_of cell period_val v frame))
                  periods (Py.KeyError "Status") e').
    - destruct (Py.for_each _ periods); simpl; split; try discriminate;
        intros H; inversion H; reflexivity.
    - intros p e'' _ H. apply Inner in H. apply H. }
  assert (Outer : forall e',
             Py.for_each
               (fun v =>
                  data <- Py.for_each
                            (fun period_val =>
                               calculate_win_rate (cell_of cell period_val v frame))
                            periods ;;
                  Py.Ok (Dataset.mk v data (Some 2) (Some false) None)) values
             = Py.Raise e'
             <-> e' = Py.KeyError "Status"
                 /\ exists v, In v values
                    /\ exists p, In p periods
                       /\ calculate_win_rate (cell_of cell p v frame)
                          = Py.Raise (Py.KeyError "Status")).
  { intros e'. rewrite (for_each_raises _ values (Py.KeyError "Status") e').
    - split; intros (He & v & Hv & H); (split; [exact He|]); exists v; (split; [exact Hv|]).
      + apply Step in H. apply H.
      + apply Step. auto.
    - intros v e'' _ H. apply Step in H. apply H. }
  destruct (Py.for_each _ values) as [datasets|e'] eqn:F; simpl.
  - split; [discriminate|].
    intros (_ & _ & Hs & (r & k & v & Hin & Hd & Hk & Hv) & _).
    assert (R : Py.Ok datasets = Py.Raise (Py.KeyError "Status")).
    { apply Outer. split; [reflexivity|]. exists v. split.
      - subst values. apply (unique_In _ String.eqb_eq), In_dropna.
        rewrite (cells_of_frame P false period df df2 dated cell Hcell Hr).
        rewrite <- Hv. apply in_map, filter_In. auto.
      - exists (Some k). split.
        + destruct (periods_of_frame P false period df df2 dated Hc Hr) as (L1 & _).
          apply L1. exists r. auto.
        + apply Inner. split; [|auto]. exists r. split; [exact Hin|].
          unfold in_cell. rewrite Hd, Hk, Hv. simpl. rewrite !String.eqb_refl. reflexivity. }
    discriminate R.
  - destruct (proj1 (Outer e') eq_refl) as (-> & v & Hv & p & Hp & C).
    apply Inner in C. destruct C as ((r & Hin & Hs) & HS & _).
    split; [|intros (_ & _ & _ & _ & ->); reflexivity].
    intros H. inversion H. subst e. repeat (split; [auto; fail|]).
    split; [|reflexivity].
    unfold in_cell in Hs. apply andb_true_iff in Hs. destruct Hs as [Hs Hv'].
    apply andb_true_iff in Hs. destruct Hs as [Hd Hk].
    apply eq_cell_true in Hk. destruct Hk as [Hk Hn].
    apply eq_cell_true in Hv'. destruct Hv' as [Hv' _].
    destruct (period_key P false period df r) as [k|] eqn:K; [|discriminate].
    exists r, k, v. auto.
Qed.

End StatusErrors.

(** X17.  The charts that take a strategist or an editor raise on one
    occasion only: the filter is asked for and the table lacks its column.
    Then the exception is [KeyError] on that column.  The volume chart
    checks first that the table has a Launch Date column and rows, the two
    charts of means that it has the columns they read; the chart of the
    mean production time also returns before the filter when no row has a
    Launch Date and a production time above zero. *)
Theorem filter_argument_errors (P : API) (df : DataFrame) (period : string)
  (strategist_arg editor_arg status_arg : option string) (e : Py.Exn) :
  (get_creatives_volume P df period strategist_arg status_arg = Py.Raise e
   <-> has Launch_Date df = true /\ empty df = false
       /\ Py.truthy strategist_arg = true /\ has Strategist df = false
       /\ e = Py.KeyError "Strategist")
  /\ (get_avg_editing_time P df editor_arg period = Py.Raise e
      <-> has Editing_Duration_minutes df = true /\ has Launch_Date df = true
          /\ Py.truthy editor_arg = true /\ has Editor_Designer df = false
          /\ e = Py.KeyError "Editor/Designer")
  /\ (get_avg_production_time P df strategist_arg period = Py.Raise e
      <-> has Ad_time_to_ready df = true /\ has Launch_Date df = true
          /\ (exists r, In r (rows df) /\ timed None r = true)
          /\ Py.truthy strategist_arg = true /\ has Strategist df = false
          /\ e = Py.KeyError "Strategist").
Proof.
  split; [|split].
  - unfold get_creatives_volume.
    destruct (has Launch_Date df); simpl;
      [|split; [discriminate | intros (H & _); discriminate]].
    destruct (empty df); simpl;
      [split; [discriminate | intros (_ & H & _); discriminate]|].
    set (df2 := filter_status _ _).
    destruct (filter_by Strategist strategist strategist_arg df2) as [df3|e'] eqn:F; simpl.
    + destruct (sorted_series_by_period P
                  (fun group => Py.Int (Py.len (rows group)))
                  (assign_period P period df3)) as [s Hs].
      rewrite Hs. split; [discriminate|]. intros (_ & _ & Ht & Hc & _).
      assert (R : filter_by Strategist strategist strategist_arg df2
                  = Py.Raise (Py.KeyError (header Strategist))).
      { apply filter_by_raises. subst df2. rewrite has_filter_status. auto. }
      rewrite R in F. discriminate.
    + apply filter_by_raises in F. destruct F as (Ht & Hc & ->).
      subst df2. rewrite has_filter_status in Hc. simpl in Hc.
      split; [intros H; inversion H; auto | intros (_ & _ & _ & _ & ->); reflexivity].
  - unfold get_avg_editing_time.
    destruct (has Editing_Duration_minutes df); simpl;
      [|split; [discriminate | intros (H & _); discriminate]].
    destruct (has Launch_Date df); simpl;
      [|split; [discriminate | intros (_ & H & _); discriminate]].
    set (df2 := where_ _ (where_ _ df)).
    destruct (filter_by Editor_Designer editor_designer editor_arg df2) as [df3|e'] eqn:F;
      simpl.
    + destruct (sorted_series_by_period P
                  (fun group =>
                     Py.Float (mean_round2 P
                                 (dropna (map editing_duration_hours (rows group)))))
                  (assign_period P period df3)) as [s Hs].
      rewrite Hs. split; [discriminate|]. intros (_ & _ & Ht & Hc & _).
      assert (R : filter_by Editor_Designer editor_designer editor_arg df2
                  = Py.Raise (Py.KeyError (header Editor_Designer))).
      { apply filter_by_raises. auto. }
      rewrite R in F. discriminate.
    + apply filter_by_raises in F. destruct F as (Ht & Hc & ->).
      split; [intros H; inversion H; auto | intros (_ & _ & _ & _ & ->); reflexivity].
  - unfold get_avg_production_time.
    destruct (has Ad_time_to_ready df) eqn:HT; simpl;
      [|split; [discriminate | intros (H & _); discriminate]].
    destruct (has Launch_Date df) eqn:HL; simpl;
      [|split; [discriminate | intros (_ & H & _); discriminate]].
    set (df3 := where_ _ (where_ _ (where_ _ df))).
    assert (R3 : forall r, In r (rows df3) <-> In r (rows df) /\ timed None r = true).
    { intros r. subst df3. simpl rows. rewrite !filter_In. unfold timed, dated. simpl.
      destruct (notna (launch_date r)); destruct (ad_time_to_ready r) as [x|]; simpl;
        try destruct (positive x); intuition discriminate. }
    assert (H3 : has Launch_Date df3 = true) by exact HL.
    rewrite (empty_rows _ _ H3).
    destruct (rows df3) as [|r0 l0] eqn:E3.
    { split; [discriminate|]. intros (_ & _ & (r & Hr) & _).
      apply R3 in Hr. contradiction. }
    destruct (filter_by Strategist strategist strategist_arg df3) as [df4|e'] eqn:F; simpl.
    + split.
      * destruct (Py.truthy strategist_arg && empty df4); [discriminate|].
        destruct (sorted_series_by_period P
                    (fun group =>
                       Py.Float (mean_round2 P (dropna (map ad_time_to_ready (rows group)))))
                    (assign_period P period df4)) as [s Hs].
        rewrite Hs. discriminate.
      * intros (_ & _ & _ & Ht & Hc & _).
        assert (R : filter_by Strategist strategist strategist_arg df3
                    = Py.Raise (Py.KeyError (header Strategist))).
        { apply filter_by_raises. auto. }
        rewrite R in F. discriminate.
    + apply filter_by_raises in F. destruct F as (Ht & Hc & ->).
      split; [|intros (_ & _ & _ & _ & _ & ->); reflexivity].
      intros H. inversion H. repeat (split; [auto; fail|]).
      split; [|auto]. exists r0. apply R3. left. reflexivity.
Qed.

(** X18.  The win-rate charts raise on one occasion only: the table has
    no Status column, and a win rate has to be computed over at least one
    row.  For the chart by period that is when a row has a Launch Date
    and a period key; for a chart by a dimension, when such a row also has
    a value of the dimension.  The exception is [KeyError] on
    ["Status"]. *)
Theorem missing_status_errors (P : API) (df : DataFrame) (period : string) (e : Py.Exn) :
  (get_win_rate_by_period P df period = Py.Raise e
   <-> has Launch_Date df = true /\ has Status df = false
       /\ (exists r k, In r (rows df) /\ dated r = true
                       /\ period_key P false period df r = Some k)
       /\ e = Py.KeyError "Status")
  /\ (get_win_rate_by_strategist P df period = Py.Raise e
      <-> has Launch_Date df = true /\ has Strategist df = true /\ has Status df = false
          /\ (exists r k v, In r (rows df) /\ dated r = true
                            /\ period_key P false period df r = Some k
                            /\ strategist r = Some v)
          /\ e = Py.KeyError "Status")
  /\ (get_win_rate_by_product P df period = Py.Raise e
      <-> has Launch_Date df = true /\ has Product df = true /\ has Status df = false
          /\ (exists r k v, In r (rows df) /\ dated r = true
                            /\ period_key P false period df r = Some k
                            /\ product r = Some v)
          /\ e = Py.KeyError "Status")
  /\ (get_win_rate_by_ad_type P df period = Py.Raise e
      <-> has Launch_Date df = true /\ has Type_ df = true /\ has Status df = false
          /\ (exists r k v, In r (rows df) /\ dated r = true
                            /\ period_key P false period df r = Some k
                            /\ type_ r = Some v)
          /\ e = Py.KeyError "Status").
Proof.
  split; [apply get_win_rate_by_period_raises|].
  split; [|split]; apply win_rate_by_raises; reflexivity.
Qed.

End ChartErrors.

(** ** Arguments and rows that change nothing *)

Module ChartArguments.
Import pd NotionService AdAnalytics SortFacts NormalizerFacts EngineFacts PeriodKeys.
Import EmptyResults TableFacts ChartRows SeriesCharts DatasetCharts.

Lemma lower_char_idempotent (c : ascii) : Py.lower_char (Py.lower_char c) = Py.lower_char c.
Proof.
  destruct c as [[] [] [] [] [] [] [] []]; reflexivity.
Qed.

Lemma lower_idempotent (s : string) : Py.lower (Py.lower s) = Py.lower s.
Proof.
  unfold Py.lower. induction s as [|c s IH]; simpl; [reflexivity|].
  rewrite IH. f_equal. apply lower_char_idempotent.
Qed.

Lemma lower_truthy (s1 s2 : string) :
  Py.lower s1 = Py.lower s2 -> Py.truthy (Some s1) = Py.truthy (Some s2).
Proof. destruct s1, s2; simpl; try discriminate; reflexivity. Qed.

Lemma filter_status_lower (s1 s2 : string) (df : DataFrame) :
  Py.lower s1 = Py.lower s2 -> filter_status (Some s1) df = filter_status (Some s2) df.
Proof.
  intros E. unfold filter_status. rewrite (lower_truthy s1 s2 E), E. reflexivity.
Qed.

Lemma filter_status_blank (df : DataFrame) : filter_status (Some "") df = filter_status None df.
Proof. reflexivity. Qed.

Section Arguments.
Variable P : API.

Lemma assign_period_default (period : string) (df : DataFrame) :
  String.eqb period "week" = false -> String.eqb period "quarter" = false ->
  assign_period P period df = assign_period P "month" df.
Proof. intros Hw Hq. unfold assign_period. rewrite Hw, Hq. reflexivity. Qed.

Lemma assign_period_ratio_default (period : string) (df : DataFrame) :
  String.eqb period "week" = false -> String.eqb period "quarter" = false ->
  assign_period_ratio P period df = assign_period_ratio P "month" df.
Proof. intros Hw Hq. unfold assign_period_ratio. rewrite Hw, Hq. reflexivity. Qed.

End Arguments.

(** X19.  A [period] that is neither ["week"] nor ["quarter"] is read as
    ["month"] by every chart, whatever it says. *)
Theorem other_period_is_month (P : API) (df : DataFrame) (period : string)
  (strategist_arg editor_arg status_arg : option string) :
  period <> "week" -> period <> "quarter" ->
  get_win_rate_by_period P df period = get_win_rate_by_period P df "month"
  /\ get_win_rate_by_strategist P df period = get_win_rate_by_strategist P df "month"
  /\ get_win_rate_by_product P df period = get_win_rate_by_product P df "month"
  /\ get_win_rate_by_ad_type P df period = get_win_rate_by_ad_type P df "month"
  /\ get_ad_type_ratio P df period status_arg = get_ad_type_ratio P df "month" status_arg
  /\ get_product_ratio P df period status_arg = get_product_ratio P df "month" status_arg
  /\ get_format_ratio P df period status_arg = get_format_ratio P df "month" status_arg
  /\ get_avg_production_time P df strategist_arg period
     = get_avg_production_time P df strategist_arg "month"
  /\ get_avg_editing_time P df editor_arg period
     = get_avg_editing_time P df editor_arg "month"
  /\ get_creatives_volume P df period strategist_arg status_arg
     = get_creatives_volume P df "month" strategist_arg status_arg.
Proof.
  intros Hw Hq. apply String.eqb_neq in Hw, Hq.
  unfold get_win_rate_by_period, get_win_rate_by_strategist, get_win_rate_by_product,
    get_win_rate_by_ad_type, win_rate_by, get_ad_type_ratio, get_format_ratio, ratio_by,
    get_product_ratio, get_avg_production_time, get_avg_editing_time, get_creatives_volume,
    assign_period, assign_period_ratio.
  rewrite Hw, Hq.
  change (String.eqb "month" "week") with false.
  change (String.eqb "month" "quarter") with false.
  repeat split; reflexivity.
Qed.

(** X19, witness: the sample table by ["year"] and by ["month"]. *)
Lemma other_period_is_month_witness :
  get_creatives_volume Sample.pandas Sample.table "year" None None
  = get_creatives_volume Sample.pandas Sample.table "month" None None.
Proof.
  destruct (other_period_is_month Sample.pandas Sample.table "year" None None None)
    as (_ & _ & _ & _ & _ & _ & _ & _ & _ & H); [discriminate | discriminate | exact H].
Defined.

(** X20.  The status filter of the ratio and volume charts reads its
    argument up to case: two arguments that are equal in lower case give
    the same chart.  An empty argument is no filter. *)
Theorem status_argument_up_to_case (P : API) (df : DataFrame) (period : string)
  (strategist_arg : option string) (s1 s2 : string) :
  Py.lower s1 = Py.lower s2 ->
  get_ad_type_ratio P df period (Some s1) = get_ad_type_ratio P df period (Some s2)
  /\ get_product_ratio P df period (Some s1) = get_product_ratio P df period (Some s2)
  /\ get_format_ratio P df period (Some s1) = get_format_ratio P df period (Some s2)
  /\ get_creatives_volume P df period strategist_arg (Some s1)
     = get_creatives_volume P df period strategist_arg (Some s2)
  /\ get_ad_type_ratio P df period (Some "") = get_ad_type_ratio P df period None
  /\ get_product_ratio P df period (Some "") = get_product_ratio P df period None
  /\ get_format_ratio P df period (Some "") = get_format_ratio P df period None
  /\ get_creatives_volume P df period strategist_arg (Some "")
     = get_creatives_volume P df period strategist_arg None.
Proof.
  intros E.
  unfold get_ad_type_ratio, get_format_ratio, ratio_by, get_product_ratio,
    get_creatives_volume.
  rewrite !(filter_status_lower s1 s2 _ E), !filter_status_blank.
  repeat split; reflexivity.
Qed.

(** X20, witness: ["WINNER"] and ["Winner"]. *)
Lemma status_argument_witness :
  get_format_ratio Sample.pandas Sample.table "quarter" (Some "WINNER")
  = get_format_ratio Sample.pandas Sample.table "quarter" (Some "Winner").
Proof.
  destruct (status_argument_up_to_case Sample.pandas Sample.table "quarter" None
              "WINNER" "Winner" eq_refl) as (_ & _ & H & _).
  exact H.
Defined.

End ChartArguments.

(** ** Rows without a Launch Date *)

Module UndatedRows.
Import pd NotionService AdAnalytics SortFacts NormalizerFacts EngineFacts PeriodKeys.
Import EmptyResults TableFacts ChartRows SeriesCharts DatasetCharts.

(** [df] without its rows that have no Launch Date. *)
Definition dated_rows (df : DataFrame) : DataFrame :=
  where_ (fun r => notna (launch_date r)) df.

Lemma dated_rows_twice (df : DataFrame) : dated_rows (dated_rows df) = dated_rows df.
Proof.
  unfold dated_rows, where_. simpl. f_equal. rewrite filter_filter.
  apply filter_ext. intros r. apply andb_diag.
Qed.

Lemma dated_rows_none (df : DataFrame) :
  rows (dated_rows df) = [] -> no_dated_rows df /\ no_dated_rows (dated_rows df).
Proof.
  intros E. split; [exact E|]. unfold no_dated_rows. rewrite E. reflexivity.
Qed.

Lemma dated_rows_some (df : DataFrame) :
  rows (dated_rows df) <> [] -> empty (dated_rows df) = empty df.
Proof.
  intros N. unfold empty. simpl columns. destruct (columns df); [reflexivity|].
  destruct (rows (dated_rows df)) eqn:E; [contradiction|].
  destruct (rows df) eqn:E'; [|reflexivity].
  unfold dated_rows in E. simpl in E. rewrite E' in E. discriminate.
Qed.

Ltac same_guard df :=
  change (has Launch_Date (dated_rows df)) with (has Launch_Date df);
  change (has Strategist (dated_rows df)) with (has Strategist df);
  change (has Product (dated_rows df)) with (has Product df);
  change (has Type_ (dated_rows df)) with (has Type_ df);
  change (has Format (dated_rows df)) with (has Format df);
  change (has Ad_time_to_ready (dated_rows df)) with (has Ad_time_to_ready df);
  change (has Editing_Duration_minutes (dated_rows df))
    with (has Editing_Duration_minutes df).

(** X21.  Rows without a Launch Date are in no chart: every entry point
    returns on the table what it returns on the table without those rows.
    For the volume chart this needs the Strategist column when a
    strategist is asked for; without it the chart raises on a table with
    rows and returns the empty chart on a table with none. *)
Theorem undated_rows_change_nothing (P : API) (df : DataFrame) (period : string)
  (strategist_arg editor_arg status_arg : option string) :
  get_win_rate_by_period P (dated_rows df) period = get_win_rate_by_period P df period
  /\ get_win_rate_by_strategist P (dated_rows df) period
     = get_win_rate_by_strategist P df period
  /\ get_win_rate_by_product P (dated_rows df) period = get_win_rate_by_product P df period
  /\ get_win_rate_by_ad_type P (dated_rows df) period = get_win_rate_by_ad_type P df period
  /\ get_ad_type_ratio P (dated_rows df) period status_arg
     = get_ad_type_ratio P df period status_arg
  /\ get_product_ratio P (dated_rows df) period status_arg
     = get_product_ratio P df period status_arg
  /\ get_format_ratio P (dated_rows df) period status_arg
     = get_format_ratio P df period status_arg
  /\ get_avg_production_time P (dated_rows df) strategist_arg period
     = get_avg_production_time P df strategist_arg period
  /\ get_avg_editing_time P (dated_rows df) editor_arg period
     = get_avg_editing_time P df editor_arg period
  /\ (filter_column_present Strategist strategist_arg df ->
      get_creatives_volume P (dated_rows df) period strategist_arg status_arg
      = get_creatives_volume P df period strategist_arg status_arg).
Proof.
  assert (W : forall (dim : Column) cell,
             win_rate_by P dim cell (dated_rows df) period = win_rate_by P dim cell df period).
  { intros dim cell. destruct (rows (dated_rows df)) eqn:E.
    - destruct (dated_rows_none df E) as [N1 N2].
      rewrite !win_rate_by_undated by auto. reflexivity.
    - unfold win_rate_by. fold (dated_rows df). fold (dated_rows (dated_rows df)).
      rewrite dated_rows_twice, dated_rows_some by (rewrite E; discriminate).
      reflexivity. }
  assert (R : forall (dim : Column) cell,
             ratio_by P dim cell (dated_rows df) period status_arg
             = ratio_by P dim cell df period status_arg).
  { intros dim cell. destruct (rows (dated_rows df)) eqn:E.
    - destruct (dated_rows_none df E) as [N1 N2].
      rewrite !ratio_by_undated by auto. reflexivity.
    - unfold ratio_by. fold (dated_rows df). fold (dated_rows (dated_rows df)).
      rewrite dated_rows_twice, dated_rows_some by (rewrite E; discriminate).
      reflexivity. }
  repeat match goal with |- _ /\ _ => split end.
  - destruct (rows (dated_rows df)) eqn:E.
    + destruct (dated_rows_none df E) as [N1 N2].
      rewrite !get_win_rate_by_period_undated by auto. reflexivity.
    + unfold get_win_rate_by_period. fold (dated_rows df). fold (dated_rows (dated_rows df)).
      rewrite dated_rows_twice, dated_rows_some by (rewrite E; discriminate).
      reflexivity.
  - exact (W Strategist strategist).
  - exact (W Product product).
  - exact (W Type_ type_).
  - exact (R Type_ type_).
  - destruct (rows (dated_rows df)) eqn:E.
    + destruct (dated_rows_none df E) as [N1 N2].
      rewrite !get_product_ratio_undated by auto. reflexivity.
    + unfold get_product_ratio. fold (dated_rows df). fold (dated_rows (dated_rows df)).
      rewrite dated_rows_twice, dated_rows_some by (rewrite E; discriminate).
      reflexivity.
  - exact (R Format format).
  - unfold get_avg_production_time. fold (dated_rows df). fold (dated_rows (dated_rows df)).
    rewrite dated_rows_twice. reflexivity.
  - unfold get_avg_editing_time. fold (dated_rows df). fold (dated_rows (dated_rows df)).
    rewrite dated_rows_twice. reflexivity.
  - intros Hc. destruct (rows (dated_rows df)) eqn:E.
    + destruct (dated_rows_none df E) as [N1 N2].
      rewrite !get_creatives_volume_undated; [reflexivity | right; auto | right; auto].
    + unfold get_creatives_volume. fold (dated_rows df). fold (dated_rows (dated_rows df)).
      rewrite dated_rows_twice, dated_rows_some by (rewrite E; discriminate).
      reflexivity.
Qed.

(** X21, witness: the sample table has a creative without a Launch
    Date. *)
Lemma undated_rows_witness :
  map launch_date (rows Sample.table) <> map launch_date (rows (dated_rows Sample.table))
  /\ get_creatives_volume Sample.pandas (dated_rows Sample.table) "month" (Some "Ben") None
     = get_creatives_volume Sample.pandas Sample.table "month" (Some "Ben") None.
Proof.
  split; [vm_compute; discriminate|].
  destruct (undated_rows_change_nothing Sample.pandas Sample.table "month"
              (Some "Ben") None None) as (_ & _ & _ & _ & _ & _ & _ & _ & _ & H).
  apply H. intros _. reflexivity.
Defined.

End UndatedRows.

(** ** The numbers of the win-rate charts, and the colours *)

Module ChartLooks.
Import pd NotionService AdAnalytics SortFacts NormalizerFacts EngineFacts PeriodKeys.
Import TableFacts ChartRows SeriesCharts DatasetCharts.

Lemma calculate_win_rate_bounds (df : DataFrame) (v : Py.Number) :
  calculate_win_rate df = Py.Ok v -> (0 <= Py.value v <= 100)%Q.
Proof.
  unfold calculate_win_rate.
  destruct (empty df).
  { intros H. inversion H. simpl. split; discriminate. }
  destruct (has Status df); simpl negb; cbv iota; [|discriminate].
  set (w := Py.len _). set (l := Py.len _). set (la := Py.len _).
  assert (Hw : 0 <= w) by (subst w; unfold Py.len; lia).
  assert (Hl : 0 <= l) by (subst l; unfold Py.len; lia).
  assert (Hla : 0 <= la) by (subst la; unfold Py.len; lia).
  destruct (w + l + la =? 0) eqn:T.
  { intros H. inversion H. simpl. split; discriminate. }
  apply Z.eqb_neq in T. intros H. inversion H. simpl.
  apply Float64.percentage_bounds, Float64.truediv_unit; lia.
Qed.

Lemma getitem_In {V} (d : list (string * V)) (k : string) (v : V) :
  getitem d k = Py.Ok v -> In (k, v) d.
Proof.
  induction d as [|[k' v'] d IH]; simpl; [discriminate|].
  destruct (String.eqb_spec k k') as [-> | N].
  - intros H. inversion H. auto.
  - auto.
Qed.

Section Looks.
Variable P : API.

Lemma win_rate_by_period_bounds (df : DataFrame) (period : string) (s : Series.t)
  (v : Py.Number) :
  get_win_rate_by_period P df period = Py.Ok s -> In v (Series.data s) ->
  (0 <= Py.value v <= 100)%Q.
Proof.
  unfold get_win_rate_by_period. destruct (_ || _).
  { intros H. inversion H. contradiction. }
  destruct (Py.for_each _ (groupby_Period _)) as [result|e] eqn:F; simpl; [|discriminate].
  destruct (Py.for_each (getitem result) _) as [data|e] eqn:D; simpl; [|discriminate].
  intros H. inversion H. simpl. intros Hv.
  apply for_each_Forall2 in D.
  destruct (Forall2_In_r _ _ _ _ D Hv) as (k & _ & G).
  apply getitem_In in G.
  apply for_each_Forall2 in F.
  destruct (Forall2_In_r _ _ _ _ F G) as ([k' g] & _ & C).
  destruct (calculate_win_rate g) as [x|e] eqn:Cg; simpl in C; [|discriminate].
  inversion C. subst. eapply calculate_win_rate_bounds, Cg.
Qed.

Lemma win_rate_by_bounds (dim : Column) (cell : Row -> option string)
  (df : DataFrame) (period : string) (r : Datasets.t) (ds : Dataset.t) (v : Py.Number) :
  win_rate_by P dim cell df period = Py.Ok r ->
  In ds (Datasets.datasets r) -> In v (Dataset.data ds) ->
  (0 <= Py.value v <= 100)%Q.
Proof.
  unfold win_rate_by. destruct (_ || _).
  { intros H. inversion H. contradiction. }
  set (periods := _sort_periods_chronologically P str_cell _).
  destruct (Py.for_each _ (unique _ _)) as [datasets|e] eqn:F; simpl; [|discriminate].
  intros H. inversion H. simpl. intros Hds Hv.
  apply for_each_Forall2 in F.
  destruct (Forall2_In_r _ _ _ _ F Hds) as (x & _ & C).
  destruct (Py.for_each _ periods) as [data|e] eqn:D; simpl in C; [|discriminate].
  inversion C. subst ds. simpl in Hv.
  apply for_each_Forall2 in D.
  destruct (Forall2_In_r _ _ _ _ D Hv) as (p & _ & Cp).
  eapply calculate_win_rate_bounds, Cp.
Qed.

Lemma nth_error_enumerate {A} (l : list A) (k i : nat) :
  nth_error (enumerate_from k l) i = option_map (fun v => ((k + i)%nat, v)) (nth_error l i).
Proof.
  revert k i. induction l as [|x l IH]; intros k [|i]; simpl; try reflexivity.
  - rewrite Nat.add_0_r. reflexivity.
  - rewrite IH. rewrite Nat.add_succ_r. reflexivity.
Qed.

Lemma ratio_by_colours (dim : Column) (cell : Row -> option string)
  (df : DataFrame) (period : string) (a : option string) (r : Datasets.t)
  (i : nat) (ds : Dataset.t) :
  ratio_by P dim cell df period a = Py.Ok r ->
  nth_error (Datasets.datasets r) i = Some ds ->
  Dataset.backgroundColor ds = Some (nth (i mod 8) colors "").
Proof.
  unfold ratio_by. destruct (_ || _).
  { intros H. inversion H. destruct i; discriminate. }
  intros H. inversion H. simpl. rewrite nth_error_map, nth_error_enumerate.
  destruct (nth_error _ i); simpl; [|discriminate].
  intros E. inversion E. reflexivity.
Qed.

Lemma product_datasets_colours (df : DataFrame) (periods : list (option string))
  (products : list string) (idx : nat) (ds : Dataset.t) :
  (forall v, In v products -> v <> "") ->
  In ds (product_datasets df periods products idx) ->
  match lookup_color product_colors (Dataset.label ds) with
  | Some c => Dataset.backgroundColor ds = Some c
  | None => exists c, In c default_colors /\ Dataset.backgroundColor ds = Some c
  end.
Proof.
  revert idx. induction products as [|v t IH]; intros idx Hne; cbn [product_datasets];
    [contradiction|].
  assert (Ev : (if String.eqb v "" then "Unknown" else v) = v).
  { destruct (String.eqb_spec v "") as [E | _]; [|reflexivity].
    exfalso. apply (Hne v); [left; reflexivity | exact E]. }
  assert (Hne' : forall v0, In v0 t -> v0 <> "") by (intros; apply Hne; right; assumption).
  destruct (lookup_color product_colors v) as [c|] eqn:L; intros [<- | H];
    try (eapply IH; eauto; fail); cbn [Dataset.label Dataset.backgroundColor];
    rewrite Ev, L; [reflexivity|].
  exists (color_at default_colors idx). split; [|reflexivity].
  unfold color_at. apply nth_In. apply Nat.mod_upper_bound. discriminate.
Qed.

End Looks.

(** X22.  Every number of a win-rate chart lies between 0 and 100. *)
Theorem win_rate_charts_are_percentages (P : API) (df : DataFrame) (period : string)
  (v : Py.Number) :
  (forall s, get_win_rate_by_period P df period = Py.Ok s -> In v (Series.data s) ->
             (0 <= Py.value v <= 100)%Q)
  /\ (forall r ds, get_win_rate_by_strategist P df period = Py.Ok r ->
                   In ds (Datasets.datasets r) -> In v (Dataset.data ds) ->
                   (0 <= Py.value v <= 100)%Q)
  /\ (forall r ds, get_win_rate_by_product P df period = Py.Ok r ->
                   In ds (Datasets.datasets r) -> In v (Dataset.data ds) ->
                   (0 <= Py.value v <= 100)%Q)
  /\ (forall r ds, get_win_rate_by_ad_type P df period = Py.Ok r ->
                   In ds (Datasets.datasets r) -> In v (Dataset.data ds) ->
                   (0 <= Py.value v <= 100)%Q).
Proof.
  split; [intros s; apply win_rate_by_period_bounds|].
  split; [|split]; intros r ds; apply win_rate_by_bounds.
Qed.

(** X22, witness: the win rate of January in the sample table. *)
Lemma win_rate_charts_witness : (0 <= Py.value (Py.Float 50) <= 100)%Q.
Proof.
  destruct (win_rate_charts_are_percentages Sample.pandas Sample.table "month"
              (Py.Float 50)) as [H _].
  apply (H (Series.mk ["Jan 2024"; "Feb 2024"; "Apr 2024"]
                      [Py.Float 50; Py.Float 0; Py.Int 0])).
  - vm_compute. reflexivity.
  - left. reflexivity.
Defined.

(** X23.  The colours of the ratio charts.  In the charts by ad type and
    by format the dataset of index [i] has the colour of index [i mod 8]
    of the palette.  In the product chart a product of the colour table
    has the colour the table gives it, wherever its dataset stands, and
    any other product has one of the five default colours. *)
Theorem ratio_chart_colours (P : API) (df : DataFrame) (period : string)
  (status_arg : option string) (ds : Dataset.t) :
  (forall r i, get_ad_type_ratio P df period status_arg = Py.Ok r ->
               nth_error (Datasets.datasets r) i = Some ds ->
               Dataset.backgroundColor ds = Some (nth (i mod 8) colors ""))
  /\ (forall r i, get_format_ratio P df period status_arg = Py.Ok r ->
                  nth_error (Datasets.datasets r) i = Some ds ->
                  Dataset.backgroundColor ds = Some (nth (i mod 8) colors ""))
  /\ (forall r, get_product_ratio P df period status_arg = Py.Ok r ->
                In ds (Datasets.datasets r) ->
                match lookup_color product_colors (Dataset.label ds) with
                | Some c => Dataset.backgroundColor ds = Some c
                | None => exists c, In c default_colors
                                    /\ Dataset.backgroundColor ds = Some c
                end).
Proof.
  split; [intros r i; apply ratio_by_colours|].
  split; [intros r i; apply ratio_by_colours|].
  intros r. unfold get_product_ratio. destruct (_ || _).
  { intros H. inversion H. contradiction. }
  intros H. inversion H. simpl. apply product_datasets_colours.
  intros v Hv Ev. subst v.
  apply In_unique, In_dropna in Hv.
  rewrite rows_assign_period_ratio in Hv. simpl rows in Hv. rewrite !map_map in Hv.
  apply in_map_iff in Hv as (row & Hrow & _). simpl in Hrow.
  exact (recoded_product_not_blank _ Hrow).
Qed.

(** X23, witness: in the product chart of the sample table "Whitening Kit"
    is the third dataset and has its own colour. *)
Lemma ratio_chart_colours_witness :
  Dataset.backgroundColor
    (Dataset.mk "Whitening Kit" [Py.Int 0; Py.Int 0; Py.Int 1] None None (Some "#36A2EB"))
  = Some "#36A2EB".
Proof.
  destruct (ratio_chart_colours Sample.pandas Sample.table "month" None
              (Dataset.mk "Whitening Kit" [Py.Int 0; Py.Int 0; Py.Int 1] None None
                 (Some "#36A2EB"))) as (_ & _ & H).
  apply (H (Datasets.mk [Some "Jan 2024"; Some "Feb 2024"; Some "Apr 2024"]
              [Dataset.mk "V34" [Py.Int 1; Py.Int 1; Py.Int 0] None None (Some "#9966FF");
               Dataset.mk "Unknown" [Py.Int 1; Py.Int 0; Py.Int 0] None None (Some "#FF6384");
               Dataset.mk "Whitening Kit" [Py.Int 0; Py.Int 0; Py.Int 1] None None
                 (Some "#36A2EB")])).
  - vm_compute. reflexivity.
  - right. right. left. reflexivity.
Defined.

End ChartLooks.

(** ** Pages of the Notion database *)

Module NotionFacts.
Import Json NotionProperties.

(** The value under the key [k] of a dict, [None] when it has none. *)
Definition item (d : list (string * value)) (k : string) : value :=
  match lookup d k with Some v => v | None => Null end.

(** The property [d] is not of the type [t], or has nothing under it. *)
Definition untyped (d : list (string * value)) (t : string) : Prop :=
  eq_str (item d "type") t = false \/ truthy (item d t) = false.

(** The columns of a row of [process_results], in the order of the
    source. *)
Definition columns_read : list string :=
  ["Creative name"; "Deadline"; "Winner Market(s)"; "Strategist"; "Format"; "Winner";
   "Editing End Time"; "Launch Date"; "Editing Start Time"; "Type"; "Product"; "Status";
   "Editor/Designer"; "Editing Duration (minutes)"; "Launch Month";
   "Ad time to ready (days)"; "Launch YY-WW"].

(** A person or an option of a select, with its name. *)
Definition named (name : string) : value := Dict [("name", Str name)].

(** A property of the type [t] with the payload [payload]. *)
Definition property (t : string) (payload : value) : value :=
  Dict [("type", Str t); (t, payload)].

Lemma typed_payload_untyped (d : list (string * value)) (t : string) :
  untyped d t -> typed_payload (Dict d) t = Return None.
Proof.
  unfold untyped, item, typed_payload. simpl.
  destruct (eq_str _ t); [|reflexivity].
  intros [H | H]; [discriminate|]. rewrite H. reflexivity.
Qed.

Lemma typed_payload_not_dict (v : value) (t : string) :
  (forall d, v <> Dict d) -> typed_payload v t = Throw AttributeError.
Proof. intros H. destruct v; try reflexivity. exfalso. eapply H. reflexivity. Qed.

Lemma typed_payload_typed (d : list (string * value)) (t : string) :
  eq_str (item d "type") t = true -> truthy (item d t) = true ->
  typed_payload (Dict d) t = Return (Some (item d t)).
Proof.
  unfold item, typed_payload. simpl. intros H1 H2. rewrite H1, H2. reflexivity.
Qed.

(** X24.  A property that is not of the type a getter reads, or that has
    nothing under that type (no value, [None], an empty string or list),
    reads as the empty string; so does the empty dict that stands for a
    property the page does not have.  What is not a dict makes every
    getter raise [AttributeError]. *)
Theorem absent_property_reads_blank (str : value -> string) :
  (forall d,
      (untyped d "title" -> get_title (Dict d) = Return (Str ""))
      /\ (untyped d "date" -> get_date (Dict d) = Return (Str ""))
      /\ (untyped d "multi_select" -> get_multi_select (Dict d) = Return (Str ""))
      /\ (untyped d "select" -> get_select (Dict d) = Return (Str ""))
      /\ (untyped d "people" -> get_people (Dict d) = Return (Str ""))
      /\ (untyped d "status" -> get_status (Dict d) = Return (Str ""))
      /\ (untyped d "formula" -> get_formula_string str (Dict d) = Return (Str "")))
  /\ (forall v, (forall d, v <> Dict d) ->
        get_title v = Throw AttributeError
        /\ get_date v = Throw AttributeError
        /\ get_multi_select v = Throw AttributeError
        /\ get_select v = Throw AttributeError
        /\ get_people v = Throw AttributeError
        /\ get_status v = Throw AttributeError
        /\ get_formula_string str v = Throw AttributeError).
Proof.
  split.
  - intros d.
    unfold get_title, get_date, get_multi_select, get_select, get_people, get_status,
      get_formula_string.
    repeat match goal with |- _ /\ _ => split end;
      intros H; rewrite (typed_payload_untyped d _ H); reflexivity.
  - intros v H.
    unfold get_title, get_date, get_multi_select, get_select, get_people, get_status,
      get_formula_string.
    rewrite !(typed_payload_not_dict v _ H).
    repeat match goal with |- _ /\ _ => split end; reflexivity.
Qed.

(** X24, witness: a property of the type "select" read as a title, and a
    status with no payload. *)
Lemma absent_property_witness :
  get_title (property "select" (named "Video")) = Return (Str "")
  /\ get_status (Dict [("type", Str "status"); ("status", Null)]) = Return (Str "")
  /\ get_date (Dict []) = Return (Str "").
Proof.
  destruct (absent_property_reads_blank (fun _ => EmptyString)) as [H _].
  split; [|split].
  - apply (H [("type", Str "select"); ("select", named "Video")]). left. reflexivity.
  - apply (H [("type", Str "status"); ("status", Null)]). right. reflexivity.
  - apply (H []). left. reflexivity.
Defined.

Lemma for_each_names (names : list string) :
  for_each (fun item => get item "name" (Str "")) (map named names)
  = Return (map Str names).
Proof.
  induction names as [|n names IH]; simpl; [reflexivity|].
  rewrite IH. reflexivity.
Qed.

Lemma join_strs (sep : string) (names : list string) :
  join sep (map Str names) = Return (String.concat sep names).
Proof.
  unfold join.
  assert (E : for_each (fun v => match v with Str s => Return s | _ => Throw TypeError end)
                       (map Str names) = Return names).
  { induction names as [|n names IH]; simpl; [reflexivity|]. rewrite IH. reflexivity. }
  rewrite E. reflexivity.
Qed.

(** X25.  On the properties of the Notion schema: a multi-select with at
    least one option reads as the names of its options joined by commas,
    in their order; of the people of a property only the first is read,
    by name. *)
Theorem options_joined_first_person_kept (d : list (string * value))
  (names : list string) (name : string) (others : list value) :
  (eq_str (item d "type") "multi_select" = true ->
   item d "multi_select" = List (map named names) -> names <> [] ->
   get_multi_select (Dict d) = Return (Str (String.concat "," names)))
  /\ (eq_str (item d "type") "people" = true ->
      item d "people" = List (named name :: others) ->
      get_people (Dict d) = Return (Str name)).
Proof.
  split.
  - intros Ht Hp Hn. unfold get_multi_select.
    rewrite (typed_payload_typed d _ Ht).
    + rewrite Hp. simpl. rewrite for_each_names. simpl. rewrite join_strs. reflexivity.
    + rewrite Hp. destruct names; [contradiction | reflexivity].
  - intros Ht Hp. unfold get_people.
    rewrite (typed_payload_typed d _ Ht); rewrite Hp; reflexivity.
Qed.

(** X25, witness: two products, two strategists. *)
Lemma options_joined_witness :
  get_multi_select (property "multi_select" (List [named "V34"; named "Whitening Kit"]))
  = Return (Str "V34,Whitening Kit")
  /\ get_people (property "people" (List [named "Ana"; named "Ben"])) = Return (Str "Ana").
Proof.
  split.
  - apply (options_joined_first_person_kept
             [("type", Str "multi_select");
              ("multi_select", List [named "V34"; named "Whitening Kit"])]
             ["V34"; "Whitening Kit"] "" []); [reflexivity | reflexivity | discriminate].
  - apply (options_joined_first_person_kept
             [("type", Str "people"); ("people", List [named "Ana"; named "Ben"])]
             [] "Ana" [named "Ben"]); reflexivity.
Defined.

Section Pages.
Variable str : value -> string.

Lemma formatted_data_columns (page : value) (row : list (string * value)) :
  formatted_data str page = Return row -> map fst row = columns_read.
Proof.
  unfold formatted_data.
  destruct (get page "properties" (Dict [])) as [props|e]; simpl; [|discriminate].
  repeat match goal with
         | |- context [Json.bind (entry ?g props ?n) _] =>
             destruct (entry g props n); simpl; [|discriminate]
         end.
  intros H. inversion H. reflexivity.
Qed.

Lemma formatted_data_ad_time (page : value) (d : list (string * value))
  (row : list (string * value)) :
  get page "properties" (Dict []) = Return (Dict d) ->
  lookup d "Ad time to ready (days) " = None ->
  formatted_data str page = Return row ->
  lookup row "Ad time to ready (days)" = Some (Str "").
Proof.
  intros Hp Hd. unfold formatted_data. rewrite Hp. simpl.
  assert (E : entry (get_formula_string str) (Dict d) "Ad time to ready (days) "
              = Return (Str "")).
  { unfold entry. simpl get. rewrite Hd. reflexivity. }
  rewrite E.
  repeat match goal with
         | |- context [Json.bind (entry ?g (Dict d) ?n) _] =>
             destruct (entry g (Dict d) n); simpl; [|discriminate]
         end.
  intros H. inversion H. reflexivity.
Qed.

End Pages.

(** X26.  [process_results] returns one row per page, in the order of the
    pages: the row of a page is what [formatted_data] makes of it.  Every
    row has the same seventeen columns; each column the charts read, but
    the Period they add themselves, is among them. *)
Theorem process_results_rows (str : value -> string) (results : list value)
  (rows : list (list (string * value))) :
  process_results str results = Return rows ->
  Forall2 (fun page row => formatted_data str page = Return row) results rows
  /\ Forall (fun row => map fst row = columns_read) rows
  /\ forall c : pd.Column, c <> pd.Period -> In (pd.header c) columns_read.
Proof.
  intros H.
  assert (F : Forall2 (fun page row => formatted_data str page = Return row)
                results rows).
  { revert rows H. unfold process_results.
    induction results as [|page results IH]; simpl; intros rows H.
    - inversion H. constructor.
    - destruct (formatted_data str page) as [row|e] eqn:E; simpl in H; [|discriminate].
      destruct (for_each _ results); simpl in H; [|discriminate].
      inversion H. constructor; [exact E | apply IH; reflexivity]. }
  split; [exact F|split].
  - clear H. induction F as [|page row results rows E F IH]; constructor.
    + eapply formatted_data_columns, E.
    + exact IH.
  - intros c Hc. destruct c; try (exfalso; apply Hc; reflexivity);
      vm_compute; tauto.
Qed.

(** X26, witness: a page without properties and a page with a status. *)
Lemma process_results_witness :
  Forall2 (fun page row => formatted_data (fun _ => EmptyString) page = Return row)
    [Dict [];
     Dict [("properties", Dict [("Status", property "status" (named "Winner"))])]]
    [map (fun c => (c, Str "")) columns_read;
     map (fun c => (c, if String.eqb c "Status" then Str "Winner" else Str ""))
         columns_read]
  /\ Forall (fun row => map fst row = columns_read)
       [map (fun c => (c, Str "")) columns_read;
        map (fun c => (c, if String.eqb c "Status" then Str "Winner" else Str ""))
            columns_read]
  /\ forall c : pd.Column, c <> pd.Period -> In (pd.header c) columns_read.
Proof.
  apply (process_results_rows (fun _ => EmptyString)).
  vm_compute. reflexivity.
Defined.

(** X27.  The column "Ad time to ready (days)" is read from the property
    of the page whose name ends with a space, ["Ad time to ready (days) "]:
    when the page has no property of that name, the column is the empty
    string, whatever the page has under the name without the space. *)
Theorem ad_time_is_read_with_a_trailing_space (str : value -> string) (page : value)
  (d : list (string * value)) (row : list (string * value)) :
  get page "properties" (Dict []) = Return (Dict d) ->
  lookup d "Ad time to ready (days) " = None ->
  formatted_data str page = Return row ->
  lookup row "Ad time to ready (days)" = Some (Str "").
Proof. apply formatted_data_ad_time. Qed.

(** X27, witness: a page with a production time of three days under the
    name without the space. *)
Lemma ad_time_witness :
  lookup
    (map (fun c => (c, Str "")) columns_read)
    "Ad time to ready (days)"
  = Some (Str "").
Proof.
  apply (ad_time_is_read_with_a_trailing_space (fun _ => "3")
           (Dict [("properties",
                   Dict [("Ad time to ready (days)",
                          property "formula"
                            (Dict [("type", Str "number"); ("number", Int 3)]))])])
           [("Ad time to ready (days)",
             property "formula" (Dict [("type", Str "number"); ("number", Int 3)]))]).
  - reflexivity.
  - reflexivity.
  - vm_compute. reflexivity.
Defined.

End NotionFacts.

(** ** The dashboard views *)

Module ViewFacts.
Import pd AdAnalytics EngineFacts TableFacts Views.

Lemma In_insort (v s : string) (l : list string) : In v (insort s l) <-> v = s \/ In v l.
Proof.
  induction l as [|h t IH]; simpl.
  - split; intros [H | H]; auto; contradiction.
  - destruct (String.ltb s h); simpl.
    + split; intros [H | H]; auto.
    + rewrite IH. tauto.
Qed.

Lemma In_fold_insort (v : string) (l acc : list string) :
  In v (fold_left (fun acc s => insort s acc) l acc) <-> In v l \/ In v acc.
Proof.
  revert acc. induction l as [|h t IH]; simpl; intros acc; [tauto|].
  rewrite IH, In_insort. split; intros H; intuition auto.
Qed.

Lemma In_sorted (v : string) (l : list string) : In v (sorted l) <-> In v l.
Proof. unfold sorted. rewrite In_fold_insort. simpl. tauto. Qed.

Lemma insort_increasing (s : string) (l : list string) :
  ~ In s l -> increasing l -> increasing (insort s l).
Proof.
  intros Hs H. induction H as [|h t Ht IH Hh]; simpl.
  - repeat constructor.
  - destruct (String.ltb s h) eqn:L.
    + constructor; [constructor; assumption|].
      constructor; [exact L|].
      eapply Forall_impl; [|exact Hh]. intros x Hx. eapply ltb_trans; eauto.
    + assert (N : String.eqb s h = false).
      { apply String.eqb_neq. intros E. apply Hs. left. symmetry. exact E. }
      constructor; [apply IH; intros Hin; apply Hs; right; exact Hin|].
      apply Forall_forall. intros x Hx. apply In_insort in Hx.
      destruct Hx as [-> | Hx].
      * apply ltb_total; assumption.
      * rewrite Forall_forall in Hh. apply Hh, Hx.
Qed.

Lemma fold_insort_increasing (l acc : list string) :
  NoDup l -> (forall v, In v l -> ~ In v acc) -> increasing acc ->
  increasing (fold_left (fun acc s => insort s acc) l acc).
Proof.
  revert acc. induction l as [|h t IH]; simpl; intros acc Hn Hd Ha; [exact Ha|].
  inversion Hn as [|? ? Hh Ht]; subst.
  apply IH; [exact Ht | | apply insort_increasing; auto].
  intros v Hv Hin. apply In_insort in Hin. destruct Hin as [-> | Hin].
  - contradiction.
  - apply (Hd v); auto.
Qed.

Lemma sorted_increasing (l : list string) : NoDup l -> increasing (sorted l).
Proof.
  intros H. apply fold_insort_increasing; [exact H | auto | constructor].
Qed.

Lemma filled_not_blank (c : option string) : filled c <> "".
Proof. destruct c as [[|a s]|]; discriminate. Qed.

(** X28.  The options of the strategist and editor filters of the
    dashboard.  They are in strictly ascending order, so none comes
    twice; none is empty; and when the table has the column they are the
    values of the column, a missing or empty value read as "Unknown". *)
Theorem filter_options_of_the_dashboard (df : DataFrame) :
  (increasing (strategists df)
   /\ ~ In "" (strategists df)
   /\ (has Strategist df = true ->
       forall v, In v (strategists df)
                 <-> exists r, In r (rows df) /\ filled (strategist r) = v))
  /\ (increasing (editors df)
      /\ ~ In "" (editors df)
      /\ (has Editor_Designer df = true ->
          forall v, In v (editors df)
                    <-> exists r, In r (rows df) /\ filled (editor_designer r) = v)).
Proof.
  assert (G : forall c cell,
             increasing (filter_options c cell df)
             /\ ~ In "" (filter_options c cell df)
             /\ (has c df = true ->
                 forall v, In v (filter_options c cell df)
                           <-> exists r, In r (rows df) /\ filled (cell r) = v)).
  { intros c cell. unfold filter_options. destruct (has c df).
    - assert (I : forall v,
                 In v (sorted (unique String.eqb (map (fun r => filled (cell r)) (rows df))))
                 <-> exists r, In r (rows df) /\ filled (cell r) = v).
      { intros v. rewrite In_sorted, (unique_In _ String.eqb_eq), in_map_iff.
        split; intros (r & H1 & H2); exists r; auto. }
      split; [apply sorted_increasing, unique_NoDup, String.eqb_eq|].
      split; [|intros _; exact I].
      intros H. apply I in H. destruct H as (r & _ & H).
      exact (filled_not_blank _ H).
    - split; [constructor|]. split; [intros []|discriminate]. }
  split; apply G.
Qed.

(** X28, witness: the strategists of the sample table. *)
Lemma filter_options_witness :
  strategists Sample.table = ["Ana"; "Ben"]
  /\ forall v, In v (strategists Sample.table)
               <-> exists r, In r (rows Sample.table) /\ filled (strategist r) = v.
Proof.
  split; [vm_compute; reflexivity|].
  destruct (filter_options_of_the_dashboard Sample.table) as [(_ & _ & H) _].
  apply H. reflexivity.
Defined.

Lemma style_products_In (datasets : list Dataset.t) (idx : nat) (line : Line) :
  In line (style_products datasets idx) ->
  In (Dataset.label (dataset line)) (map Dataset.label datasets)
  /\ forall c, lookup_color PRODUCT_COLORS (Dataset.label (dataset line)) = Some c ->
               borderColor line = c.
Proof.
  revert idx. induction datasets as [|ds rest IH]; intros idx; cbn [style_products];
    [contradiction|].
  destruct (lookup_color PRODUCT_COLORS (Dataset.label ds)) as [c0|] eqn:L;
    intros [<- | H]; cbn [dataset borderColor transparent Dataset.label map].
  - split; [left; reflexivity|]. intros c Hc. rewrite L in Hc. inversion Hc. reflexivity.
  - destruct (IH _ H) as [H1 H2]. split; [right; exact H1 | exact H2].
  - split; [left; reflexivity|]. intros c Hc. rewrite L in Hc. discriminate.
  - destruct (IH _ H) as [H1 H2]. split; [right; exact H1 | exact H2].
Qed.

(** X29.  A product of the colour table has one colour in both product
    charts: the border of its line in the product win-rate chart of
    [views.py] and the background of its bars in the product ratio chart
    of [analytics.py] are the colour the table gives it, whatever the
    period and the status filter. *)
Theorem product_colours_agree (P : API) (df : DataFrame) (period period' : string)
  (status_arg : option string) (labels : list (option string)) (lines : list Line)
  (line : Line) (r : Datasets.t) (bars : Dataset.t) (c : string) :
  WinRateByProductAPI_get P df period = Chart labels lines ->
  In line lines ->
  get_product_ratio P df period' status_arg = Py.Ok r ->
  In bars (Datasets.datasets r) ->
  Dataset.label (dataset line) = Dataset.label bars ->
  lookup_color PRODUCT_COLORS (Dataset.label bars) = Some c ->
  borderColor line = c /\ Dataset.backgroundColor bars = Some c.
Proof.
  intros Hw Hl Hr Hb El Hc. split.
  - unfold WinRateByProductAPI_get in Hw.
    destruct (get_win_rate_by_product P df period) as [data|e]; [|discriminate].
    inversion Hw. subst. apply style_products_In in Hl. destruct Hl as [_ H].
    apply H. rewrite El. exact Hc.
  - change PRODUCT_COLORS with product_colors in Hc.
    revert Hr Hb. unfold get_product_ratio. destruct (_ || _).
    { intros H. inversion H. contradiction. }
    intros H. inversion H. simpl. clear H. intros Hb.
    assert (G : forall products idx,
               (forall v, In v products -> v <> "") ->
               In bars (product_datasets
                          (assign_period_ratio P period'
                             (assign Product
                                (fun r => set_product (recode_product (product r)) r)
                                (filter_status status_arg
                                   (where_ (fun r => notna (launch_date r)) df))))
                          (_sort_periods_chronologically P str_cell
                             (unique eq_value
                                (map Some
                                   (dropna
                                      (map pd.period
                                         (rows
                                            (assign_period_ratio P period'
                                               (assign Product
                                                  (fun r =>
                                                     set_product (recode_product (product r)) r)
                                                  (filter_status status_arg
                                                     (where_ (fun r => notna (launch_date r))
                                                             df))))))))))
                          products idx) ->
               Dataset.backgroundColor bars = Some c).
    { clear Hb. induction products as [|v t IH]; intros idx Hne; cbn [product_datasets];
        [contradiction|].
      assert (Ev : (if String.eqb v "" then "Unknown" else v) = v).
      { destruct (String.eqb_spec v "") as [E | _]; [|reflexivity].
        exfalso. apply (Hne v); [left; reflexivity | exact E]. }
      assert (Hne' : forall v0, In v0 t -> v0 <> "")
        by (intros; apply Hne; right; assumption).
      destruct (lookup_color product_colors v) as [c0|] eqn:L; intros [E | Hin];
        try (eapply IH; eauto; fail);
        subst bars; cbn [Dataset.label Dataset.backgroundColor] in *;
        rewrite Ev, L in Hc; [inversion Hc; reflexivity | discriminate]. }
    eapply G; [|exact Hb].
    intros v Hv Ev. subst v.
    apply In_unique, In_dropna in Hv.
    rewrite PeriodKeys.rows_assign_period_ratio in Hv. simpl rows in Hv.
    rewrite !map_map in Hv.
    apply in_map_iff in Hv as (row & Hrow & _). simpl in Hrow.
    destruct (product row) as [[|a s]|]; discriminate.
Qed.

(** X29, witness: "V34" in the sample table, by quarter in the win-rate
    chart and by month in the ratio chart. *)
Lemma product_colours_witness :
  borderColor
    (mkLine (Dataset.mk "V34" [Py.Float 50; Py.Int 0] (Some 2) (Some false)
                        (Some "rgba(0, 0, 0, 0)"))
            "#9966FF" (Float64.round (4 # 10)))
  = "#9966FF"
  /\ Dataset.backgroundColor
       (Dataset.mk "V34" [Py.Int 1; Py.Int 1; Py.Int 0] None None (Some "#9966FF"))
     = Some "#9966FF".
Proof.
  apply (product_colours_agree Sample.pandas Sample.table "quarter" "month" None
           [Some "2024Q1"; Some "2024Q2"]
           (style_products
              [Dataset.mk "V34" [Py.Float 50; Py.Int 0] (Some 2) (Some false) None;
               Dataset.mk "" [Py.Float 0; Py.Int 0] (Some 2) (Some false) None;
               Dataset.mk "Whitening Kit" [Py.Int 0; Py.Int 0] (Some 2) (Some false) None] 0)
           _
           (Datasets.mk [Some "Jan 2024"; Some "Feb 2024"; Some "Apr 2024"]
              [Dataset.mk "V34" [Py.Int 1; Py.Int 1; Py.Int 0] None None (Some "#9966FF");
               Dataset.mk "Unknown" [Py.Int 1; Py.Int 0; Py.Int 0] None None
                 (Some "#FF6384");
               Dataset.mk "Whitening Kit" [Py.Int 0; Py.Int 0; Py.Int 1] None None
                 (Some "#36A2EB")])).
  - vm_compute. reflexivity.
  - left. reflexivity.
  - vm_compute. reflexivity.
  - left. reflexivity.
  - reflexivity.
  - reflexivity.
Defined.

End ViewFacts.
